(** * aiaio: the chat store of [src/aiaio/db.py]

    A shallow embedding of the [ChatDatabase] class and of the SQL schema
    [_DB] it runs on.  The SQLite engine is modelled by the rows of the four
    tables; every method of the class is a function from the database
    before the call to the outcome of the call and the database after it.

    Conventions.
    - A value of a column whose content the code does not fix is a [value]
      (SQLite's storage classes).  A Python [float] and a REAL are the
      rational they denote: the code stores, compares and orders them and
      does no arithmetic on them.
    - Arguments are typed by the annotations of the methods ([str], [int],
      [Dict] with the keys the method reads); a key that is absent from a
      dictionary is [None].  A Python [int] is unbounded: where [sqlite3]
      binds one to a statement, the 64 bits of SQLite's INTEGER are checked
      as the module checks them.
    - [uuid.uuid4()] and [time.time()] are inputs of the functions that call
      them. *)

From Stdlib Require Import ZArith QArith List String Ascii Bool Lia.
From Stdlib Require Import Permutation Sorted.
Import ListNotations.
Local Open Scope string_scope.
Local Open Scope list_scope.

(** ** Values and rows *)

Inductive value : Type :=
| Null
| Int (n : Z)
| Real (q : Q)
| Text (s : string).

(** [CREATE TABLE conversations] *)
Record conversation : Type := mk_conversation {
  c_conversation_id : string;
  c_created_at : value;
  c_last_updated : value;
  c_summary : option string
}.

(** [CREATE TABLE messages] *)
Record message : Type := mk_message {
  m_message_id : string;
  m_conversation_id : string;
  m_role : string;
  m_content_type : string;
  m_content : string;
  m_created_at : Q
}.

(** [CREATE TABLE attachments] *)
Record attachment : Type := mk_attachment {
  a_attachment_id : string;
  a_message_id : string;
  a_file_name : string;
  a_file_path : string;
  a_file_type : string;
  a_file_size : Z;
  a_created_at : Q
}.

(** [CREATE TABLE settings]; the BOOLEAN column ["default"] holds SQLite's
    [true] and [false]. *)
Record settings_row : Type := mk_settings_row {
  s_id : Z;
  s_name : string;
  s_default : bool;
  s_temperature : Q;
  s_max_tokens : Z;
  s_top_p : Q;
  s_host : string;
  s_model_name : string;
  s_api_key : string;
  s_updated_at : value
}.

(** The conversations table carries its column names: stores written before
    the [summary] column existed lack it, and [_init_db] looks for it. *)
Record conversations_table : Type := mk_conversations_table {
  conv_columns : list string;
  conv_rows : list conversation
}.

(** The settings table carries the counter that AUTOINCREMENT keeps in
    [sqlite_sequence]. *)
Record settings_table : Type := mk_settings_table {
  settings_rows : list settings_row;
  settings_seq : Z
}.

(** A database file: each of the four tables is there or not.  Rows are
    kept in rowid order, which is the order of insertion. *)
Record db : Type := mk_db {
  conversations : option conversations_table;
  messages : option (list message);
  attachments : option (list attachment);
  settings : option settings_table
}.

(** What is at [db_path]: no file, or a database. *)
Definition store : Type := option db.

Definition empty_db : db := mk_db None None None None.

Definition set_conversations (d : db) (t : conversations_table) : db :=
  mk_db (Some t) (messages d) (attachments d) (settings d).
Definition set_messages (d : db) (rows : list message) : db :=
  mk_db (conversations d) (Some rows) (attachments d) (settings d).
Definition set_attachments (d : db) (rows : list attachment) : db :=
  mk_db (conversations d) (messages d) (Some rows) (settings d).
Definition set_settings (d : db) (t : settings_table) : db :=
  mk_db (conversations d) (messages d) (attachments d) (Some t).

(** ** Exceptions, statements and connections *)

Inductive exn : Type :=
| OperationalError (msg : string)
| IntegrityError (msg : string)
| KeyError (key : string)
| OverflowError (msg : string).

(** The outcome of a statement, with the database as the connection sees it
    at that point. *)
Inductive res (A : Type) : Type :=
| Ok (a : A) (d : db)
| Raise (e : exn) (d : db).
Arguments Ok {A} a d.
Arguments Raise {A} e d.

Definition stmt (A : Type) : Type := db -> res A.

Definition ret {A : Type} (a : A) : stmt A := fun d => Ok a d.
Definition raise {A : Type} (e : exn) : stmt A := fun d => Raise e d.
Definition bind {A B : Type} (c : stmt A) (k : A -> stmt B) : stmt B :=
  fun d => match c d with
           | Ok a d' => k a d'
           | Raise e d' => Raise e d'
           end.

Notation "x <- c ;; k" := (bind c (fun x => k))
  (at level 61, c at next level, right associativity).
Notation "c ;;; k" := (bind c (fun _ => k))
  (at level 61, right associativity).

(** The outcome of a method call. *)
Inductive result (A : Type) : Type :=
| Returned (a : A)
| Raised (e : exn).
Arguments Returned {A} a.
Arguments Raised {A} e.

(** [with sqlite3.connect(self.db_path) as conn: body].  The first INSERT,
    UPDATE or DELETE of the body opens a transaction; leaving the block
    commits it, and an exception that escapes the block rolls it back. *)
Definition with_connection {A : Type} (body : stmt A) (d : db) : result A * db :=
  match body d with
  | Ok a d' => (Returned a, d')
  | Raise e _ => (Raised e, d)
  end.

(** The same block when its writes are [executescript] and ALTER TABLE:
    these run outside a transaction, so what was written before an
    exception stays written. *)
Definition with_connection_autocommit {A : Type} (body : stmt A) (d : db)
  : result A * db :=
  match body d with
  | Ok a d' => (Returned a, d')
  | Raise e d' => (Raised e, d')
  end.

(** ** The parameters of a statement *)

(** SQLite's INTEGER holds 64 signed bits.  [sqlite3] raises [OverflowError]
    when it binds a Python [int] outside them; the statement has been
    prepared by then and has not run. *)
Definition min_int64 : Z := (- 2 ^ 63)%Z.
Definition max_int64 : Z := (2 ^ 63 - 1)%Z.

Definition in_int64 (n : Z) : bool :=
  ((min_int64 <=? n) && (n <=? max_int64))%Z.

Definition too_large {A : Type} : stmt A :=
  raise (OverflowError "Python int too large to convert to SQLite INTEGER").

(** A number given for a key that holds a [float]; Python takes an [int]
    there as well.  [PyFloat q] is the float of value [q]. *)
Inductive number : Type :=
| PyInt (n : Z)
| PyFloat (q : Q).

(** Whether [sqlite3] can bind the number. *)
Definition fits (x : number) : bool :=
  match x with
  | PyInt n => in_int64 n
  | PyFloat _ => true
  end.

(** The double next to a 64-bit integer, a tie going to the even
    significand of 53 bits: SQLite's conversion of an INTEGER to a REAL. *)
Definition nearest_double (n : Z) : Z :=
  let a := Z.abs n in
  let k := (Z.log2 a - 52)%Z in
  if (k <=? 0)%Z then n
  else
    let q := Z.shiftr a k in
    let r := Z.land a (Z.ones k) in
    let half := Z.shiftl 1 (k - 1) in
    let q' := if (r <? half)%Z then q
              else if (half <? r)%Z then (q + 1)%Z
              else if Z.even q then q else (q + 1)%Z in
    (Z.sgn n * Z.shiftl q' k)%Z.

(** What a column of REAL affinity stores of a number bound to it. *)
Definition to_real (x : number) : Q :=
  match x with
  | PyInt n => inject_Z (nearest_double n)
  | PyFloat q => q
  end.

(** ** [str(uuid.uuid4())] *)

Definition uuid : Type := N.

Definition hex_digit (n : N) : ascii :=
  match (n mod 16)%N with
  | 0%N => "0" | 1%N => "1" | 2%N => "2" | 3%N => "3"
  | 4%N => "4" | 5%N => "5" | 6%N => "6" | 7%N => "7"
  | 8%N => "8" | 9%N => "9" | 10%N => "a" | 11%N => "b"
  | 12%N => "c" | 13%N => "d" | 14%N => "e" | _ => "f"
  end%char.

(** The [w] low hexadecimal digits of [v], most significant first. *)
Fixpoint hex (w : nat) (v : N) : string :=
  match w with
  | O => ""
  | S w' => (hex w' (v / 16)%N ++ String (hex_digit v) "")%string
  end.

(** The 8-4-4-4-12 rendering of the 128 bits of a UUID. *)
Definition str_uuid (u : uuid) : string :=
  (hex 8 (N.shiftr u 96) ++ "-" ++ hex 4 (N.shiftr u 80) ++ "-" ++
   hex 4 (N.shiftr u 64) ++ "-" ++ hex 4 (N.shiftr u 48) ++ "-" ++
   hex 12 u)%string.

(** Python's truth value of a string. *)
Definition truthy (s : string) : bool := negb (s =? "").

(** ** The statements of the schema [_DB] *)

Definition conversations_columns : list string :=
  ["conversation_id"; "created_at"; "last_updated"; "summary"].

Definition no_such_table {A : Type} (t : string) : stmt A :=
  raise (OperationalError ("no such table: " ++ t)).
Definition already_exists {A : Type} (t : string) : stmt A :=
  raise (OperationalError ("table " ++ t ++ " already exists")).

Definition create_table_conversations : stmt unit := fun d =>
  match conversations d with
  | Some _ => already_exists "conversations" d
  | None => Ok tt (set_conversations d (mk_conversations_table conversations_columns []))
  end.

Definition create_table_messages : stmt unit := fun d =>
  match messages d with
  | Some _ => already_exists "messages" d
  | None => Ok tt (set_messages d [])
  end.

Definition create_table_attachments : stmt unit := fun d =>
  match attachments d with
  | Some _ => already_exists "attachments" d
  | None => Ok tt (set_attachments d [])
  end.

Definition create_table_settings : stmt unit := fun d =>
  match settings d with
  | Some _ => already_exists "settings" d
  | None => Ok tt (set_settings d (mk_settings_table [] 0))
  end.

(** The rowid that [INTEGER PRIMARY KEY AUTOINCREMENT] gives the next row:
    one more than the largest that the table holds or ever held. *)
Definition max_id (rows : list settings_row) : Z :=
  fold_right Z.max 0%Z (map s_id rows).
Definition next_id (t : settings_table) : Z :=
  (Z.max (settings_seq t) (max_id (settings_rows t)) + 1)%Z.

(** [INSERT INTO settings (...) VALUES (...)]; a column that the statement
    leaves out is given here with the value of its DEFAULT clause.  The
    numbers are bound first; then the row gets its rowid, and SQLite refuses
    the row (SQLITE_FULL) once the largest rowid has been given.  Returns
    [cursor.lastrowid]. *)
Definition insert_settings (name : string) (default : bool) (temperature : number)
    (max_tokens : Z) (top_p : number) (host model_name api_key : string)
    (updated_at : value) : stmt Z := fun d =>
  match settings d with
  | None => no_such_table "settings" d
  | Some t =>
      if negb (fits temperature && in_int64 max_tokens && fits top_p)
      then too_large d
      else if (max_int64 <? next_id t)%Z
      then raise (OperationalError "database or disk is full") d
      else
        let i := next_id t in
        let row := mk_settings_row i name default (to_real temperature) max_tokens
                                   (to_real top_p) host model_name api_key updated_at in
        Ok i (set_settings d (mk_settings_table (settings_rows t ++ [row]) i))
  end.

Definition default_host : string := "http://localhost:8000/v1".
Definition default_model_name : string := "meta-llama/Llama-3.2-1B-Instruct".

(** The INSERT that ends [_DB]; [now] is the value of
    [strftime('%s.%f', 'now')] as the column [updated_at] stores it. *)
Definition insert_default_settings (now : value) : stmt unit :=
  insert_settings "default" true (PyFloat 1.0) 4096%Z (PyFloat 0.95)
                  default_host default_model_name "" now ;;; ret tt.

Definition _DB (now : value) : list (stmt unit) :=
  [ create_table_conversations;
    create_table_messages;
    create_table_attachments;
    create_table_settings;
    insert_default_settings now ].

(** [conn.executescript(script)]: the statements in turn, until one fails. *)
Fixpoint executescript (script : list (stmt unit)) : stmt unit :=
  match script with
  | [] => ret tt
  | s :: rest => s ;;; executescript rest
  end.

(** ** [_init_db] *)

Definition present {A : Type} (table : option A) : bool :=
  match table with
  | Some _ => true
  | None => false
  end.

(** [SELECT name FROM sqlite_master WHERE type='table' AND name IN (...)] *)
Definition select_tables : stmt (list string) := fun d =>
  Ok ((if present (conversations d) then ["conversations"] else []) ++
      (if present (messages d) then ["messages"] else []) ++
      (if present (attachments d) then ["attachments"] else []) ++
      (if present (settings d) then ["settings"] else [])) d.

(** [PRAGMA table_info(conversations)], the column names [col[1]]. *)
Definition table_info_conversations : stmt (list string) := fun d =>
  match conversations d with
  | Some t => Ok (conv_columns t) d
  | None => Ok [] d
  end.

(** SQLite compares the names of columns without regard to the case of
    the letters A to Z. *)
Definition lower (c : ascii) : ascii :=
  let n := nat_of_ascii c in
  if ((65 <=? n) && (n <=? 90))%nat then ascii_of_nat (n + 32) else c.

Fixpoint lowercase (s : string) : string :=
  match s with
  | EmptyString => EmptyString
  | String c rest => String (lower c) (lowercase rest)
  end.

Definition has_column (name : string) (columns : list string) : bool :=
  existsb (fun c => lowercase c =? lowercase name) columns.

(** [ALTER TABLE conversations ADD COLUMN summary TEXT]: the rows are left
    as they are and read NULL in the new column. *)
Definition alter_table_add_summary : stmt unit := fun d =>
  match conversations d with
  | None => no_such_table "conversations" d
  | Some t =>
      if has_column "summary" (conv_columns t)
      then raise (OperationalError "duplicate column name: summary") d
      else Ok tt (set_conversations d
                    (mk_conversations_table (conv_columns t ++ ["summary"]) (conv_rows t)))
  end.

(** [sqlite3.connect] creates the file when there is none. *)
Definition connect (s : store) : db :=
  match s with
  | Some d => d
  | None => empty_db
  end.

Definition _init_db (now : value) (s : store) : result unit * store :=
  let db_exists := present s in
  let (r, d) :=
    with_connection_autocommit
      (if negb db_exists then executescript (_DB now)
       else
         tables <- select_tables ;;
         if (List.length tables <? 4)%nat then executescript (_DB now)
         else
           columns <- table_info_conversations ;;
           if negb (existsb (String.eqb "summary") columns)
           then alter_table_add_summary
           else ret tt)
      (connect s) in
  (r, Some d).

(** ** Conversations *)

(** [INSERT INTO conversations (conversation_id) VALUES (?)] *)
Definition insert_conversation (conversation_id : string) (now : value) : stmt unit :=
  fun d =>
  match conversations d with
  | None => no_such_table "conversations" d
  | Some t =>
      if existsb (fun c => c_conversation_id c =? conversation_id) (conv_rows t)
      then raise (IntegrityError "UNIQUE constraint failed: conversations.conversation_id") d
      else Ok tt (set_conversations d
                    (mk_conversations_table (conv_columns t)
                       (conv_rows t ++ [mk_conversation conversation_id now now None])))
  end.

Definition create_conversation (u : uuid) (now : value) (d : db) : result string * db :=
  let conversation_id := str_uuid u in
  with_connection (insert_conversation conversation_id now ;;; ret conversation_id) d.

(** [UPDATE conversations SET summary = ? WHERE conversation_id = ?] *)
Definition update_summary (summary conversation_id : string) : stmt unit := fun d =>
  match conversations d with
  | None => no_such_table "conversations" d
  | Some t =>
      if has_column "summary" (conv_columns t)
      then Ok tt (set_conversations d
                    (mk_conversations_table (conv_columns t)
                       (map (fun c => if c_conversation_id c =? conversation_id
                                      then mk_conversation (c_conversation_id c) (c_created_at c)
                                                           (c_last_updated c) (Some summary)
                                      else c)
                            (conv_rows t))))
      else raise (OperationalError "no such column: summary") d
  end.

Definition update_conversation_summary (conversation_id summary : string) (d : db)
  : result unit * db :=
  with_connection (update_summary summary conversation_id) d.

(** ** Messages and attachments *)

Definition role_ok (role : string) : bool :=
  existsb (String.eqb role) ["user"; "assistant"; "system"].
Definition content_type_ok (content_type : string) : bool :=
  existsb (String.eqb content_type) ["text"; "image"; "audio"; "video"; "file"].

(** [INSERT INTO messages (...) VALUES (?, ?, ?, ?, ?, ?)], with the CHECK
    constraints of the two enumerated columns and the primary key. *)
Definition insert_message (m : message) : stmt unit := fun d =>
  match messages d with
  | None => no_such_table "messages" d
  | Some rows =>
      if negb (role_ok (m_role m) && content_type_ok (m_content_type m))
      then raise (IntegrityError "CHECK constraint failed") d
      else if existsb (fun m' => m_message_id m' =? m_message_id m) rows
      then raise (IntegrityError "UNIQUE constraint failed: messages.message_id") d
      else Ok tt (set_messages d (rows ++ [m]))
  end.

(** [UPDATE conversations SET last_updated = ? WHERE conversation_id = ?] *)
Definition touch (c : conversation) (current_time : Q) : conversation :=
  mk_conversation (c_conversation_id c) (c_created_at c) (Real current_time) (c_summary c).

Definition update_last_updated (current_time : Q) (conversation_id : string)
  : stmt unit := fun d =>
  match conversations d with
  | None => no_such_table "conversations" d
  | Some t =>
      Ok tt (set_conversations d
               (mk_conversations_table (conv_columns t)
                  (map (fun c => if c_conversation_id c =? conversation_id
                                 then touch c current_time else c)
                       (conv_rows t))))
  end.

(** [INSERT INTO attachments (...) VALUES (?, ?, ?, ?, ?, ?, ?)]: the size
    is bound as an INTEGER, then the primary key is checked. *)
Definition insert_attachment (a : attachment) : stmt unit := fun d =>
  match attachments d with
  | None => no_such_table "attachments" d
  | Some rows =>
      if negb (in_int64 (a_file_size a))
      then too_large d
      else if existsb (fun a' => a_attachment_id a' =? a_attachment_id a) rows
      then raise (IntegrityError "UNIQUE constraint failed: attachments.attachment_id") d
      else Ok tt (set_attachments d (rows ++ [a]))
  end.

(** An attachment descriptor: the dictionary with the keys ["name"],
    ["path"], ["type"] and ["size"] that [add_message] reads. *)
Record attachment_dict : Type := mk_attachment_dict {
  d_name : option string;
  d_path : option string;
  d_type : option string;
  d_size : option Z
}.

(** [dict[key]] *)
Definition getitem {A : Type} (item : option A) (key : string) : stmt A :=
  match item with
  | Some v => ret v
  | None => raise (KeyError key)
  end.

(** The loop [for att in attachments]; [uuid4 i] is the value of the [i]-th
    call of [uuid.uuid4()] made by [add_message]. *)
Fixpoint insert_attachments (uuid4 : nat -> uuid) (i : nat) (message_id : string)
    (current_time : Q) (atts : list attachment_dict) : stmt unit :=
  match atts with
  | [] => ret tt
  | att :: rest =>
      let attachment_id := str_uuid (uuid4 i) in
      name <- getitem (d_name att) "name" ;;
      path <- getitem (d_path att) "path" ;;
      type <- getitem (d_type att) "type" ;;
      size <- getitem (d_size att) "size" ;;
      insert_attachment
        (mk_attachment attachment_id message_id name path type size current_time) ;;;
      insert_attachments uuid4 (S i) message_id current_time rest
  end.

(** Python's truth value of [attachments : Optional[List[Dict]]]. *)
Definition nonempty {A : Type} (l : option (list A)) : bool :=
  match l with
  | Some (_ :: _) => true
  | _ => false
  end.

Definition items {A : Type} (l : option (list A)) : list A :=
  match l with
  | Some l => l
  | None => []
  end.

(** The statements of [add_message] inside its [with] block. *)
Definition add_message_body (uuid4 : nat -> uuid) (current_time : Q)
    (conversation_id role content content_type : string)
    (attachments : option (list attachment_dict)) : stmt string :=
  let message_id := str_uuid (uuid4 O) in
  insert_message
    (mk_message message_id conversation_id role content_type content current_time) ;;;
  update_last_updated current_time conversation_id ;;;
  (if nonempty attachments
   then insert_attachments uuid4 1 message_id current_time (items attachments)
   else ret tt) ;;;
  ret message_id.

Definition add_message (uuid4 : nat -> uuid) (current_time : Q)
    (conversation_id role content content_type : string)
    (attachments : option (list attachment_dict)) (d : db) : result string * db :=
  with_connection
    (add_message_body uuid4 current_time conversation_id role content content_type
                      attachments)
    d.

(** ** [get_conversation_history] *)

(** A row of [messages m LEFT JOIN attachments a]: the columns of [m] and
    those of [a], which are NULL when no attachment matches. *)
Definition join_row : Type := (message * option attachment)%type.

(** The rows that the join makes for one message. *)
Definition rows_of (ats : list attachment) (m : message) : list join_row :=
  match filter (fun a => m_message_id m =? a_message_id a) ats with
  | [] => [(m, None)]
  | matching => map (fun a => (m, Some a)) matching
  end.

Definition left_join (ms : list message) (ats : list attachment) : list join_row :=
  flat_map (rows_of ats) ms.

(** [ORDER BY m.created_at ASC] *)
Definition created_leb (r1 r2 : join_row) : bool :=
  Qle_bool (m_created_at (fst r1)) (m_created_at (fst r2)).

Fixpoint insert_sorted (r : join_row) (rows : list join_row) : list join_row :=
  match rows with
  | [] => [r]
  | r' :: rest => if created_leb r r' then r :: rows else r' :: insert_sorted r rest
  end.

Definition order_by_created_at (rows : list join_row) : list join_row :=
  fold_right insert_sorted [] rows.

(** The SELECT of [get_conversation_history]. *)
Definition select_history (conversation_id : string) : stmt (list join_row) := fun d =>
  match messages d, attachments d with
  | None, _ => no_such_table "messages" d
  | _, None => no_such_table "attachments" d
  | Some ms, Some ats =>
      Ok (order_by_created_at
            (filter (fun r => m_conversation_id (fst r) =? conversation_id)
                    (left_join ms ats)))
         d
  end.

(** The dictionary of an attachment in the history. *)
Record attachment_info : Type := mk_attachment_info {
  i_attachment_id : string;
  i_file_name : string;
  i_file_path : string;
  i_file_type : string;
  i_file_size : Z
}.

Definition info_of (a : attachment) : attachment_info :=
  mk_attachment_info (a_attachment_id a) (a_file_name a) (a_file_path a)
                     (a_file_type a) (a_file_size a).

(** An entry of the history: the six columns of the message and the list
    under ["attachments"]. *)
Record history_entry : Type := mk_history_entry {
  h_message : message;
  h_attachments : list attachment_info
}.

(** [message_dict]: a Python dictionary keeps its keys in insertion order. *)
Definition message_dict : Type := list (string * history_entry).

Definition contains (message_id : string) (dict : message_dict) : bool :=
  existsb (fun kv => fst kv =? message_id) dict.

(** [message_dict[message_id]["attachments"].append(info)] *)
Fixpoint append_attachment (message_id : string) (info : attachment_info)
    (dict : message_dict) : message_dict :=
  match dict with
  | [] => []
  | (k, e) :: rest =>
      if k =? message_id
      then (k, mk_history_entry (h_message e) (h_attachments e ++ [info])) :: rest
      else (k, e) :: append_attachment message_id info rest
  end.

(** The body of the loop [for row in messages]. *)
Definition group_row (dict : message_dict) (row : join_row) : message_dict :=
  let message_id := m_message_id (fst row) in
  let dict :=
    if contains message_id dict then dict
    else dict ++ [(message_id, mk_history_entry (fst row) [])] in
  match snd row with
  | Some a =>
      if truthy (a_attachment_id a)
      then append_attachment message_id (info_of a) dict
      else dict
  | None => dict
  end.

Definition group_rows (rows : list join_row) : message_dict :=
  fold_left group_row rows [].

Definition get_conversation_history (conversation_id : string) (d : db)
  : result (list history_entry) :=
  fst (with_connection
         (rows <- select_history conversation_id ;;
          ret (map snd (group_rows rows)))
         d).

(** ** [delete_conversation] *)

(** [DELETE FROM attachments WHERE message_id IN
     (SELECT message_id FROM messages WHERE conversation_id = ?)] *)
Definition delete_attachments_of (conversation_id : string) : stmt unit := fun d =>
  match attachments d, messages d with
  | None, _ => no_such_table "attachments" d
  | _, None => no_such_table "messages" d
  | Some ats, Some ms =>
      let ids := map m_message_id
                     (filter (fun m => m_conversation_id m =? conversation_id) ms) in
      Ok tt (set_attachments d
               (filter (fun a => negb (existsb (String.eqb (a_message_id a)) ids)) ats))
  end.

(** [DELETE FROM messages WHERE conversation_id = ?] *)
Definition delete_messages_of (conversation_id : string) : stmt unit := fun d =>
  match messages d with
  | None => no_such_table "messages" d
  | Some ms =>
      Ok tt (set_messages d
               (filter (fun m => negb (m_conversation_id m =? conversation_id)) ms))
  end.

(** [DELETE FROM conversations WHERE conversation_id = ?] *)
Definition delete_conversation_row (conversation_id : string) : stmt unit := fun d =>
  match conversations d with
  | None => no_such_table "conversations" d
  | Some t =>
      Ok tt (set_conversations d
               (mk_conversations_table (conv_columns t)
                  (filter (fun c => negb (c_conversation_id c =? conversation_id))
                          (conv_rows t))))
  end.

Definition delete_conversation (conversation_id : string) (d : db) : result unit * db :=
  with_connection
    (delete_attachments_of conversation_id ;;;
     delete_messages_of conversation_id ;;;
     delete_conversation_row conversation_id)
    d.

(** ** Settings *)

(** The dictionary that [save_settings] and [add_settings] read. *)
Record settings_dict : Type := mk_settings_dict {
  g_id : option Z;
  g_name : option string;
  g_temperature : option number;
  g_max_tokens : option Z;
  g_top_p : option number;
  g_host : option string;
  g_model_name : option string;
  g_api_key : option string
}.

(** [dict.get(key, default)] *)
Definition get {A : Type} (item : option A) (default : A) : A :=
  match item with
  | Some v => v
  | None => default
  end.

(** [SET name = ?, temperature = ?, ..., updated_at = ?] on one row. *)
Definition set_fields (r : settings_row) (name : string) (temperature : Q)
    (max_tokens : Z) (top_p : Q) (host model_name api_key : string)
    (updated_at : value) : settings_row :=
  mk_settings_row (s_id r) name (s_default r) temperature max_tokens top_p
                  host model_name api_key updated_at.

(** [UPDATE settings SET name = ?, ..., updated_at = ? WHERE id = ?]: the
    numbers and the identifier are bound, then the rows are written.
    Returns [cursor.rowcount]. *)
Definition update_settings (name : string) (temperature : number) (max_tokens : Z)
    (top_p : number) (host model_name api_key : string) (updated_at : value) (id : Z)
  : stmt nat := fun d =>
  match settings d with
  | None => no_such_table "settings" d
  | Some t =>
      if negb (fits temperature && in_int64 max_tokens && fits top_p && in_int64 id)
      then too_large d
      else
        Ok (List.length (filter (fun r => (s_id r =? id)%Z) (settings_rows t)))
           (set_settings d
              (mk_settings_table
                 (map (fun r => if (s_id r =? id)%Z
                                then set_fields r name (to_real temperature) max_tokens
                                                (to_real top_p) host model_name api_key
                                                updated_at
                                else r)
                      (settings_rows t))
                 (settings_seq t)))
  end.

Definition save_settings (current_time : Q) (settings : settings_dict) (d : db)
  : result bool * db :=
  with_connection
    (match g_id settings with
     | None =>
         insert_settings
           (get (g_name settings) "New Config")
           false
           (get (g_temperature settings) (PyFloat 1.0))
           (get (g_max_tokens settings) 4096%Z)
           (get (g_top_p settings) (PyFloat 0.95))
           (get (g_host settings) default_host)
           (get (g_model_name settings) default_model_name)
           (get (g_api_key settings) "")
           (Real current_time) ;;;
         ret (0 <? 1)%nat
     | Some id =>
         rowcount <-
           update_settings
             (get (g_name settings) "Default Config")
             (get (g_temperature settings) (PyFloat 1.0))
             (get (g_max_tokens settings) 4096%Z)
             (get (g_top_p settings) (PyFloat 0.95))
             (get (g_host settings) default_host)
             (get (g_model_name settings) default_model_name)
             (get (g_api_key settings) "")
             (Real current_time)
             id ;;
         ret (0 <? rowcount)%nat
     end)
    d.

(** [SELECT * FROM settings WHERE "default" = true], [fetchone()] *)
Definition get_settings (d : db) : result (option settings_row) :=
  fst (with_connection
         (fun d => match settings d with
                   | None => no_such_table "settings" d
                   | Some t => Ok (find s_default (settings_rows t)) d
                   end)
         d).

(** [now] is what the DEFAULT clause of [updated_at] yields. *)
Definition add_settings (now : value) (settings : settings_dict) (d : db)
  : result Z * db :=
  with_connection
    (insert_settings
       (get (g_name settings) "New Config")
       false
       (get (g_temperature settings) (PyFloat 1.0))
       (get (g_max_tokens settings) 4096%Z)
       (get (g_top_p settings) (PyFloat 0.95))
       (get (g_host settings) default_host)
       (get (g_model_name settings) default_model_name)
       (get (g_api_key settings) "")
       now)
    d.

(** [SET "default" = flag] on one row. *)
Definition set_default (r : settings_row) (flag : bool) : settings_row :=
  mk_settings_row (s_id r) (s_name r) flag (s_temperature r) (s_max_tokens r)
                  (s_top_p r) (s_host r) (s_model_name r) (s_api_key r) (s_updated_at r).

(** [UPDATE settings SET "default" = false WHERE "default" = true] *)
Definition clear_default : stmt unit := fun d =>
  match settings d with
  | None => no_such_table "settings" d
  | Some t =>
      Ok tt (set_settings d
               (mk_settings_table
                  (map (fun r => if s_default r then set_default r false else r)
                       (settings_rows t))
                  (settings_seq t)))
  end.

(** [UPDATE settings SET "default" = true WHERE id = ?]: the identifier is
    bound, then the rows are written.  Returns [cursor.rowcount]. *)
Definition mark_default (settings_id : Z) : stmt nat := fun d =>
  match settings d with
  | None => no_such_table "settings" d
  | Some t =>
      if negb (in_int64 settings_id)
      then too_large d
      else
        Ok (List.length (filter (fun r => (s_id r =? settings_id)%Z) (settings_rows t)))
           (set_settings d
              (mk_settings_table
                 (map (fun r => if (s_id r =? settings_id)%Z then set_default r true else r)
                      (settings_rows t))
                 (settings_seq t)))
  end.

Definition set_default_settings (settings_id : Z) (d : db) : result bool * db :=
  with_connection
    (clear_default ;;;
     rowcount <- mark_default settings_id ;;
     ret (0 <? rowcount)%nat)
    d.

(** [SELECT * FROM settings WHERE id = ?], [fetchone()]; the identifier is
    bound as an INTEGER. *)
Definition get_settings_by_id (settings_id : Z) (d : db) : result (option settings_row) :=
  fst (with_connection
         (fun d => match settings d with
                   | None => no_such_table "settings" d
                   | Some t =>
                       if negb (in_int64 settings_id)
                       then too_large d
                       else Ok (find (fun r => (s_id r =? settings_id)%Z)
                                     (settings_rows t)) d
                   end)
         d).

(** ** Sequences of calls *)

(** The calls that write to the store, each with the values that the clock
    and the UUID generator give it. *)
Inductive call : Type :=
| Init (now : value)
| CreateConversation (u : uuid) (now : value)
| AddMessage (uuid4 : nat -> uuid) (current_time : Q)
             (conversation_id role content content_type : string)
             (attachments : option (list attachment_dict))
| DeleteConversation (conversation_id : string)
| UpdateConversationSummary (conversation_id summary : string)
| SaveSettings (current_time : Q) (settings : settings_dict)
| AddSettings (now : value) (settings : settings_dict)
| SetDefaultSettings (settings_id : Z).

(** The store after a call, whether the call returned or raised. *)
Definition exec (s : store) (c : call) : store :=
  match c with
  | Init now => snd (_init_db now s)
  | CreateConversation u now => Some (snd (create_conversation u now (connect s)))
  | AddMessage uuid4 t cid role content ctype atts =>
      Some (snd (add_message uuid4 t cid role content ctype atts (connect s)))
  | DeleteConversation cid => Some (snd (delete_conversation cid (connect s)))
  | UpdateConversationSummary cid summary =>
      Some (snd (update_conversation_summary cid summary (connect s)))
  | SaveSettings t g => Some (snd (save_settings t g (connect s)))
  | AddSettings now g => Some (snd (add_settings now g (connect s)))
  | SetDefaultSettings id => Some (snd (set_default_settings id (connect s)))
  end.

Definition run (calls : list call) (s : store) : store :=
  fold_left exec calls s.

(** The stores that the calls of the class produce from nothing. *)
Definition reachable (s : store) : Prop :=
  exists calls, s = run calls None.

(** The rows of [settings]. *)
Definition profiles (d : db) : list settings_row :=
  match settings d with
  | Some t => settings_rows t
  | None => []
  end.

(** The number of profiles that carry the default flag. *)
Definition count_default (rows : list settings_row) : nat :=
  List.length (filter s_default rows).

Definition defaults_of (s : store) : list settings_row :=
  match s with
  | Some d => match settings d with
              | Some t => filter s_default (settings_rows t)
              | None => []
              end
  | None => []
  end.

(** ** Listings *)

(** The order in which SQLite compares values of different storage
    classes: NULL first, then the numbers by their value, then the texts
    byte by byte. *)
Definition value_leb (v1 v2 : value) : bool :=
  match v1, v2 with
  | Null, _ => true
  | _, Null => false
  | Int a, Int b => (a <=? b)%Z
  | Int a, Real q => Qle_bool (inject_Z a) q
  | Real p, Int b => Qle_bool p (inject_Z b)
  | Real p, Real q => Qle_bool p q
  | Int _, Text _ => true
  | Real _, Text _ => true
  | Text _, Int _ => false
  | Text _, Real _ => false
  | Text s, Text t => (s <=? t)%string
  end.

(** A dictionary of [get_all_conversations]: the columns of the
    conversation, [message_count] and [last_message_at].  The key
    ["summary"] is there when the table has the column. *)
Record conversation_info : Type := mk_conversation_info {
  l_conversation_id : string;
  l_created_at : value;
  l_last_updated : value;
  l_summary : option (option string);
  l_message_count : Z;
  l_last_message_at : option Q
}.

(** [MAX(m.created_at)] over the messages of a group; NULL for no message. *)
Definition max_created_at (ms : list message) : option Q :=
  fold_right
    (fun m acc =>
       match acc with
       | None => Some (m_created_at m)
       | Some q => if Qle_bool q (m_created_at m) then Some (m_created_at m) else Some q
       end)
    None ms.

(** The messages that [LEFT JOIN messages m ON c.conversation_id =
    m.conversation_id] joins to a conversation. *)
Definition messages_in (c : conversation) (ms : list message) : list message :=
  filter (fun m => c_conversation_id c =? m_conversation_id m) ms.

(** [ORDER BY c.created_at ASC] *)
Fixpoint insert_by_created_at (i : conversation_info) (l : list conversation_info)
  : list conversation_info :=
  match l with
  | [] => [i]
  | i' :: rest =>
      if value_leb (l_created_at i) (l_created_at i') then i :: l
      else i' :: insert_by_created_at i rest
  end.

(** The SELECT of [get_all_conversations].  [conversation_id] is the primary
    key of [conversations], so that each group of [GROUP BY
    c.conversation_id] is one conversation with the messages joined to it:
    [COUNT(m.message_id)] counts them and [MAX(m.created_at)] is over them. *)
Definition conversation_entry (columns : list string) (ms : list message)
    (c : conversation) : conversation_info :=
  mk_conversation_info
    (c_conversation_id c) (c_created_at c) (c_last_updated c)
    (if existsb (String.eqb "summary") columns then Some (c_summary c) else None)
    (Z.of_nat (List.length (messages_in c ms)))
    (max_created_at (messages_in c ms)).

Definition select_conversations : stmt (list conversation_info) := fun d =>
  match conversations d, messages d with
  | None, _ => no_such_table "conversations" d
  | _, None => no_such_table "messages" d
  | Some t, Some ms =>
      Ok (fold_right insert_by_created_at []
            (map (conversation_entry (conv_columns t) ms) (conv_rows t)))
         d
  end.

Definition get_all_conversations (d : db) : result (list conversation_info) :=
  fst (with_connection select_conversations d).

(** [ORDER BY name] *)
Fixpoint insert_by_name (r : settings_row) (rows : list settings_row)
  : list settings_row :=
  match rows with
  | [] => [r]
  | r' :: rest =>
      if (s_name r <=? s_name r')%string then r :: rows
      else r' :: insert_by_name r rest
  end.

(** [SELECT * FROM settings ORDER BY name] *)
Definition get_all_settings (d : db) : result (list settings_row) :=
  fst (with_connection
         (fun d => match settings d with
                   | None => no_such_table "settings" d
                   | Some t => Ok (fold_right insert_by_name [] (settings_rows t)) d
                   end)
         d).

(** * Predicates *)

(** ** Invariants *)

(** [preserves P c]: from a database where [P] holds, [c] leaves one where
    [P] holds, whether it returns or raises. *)
Definition preserves {A : Type} (P : db -> Prop) (c : stmt A) : Prop :=
  forall d, P d ->
    match c d with
    | Ok _ d' => P d'
    | Raise _ d' => P d'
    end.

(** The primary key of [settings], a rowid of 64 bits, and the single
    default. *)
Definition settings_ok (rows : list settings_row) : Prop :=
  NoDup (map s_id rows) /\ (count_default rows <= 1)%nat /\
  Forall (fun r => in_int64 (s_id r) = true) rows.

(** What the schema and the generated identifiers guarantee: identifiers of
    profiles and of messages are unique, at most one profile is the default,
    and no attachment has the empty identifier. *)
Definition db_ok (d : db) : Prop :=
  match settings d with
  | Some t => settings_ok (settings_rows t)
  | None => True
  end /\
  match messages d with
  | Some ms => NoDup (map m_message_id ms)
  | None => True
  end /\
  match attachments d with
  | Some ats => Forall (fun a => a_attachment_id a <> "") ats
  | None => True
  end.

Definition store_ok (s : store) : Prop := db_ok (connect s).

(** Every attachment row carries the identifier of a message row. *)
Definition refs_ok (d : db) : Prop :=
  forall a, In a (items (attachments d)) ->
            exists m, In m (items (messages d)) /\ m_message_id m = a_message_id a.

(** The rows of [messages] and [attachments] are [ms] and [ats]. *)
Definition rows_are (ms : list message) (ats : list attachment) (d : db) : Prop :=
  items (messages d) = ms /\ items (attachments d) = ats.

(** ** What [add_message] writes *)

(** The row that the loop of [add_message] inserts for a descriptor. *)
Definition row_of_dict (message_id : string) (current_time : Q)
    (att : attachment_dict) (a : attachment) : Prop :=
  d_name att = Some (a_file_name a) /\
  d_path att = Some (a_file_path a) /\
  d_type att = Some (a_file_type a) /\
  d_size att = Some (a_file_size a) /\
  a_message_id a = message_id /\
  a_created_at a = current_time.

(** A descriptor without one of the four keys. *)
Definition lacks_key (att : attachment_dict) : Prop :=
  d_name att = None \/ d_path att = None \/ d_type att = None \/ d_size att = None.

(** A descriptor whose size is not within the 64 bits of an INTEGER. *)
Definition oversized (att : attachment_dict) : Prop :=
  exists n, d_size att = Some n /\ ~ (- 2 ^ 63 <= n < 2 ^ 63)%Z.

(** The values that the CHECK constraints of [messages] admit. *)
Definition roles : list string := ["user"; "assistant"; "system"].
Definition content_types : list string := ["text"; "image"; "audio"; "video"; "file"].

(** What the UPDATE of [add_message] makes of a row of [conversations]:
    [last_updated] of a row of the conversation is the time of the call,
    and nothing else changes. *)
Definition touched_row (current_time : Q) (cid : string) (c c' : conversation) : Prop :=
  c_conversation_id c' = c_conversation_id c /\
  c_created_at c' = c_created_at c /\
  c_summary c' = c_summary c /\
  (c_conversation_id c = cid -> c_last_updated c' = Real current_time) /\
  (c_conversation_id c <> cid -> c_last_updated c' = c_last_updated c).

(** What the UPDATE of [add_message] leaves in [conversations]. *)
Definition touched (ct : conversations_table) (current_time : Q) (cid : string)
  : conversations_table :=
  mk_conversations_table
    (conv_columns ct)
    (map (fun c => if c_conversation_id c =? cid then touch c current_time else c)
         (conv_rows ct)).

(** ** What [get_conversation_history] reads *)

(** The order of [created_at], on rows and on messages. *)
Definition row_le (r1 r2 : join_row) : Prop :=
  (m_created_at (fst r1) <= m_created_at (fst r2))%Q.

Definition message_le (m1 m2 : message) : Prop :=
  (m_created_at m1 <= m_created_at m2)%Q.

(** The identifier of the message of a row. *)
Definition mid (r : join_row) : string := m_message_id (fst r).

(** What a row adds to the attachments of the message [k]. *)
Definition info_for (k : string) (r : join_row) : list attachment_info :=
  match snd r with
  | Some a => if (mid r =? k) && truthy (a_attachment_id a) then [info_of a] else []
  | None => []
  end.

(** The attachments that the rows give to the message [k], in their order. *)
Definition infos_for (k : string) (rows : list join_row) : list attachment_info :=
  flat_map (info_for k) rows.

(** The state of [message_dict] after the rows [rows]. *)
Definition grouped (rows : list join_row) (dict : message_dict) : Prop :=
  NoDup (map fst dict) /\
  (forall k, In k (map fst dict) <-> exists r, In r rows /\ mid r = k) /\
  (forall k e, In (k, e) dict ->
               m_message_id (h_message e) = k /\
               (exists r, In r rows /\ fst r = h_message e) /\
               h_attachments e = infos_for k rows).

(** A dictionary of the history shows the five columns of an attachment
    row that the SELECT reads. *)
Definition shows (i : attachment_info) (a : attachment) : Prop :=
  i_attachment_id i = a_attachment_id a /\
  i_file_name i = a_file_name a /\
  i_file_path i = a_file_path a /\
  i_file_type i = a_file_type a /\
  i_file_size i = a_file_size a.

(** A dictionary of the history has the values of a descriptor given to
    [add_message]. *)
Definition describes (att : attachment_dict) (i : attachment_info) : Prop :=
  d_name att = Some (i_file_name i) /\
  d_path att = Some (i_file_path i) /\
  d_type att = Some (i_file_type i) /\
  d_size att = Some (i_file_size i).

(** The messages of the entries of [message_dict], in its order. *)
Definition messages_of (dict : message_dict) : list message :=
  map (fun kv => h_message (snd kv)) dict.

(** ** What the settings methods store *)

(** The integers that SQLite's INTEGER holds. *)
Definition int64 (n : Z) : Prop := (- 2 ^ 63 <= n < 2 ^ 63)%Z.

(** The integers that a double holds exactly: 53 significant bits. *)
Definition exact_double (n : Z) : Prop :=
  exists j, (0 <= j)%Z /\ (2 ^ j | n)%Z /\ (Z.abs n <= 2 ^ (53 + j))%Z.

(** The integers of a dictionary are within 64 bits. *)
Definition bindable (g : settings_dict) : Prop :=
  (forall n, g_temperature g = Some (PyInt n) -> int64 n) /\
  (forall n, g_max_tokens g = Some n -> int64 n) /\
  (forall n, g_top_p g = Some (PyInt n) -> int64 n).

(** An integer given for [temperature] or [top_p] is exact as a double. *)
Definition exact (g : settings_dict) : Prop :=
  (forall n, g_temperature g = Some (PyInt n) -> exact_double n) /\
  (forall n, g_top_p g = Some (PyInt n) -> exact_double n).

(** [v] is the value given under a key, or [default] when the key is left
    out. *)
Definition given {A : Type} (item : option A) (default v : A) : Prop :=
  match item with
  | Some x => v = x
  | None => v = default
  end.


(** What a REAL column keeps of the number: of an integer, the double next
    to it. *)
Definition stored_number (item : option number) (default v : Q) : Prop :=
  match item with
  | Some (PyFloat q) => v = q
  | Some (PyInt n) => v = inject_Z (nearest_double n)
  | None => v = default
  end.

(** The row holds the values of the dictionary, with the default of the
    method for a key left out. *)
Definition holds (default_name : string) (g : settings_dict) (updated_at : value)
    (r : settings_row) : Prop :=
  given (g_name g) default_name (s_name r) /\
  stored_number (g_temperature g) 1.0 (s_temperature r) /\
  given (g_max_tokens g) 4096%Z (s_max_tokens r) /\
  stored_number (g_top_p g) 0.95 (s_top_p r) /\
  given (g_host g) "http://localhost:8000/v1" (s_host r) /\
  given (g_model_name g) "meta-llama/Llama-3.2-1B-Instruct" (s_model_name r) /\
  given (g_api_key g) "" (s_api_key r) /\
  s_updated_at r = updated_at.

(** What the UPDATE of [save_settings] makes of a row: the row of the
    identifier [id] takes the values of the dictionary and keeps its
    identifier and its flag, any other row is kept. *)
Definition saved (current_time : Q) (g : settings_dict) (id : Z)
    (r r' : settings_row) : Prop :=
  (s_id r <> id -> r' = r) /\
  (s_id r = id ->
   s_id r' = s_id r /\ s_default r' = s_default r /\
   holds "Default Config" g (Real current_time) r').

(** The rowids that AUTOINCREMENT has given are below the largest one. *)
Definition has_room (t : settings_table) : Prop :=
  (settings_seq t < 2 ^ 63 - 1)%Z /\
  Forall (fun r => (s_id r < 2 ^ 63 - 1)%Z) (settings_rows t).

(** ** The schema *)

(** The four tables are there and [conversations] has the [summary] column. *)
Definition schema_ok (d : db) : Prop :=
  exists ct ms ats st,
    d = mk_db (Some ct) (Some ms) (Some ats) (Some st) /\
    existsb (String.eqb "summary") (conv_columns ct) = true.

(** The rows of [conversations] and their identifiers. *)
Definition conversation_rows (d : db) : list conversation :=
  match conversations d with
  | Some t => conv_rows t
  | None => []
  end.


(** ** The orders of the listings *)

(** [ORDER BY name]: the order of the bytes of the names. *)
Definition name_le (r1 r2 : settings_row) : Prop :=
  (s_name r1 <=? s_name r2)%string = true.


(** ** The identifiers of the profiles *)

(** The profiles have the identifiers 1, 2, ... in the order of their
    insertion, and the counter of AUTOINCREMENT is their number. *)
Definition sequential_table (t : settings_table) : Prop :=
  map s_id (settings_rows t)
  = map Z.of_nat (seq 1 (List.length (settings_rows t))) /\
  settings_seq t = Z.of_nat (List.length (settings_rows t)).

Definition sequential (d : db) : Prop :=
  match settings d with
  | Some t => sequential_table t
  | None => True
  end.

(** An entry of the listing with another summary. *)
Definition with_summary (i : conversation_info) (summary : string) : conversation_info :=
  mk_conversation_info (l_conversation_id i) (l_created_at i) (l_last_updated i)
                       (Some (Some summary)) (l_message_count i) (l_last_message_at i).

(** * Example stores *)

(** A store with two profiles: the default one and one added to it. *)
Definition fast_profile : settings_dict :=
  mk_settings_dict None (Some "fast") (Some (PyFloat 0.2)) (Some 256%Z) None None None None.

Definition two_profiles_calls : list call :=
  [Init (Text "1736421234.34.567"); AddSettings (Text "1736421240.40.012") fast_profile].

Definition two_profiles : db :=
  Eval vm_compute in connect (run two_profiles_calls None).

(** A store with a conversation of two messages, the second with a file. *)
Definition uuids (first : N) (i : nat) : uuid := (first + N.of_nat i)%N.

Definition a_png : attachment_dict :=
  mk_attachment_dict (Some "a.png") (Some "/tmp/a.png") (Some "image/png") (Some 1024%Z).

Definition no_size : attachment_dict :=
  mk_attachment_dict (Some "b.txt") (Some "/tmp/b.txt") (Some "text/plain") None.

Definition chat_id : string := Eval vm_compute in str_uuid 7%N.

Definition chat_calls : list call :=
  [ Init (Text "1736421234.34.567");
    CreateConversation 7%N (Text "1736421240.40.012");
    AddMessage (uuids 16%N) 1736421250.25%Q chat_id "user" "hello" "text" None;
    AddMessage (uuids 32%N) 1736421251.5%Q chat_id "assistant" "hi" "text" (Some [a_png]) ].

Definition chat : db := Eval vm_compute in connect (run chat_calls None).

(** The same store after a third message. *)
Definition chat_after : db :=
  Eval vm_compute in
    snd (add_message (uuids 48%N) 1736421260.75%Q chat_id "user" "again" "text" None chat).

(** The same store with a second conversation, of one message with a
    file. *)
Definition other_id : string := Eval vm_compute in str_uuid 9%N.

Definition two_chats_calls : list call :=
  chat_calls ++
  [ CreateConversation 9%N (Text "1736421270.70.000");
    AddMessage (uuids 64%N) 1736421280.5%Q other_id "user" "elsewhere" "text"
               (Some [a_png]) ].

Definition two_chats : db := Eval vm_compute in connect (run two_chats_calls None).

(** A store written before the [summary] column existed, with one
    conversation. *)
Definition legacy_conversations : conversations_table :=
  mk_conversations_table
    ["conversation_id"; "created_at"; "last_updated"]
    [mk_conversation chat_id (Text "1736421240.40.012") (Real 1736421251.5%Q) None].

Definition legacy_store : db :=
  mk_db (Some legacy_conversations) (messages chat) (attachments chat) (settings chat).

(** A store whose settings table is missing: three tables of four. *)
Definition partial_store : store :=
  Some (mk_db (Some (mk_conversations_table conversations_columns []))
              (Some []) (Some []) None).

(** * Properties *)

(** ** Statements that keep an invariant *)

Section Preserves.
Variable P : db -> Prop.

Lemma preserves_ret {A : Type} (a : A) : preserves P (ret a).
Proof. intros d H. exact H. Qed.

Lemma preserves_raise {A : Type} (e : exn) : preserves P (@raise A e).
Proof. intros d H. exact H. Qed.

Lemma preserves_bind {A B : Type} (c : stmt A) (k : A -> stmt B) :
  preserves P c -> (forall a, preserves P (k a)) -> preserves P (bind c k).
Proof.
  intros Hc Hk d H. unfold bind.
  specialize (Hc d H). destruct (c d) as [a d'|e d'].
  - apply Hk, Hc.
  - exact Hc.
Qed.

Lemma preserves_getitem {A : Type} (item : option A) (key : string) :
  preserves P (getitem item key).
Proof. destruct item; [apply preserves_ret | apply preserves_raise]. Qed.

Lemma preserves_with_connection {A : Type} (body : stmt A) (d : db) :
  preserves P body -> P d -> P (snd (with_connection body d)).
Proof.
  intros Hb H. unfold with_connection.
  specialize (Hb d H). destruct (body d); assumption.
Qed.

Lemma preserves_with_connection_autocommit {A : Type} (body : stmt A) (d : db) :
  preserves P body -> P d -> P (snd (with_connection_autocommit body d)).
Proof.
  intros Hb H. unfold with_connection_autocommit.
  specialize (Hb d H). destruct (body d); assumption.
Qed.

End Preserves.

(** ** The invariant of the store *)

Lemma str_uuid_nonempty (u : uuid) : str_uuid u <> "".
Proof.
  unfold str_uuid.
  match goal with |- (?s ++ _)%string <> _ => destruct s end; discriminate.
Qed.

Lemma In_max_id (rows : list settings_row) (r : settings_row) :
  In r rows -> (s_id r <= max_id rows)%Z.
Proof.
  unfold max_id. induction rows as [|x rows IH]; cbn; [tauto|].
  intros [->|H]; [lia|]. specialize (IH H). lia.
Qed.

Lemma next_id_fresh (t : settings_table) :
  ~ In (next_id t) (map s_id (settings_rows t)).
Proof.
  intros H. apply in_map_iff in H as (r & Hr & Hin).
  apply In_max_id in Hin. unfold next_id in Hr. lia.
Qed.

Lemma NoDup_snoc {A : Type} (l : list A) (x : A) :
  NoDup l -> ~ In x l -> NoDup (l ++ [x]).
Proof.
  intros Hl Hx.
  apply (Permutation_NoDup (Permutation_cons_append l x)).
  now constructor.
Qed.

Lemma count_default_app (l1 l2 : list settings_row) :
  count_default (l1 ++ l2) = (count_default l1 + count_default l2)%nat.
Proof. unfold count_default. now rewrite filter_app, length_app. Qed.

Lemma next_id_positive (t : settings_table) : (0 < next_id t)%Z.
Proof.
  unfold next_id, max_id.
  assert (H : (0 <= fold_right Z.max 0 (map s_id (settings_rows t)))%Z).
  { induction (settings_rows t) as [|r rows IH]; cbn; lia. }
  lia.
Qed.

Lemma in_int64_bounds (n : Z) :
  in_int64 n = true <-> (- 2 ^ 63 <= n < 2 ^ 63)%Z.
Proof. unfold in_int64, min_int64, max_int64. lia. Qed.

Lemma next_id_in_int64 (t : settings_table) :
  (max_int64 <? next_id t)%Z = false -> in_int64 (next_id t) = true.
Proof.
  intros H. apply in_int64_bounds.
  pose proof (next_id_positive t). unfold max_int64 in H. lia.
Qed.

Lemma settings_ok_insert (t : settings_table) (row : settings_row) :
  s_id row = next_id t -> s_default row = false ->
  (max_int64 <? next_id t)%Z = false ->
  settings_ok (settings_rows t) -> settings_ok (settings_rows t ++ [row]).
Proof.
  intros Hid Hdef Hmax (Hnd & Hc & Hr). refine (conj _ (conj _ _)).
  - rewrite map_app. cbn. apply NoDup_snoc; [exact Hnd|].
    rewrite Hid. apply next_id_fresh.
  - rewrite count_default_app. unfold count_default at 2. cbn. rewrite Hdef. cbn. lia.
  - apply Forall_app. split; [exact Hr|]. constructor; [|constructor].
    rewrite Hid. now apply next_id_in_int64.
Qed.

(** A row-wise update that keeps [id] and ["default"] keeps the invariant. *)
Lemma settings_ok_map (f : settings_row -> settings_row) (rows : list settings_row) :
  (forall r, s_id (f r) = s_id r) -> (forall r, s_default (f r) = s_default r) ->
  settings_ok rows -> settings_ok (map f rows).
Proof.
  intros Hid Hdef (Hnd & Hc & Hr). refine (conj _ (conj _ _)).
  - rewrite map_map. erewrite map_ext; [exact Hnd|]. intros r. apply Hid.
  - unfold count_default in *.
    assert (E : forall l, List.length (filter s_default (map f l))
                          = List.length (filter s_default l)).
    { induction l as [|x l IH]; cbn; [reflexivity|].
      rewrite Hdef. destruct (s_default x); cbn; now rewrite IH. }
    now rewrite E.
  - apply Forall_map. revert Hr. apply Forall_impl. intros r. now rewrite Hid.
Qed.

(** *** [set_default_settings], row by row *)

Lemma clear_row (r : settings_row) :
  (if s_default r then set_default r false else r) = set_default r false.
Proof. destruct r as [i n []]; reflexivity. Qed.

Lemma clear_then_mark (settings_id : Z) (rows : list settings_row) :
  map (fun r => if (s_id r =? settings_id)%Z then set_default r true else r)
      (map (fun r => if s_default r then set_default r false else r) rows)
  = map (fun r => set_default r (s_id r =? settings_id)%Z) rows.
Proof.
  rewrite map_map. apply map_ext. intros r. rewrite clear_row. cbn.
  destruct (s_id r =? settings_id)%Z; reflexivity.
Qed.

Lemma filter_id_clear (settings_id : Z) (rows : list settings_row) :
  List.length (filter (fun r => (s_id r =? settings_id)%Z)
                 (map (fun r => if s_default r then set_default r false else r) rows))
  = List.length (filter (fun r => (s_id r =? settings_id)%Z) rows).
Proof.
  induction rows as [|r rows IH]; cbn; [reflexivity|].
  rewrite clear_row. cbn. destruct (s_id r =? settings_id)%Z; cbn; now rewrite IH.
Qed.

(** What [set_default_settings] computes on a store that has the table. *)
Lemma set_default_settings_eq (settings_id : Z) (d : db) (t : settings_table) :
  settings d = Some t -> in_int64 settings_id = true ->
  set_default_settings settings_id d
  = (Returned (0 <? List.length (filter (fun r => (s_id r =? settings_id)%Z)
                                        (settings_rows t)))%nat,
     set_settings d
       (mk_settings_table
          (map (fun r => set_default r (s_id r =? settings_id)%Z) (settings_rows t))
          (settings_seq t))).
Proof.
  intros H Hid.
  unfold set_default_settings, with_connection, bind, clear_default, mark_default.
  rewrite H. cbn. rewrite Hid. cbn. rewrite filter_id_clear, clear_then_mark. reflexivity.
Qed.

(** An identifier that SQLite cannot hold: the second UPDATE raises and the
    first is rolled back. *)
Lemma set_default_settings_too_large (settings_id : Z) (d : db) :
  in_int64 settings_id = false ->
  exists e, set_default_settings settings_id d = (Raised e, d).
Proof.
  intros Hid.
  unfold set_default_settings, with_connection, bind, clear_default, mark_default.
  destruct (settings d) as [t|]; cbn; [rewrite Hid|]; cbn; eauto.
Qed.

Lemma defaults_after_mark (settings_id : Z) (rows : list settings_row) :
  filter s_default (map (fun r => set_default r (s_id r =? settings_id)%Z) rows)
  = map (fun r => set_default r true) (filter (fun r => (s_id r =? settings_id)%Z) rows).
Proof.
  induction rows as [|r rows IH]; cbn; [reflexivity|].
  destruct (s_id r =? settings_id)%Z; cbn; now rewrite IH.
Qed.

Lemma filter_id_NoDup (settings_id : Z) (rows : list settings_row) :
  NoDup (map s_id rows) ->
  (List.length (filter (fun r => (s_id r =? settings_id)%Z) rows) <= 1)%nat.
Proof.
  induction rows as [|r rows IH]; cbn; [lia|].
  intros Hnd. inversion Hnd as [|? ? Hnotin Hnd']; subst.
  destruct (Z.eqb_spec (s_id r) settings_id) as [E|E]; [|now apply IH].
  assert (F : filter (fun r => (s_id r =? settings_id)%Z) rows = []).
  { destruct (filter _ rows) as [|x l] eqn:Hf; [reflexivity|].
    assert (Hx : In x (filter (fun r => (s_id r =? settings_id)%Z) rows))
      by (rewrite Hf; now left).
    apply filter_In in Hx as [Hin Hx]. apply Z.eqb_eq in Hx.
    exfalso. apply Hnotin. rewrite E, <- Hx. now apply in_map. }
  rewrite F. cbn. lia.
Qed.

Lemma filter_id_none (settings_id : Z) (rows : list settings_row) :
  (forall r, In r rows -> s_id r <> settings_id) ->
  filter (fun r => (s_id r =? settings_id)%Z) rows = [].
Proof.
  induction rows as [|r rows IH]; cbn; [reflexivity|]. intros H.
  destruct (Z.eqb_spec (s_id r) settings_id) as [E|E].
  - exfalso. apply (H r); [now left | exact E].
  - apply IH. intros r' Hr'. apply H. now right.
Qed.

Lemma filter_id_some (settings_id : Z) (rows : list settings_row) (r : settings_row) :
  In r rows -> s_id r = settings_id ->
  (0 < List.length (filter (fun r => (s_id r =? settings_id)%Z) rows))%nat.
Proof.
  intros Hin E.
  assert (H : In r (filter (fun r => (s_id r =? settings_id)%Z) rows)).
  { apply filter_In. split; [exact Hin | now apply Z.eqb_eq]. }
  destruct (filter _ rows); [contradiction | cbn; lia].
Qed.

Lemma settings_ok_set_default (settings_id : Z) (rows : list settings_row) :
  settings_ok rows ->
  settings_ok (map (fun r => set_default r (s_id r =? settings_id)%Z) rows).
Proof.
  intros (Hnd & _ & Hr). refine (conj _ (conj _ _)).
  - rewrite map_map. cbn. exact Hnd.
  - unfold count_default. rewrite defaults_after_mark, length_map.
    now apply filter_id_NoDup.
  - apply Forall_map. exact Hr.
Qed.

(** *** Every statement keeps the invariant *)

Lemma existsb_message_id (x : string) (rows : list message) :
  existsb (fun m => m_message_id m =? x) rows = false -> ~ In x (map m_message_id rows).
Proof.
  intros H Hin. apply in_map_iff in Hin as (m & <- & Hm).
  assert (E : existsb (fun m' => m_message_id m' =? m_message_id m) rows = true).
  { apply existsb_exists. exists m. split; [exact Hm | apply String.eqb_refl]. }
  congruence.
Qed.

Lemma message_ids_filter (keep : message -> bool) (ms : list message) :
  NoDup (map m_message_id ms) -> NoDup (map m_message_id (filter keep ms)).
Proof.
  intros Hnd. induction ms as [|m ms IH]; cbn in *; [exact Hnd|].
  inversion Hnd as [|? ? Hm Hms]; subst.
  destruct (keep m); cbn; [constructor|]; auto.
  intros Hin. apply Hm. apply in_map_iff in Hin as (m' & E & Hm').
  apply filter_In in Hm' as [Hm' _]. rewrite <- E. now apply in_map.
Qed.

(** Unfolds a statement on a database that satisfies [db_ok] and splits the
    invariant of the database it leaves. *)
Ltac statement c :=
  let d := fresh "d" in
  intros d; unfold preserves, c, no_such_table, already_exists, raise, db_ok;
  destruct d as [[?|] [?|] [?|] [?|]]; cbn;
  intros (? & ? & ?);
  repeat match goal with
         | |- context [if ?b then _ else _] => destruct b eqn:?
         end;
  cbn; refine (conj _ (conj _ _)); auto.

Create HintDb statements.

Lemma ok_create_table_conversations : preserves db_ok create_table_conversations.
Proof. statement create_table_conversations. Qed.

Lemma ok_create_table_messages : preserves db_ok create_table_messages.
Proof. statement create_table_messages; constructor. Qed.

Lemma ok_create_table_attachments : preserves db_ok create_table_attachments.
Proof. statement create_table_attachments. Qed.

Lemma ok_insert_settings name temperature max_tokens top_p host model_name api_key now :
  preserves db_ok
    (insert_settings name false temperature max_tokens top_p host model_name api_key now).
Proof.
  statement insert_settings; apply settings_ok_insert; try reflexivity; assumption.
Qed.

(** [CREATE TABLE settings] followed by the INSERT of the default profile. *)
Lemma ok_create_settings_with_default (now : value) :
  preserves db_ok (create_table_settings ;;; insert_default_settings now ;;; ret tt).
Proof.
  intros d. unfold preserves, db_ok, create_table_settings, insert_default_settings,
    bind, insert_settings, already_exists, raise, ret.
  destruct d as [c m a [s|]]; cbn; [tauto|].
  intros (_ & Hm & Ha). refine (conj _ (conj Hm Ha)).
  refine (conj _ (conj _ _));
    [repeat constructor; intros [] | unfold count_default; cbn; lia | now repeat constructor].
Qed.

Lemma ok_update_settings name temperature max_tokens top_p host model_name api_key now id :
  preserves db_ok
    (update_settings name temperature max_tokens top_p host model_name api_key now id).
Proof.
  statement update_settings;
  apply (settings_ok_map
           (fun r => if (s_id r =? id)%Z
                     then set_fields r name (to_real temperature) max_tokens
                                     (to_real top_p) host model_name api_key now
                     else r));
  solve [ intros r; now destruct (s_id r =? id)%Z | assumption ].
Qed.

Lemma ok_insert_conversation cid now : preserves db_ok (insert_conversation cid now).
Proof. statement insert_conversation. Qed.

Lemma ok_update_summary summary cid : preserves db_ok (update_summary summary cid).
Proof. statement update_summary. Qed.

Lemma ok_update_last_updated t cid : preserves db_ok (update_last_updated t cid).
Proof. statement update_last_updated. Qed.

Lemma ok_delete_conversation_row cid : preserves db_ok (delete_conversation_row cid).
Proof. statement delete_conversation_row. Qed.

Lemma ok_alter_table_add_summary : preserves db_ok alter_table_add_summary.
Proof. statement alter_table_add_summary. Qed.

Lemma ok_select_tables : preserves db_ok select_tables.
Proof. intros d H. exact H. Qed.

Lemma ok_table_info_conversations : preserves db_ok table_info_conversations.
Proof. intros d H. unfold table_info_conversations. now destruct (conversations d). Qed.

Lemma ok_insert_message (m : message) : preserves db_ok (insert_message m).
Proof.
  statement insert_message;
    (rewrite map_app; cbn; apply NoDup_snoc; [assumption | now apply existsb_message_id]).
Qed.

Lemma ok_delete_messages_of cid : preserves db_ok (delete_messages_of cid).
Proof. statement delete_messages_of; now apply message_ids_filter. Qed.

Lemma ok_delete_attachments_of cid : preserves db_ok (delete_attachments_of cid).
Proof.
  statement delete_attachments_of;
    apply Forall_forall; intros x Hx; apply filter_In in Hx as [Hx _];
    revert x Hx; now apply Forall_forall.
Qed.

Lemma ok_insert_attachment (a : attachment) :
  a_attachment_id a <> "" -> preserves db_ok (insert_attachment a).
Proof.
  intros Hid. statement insert_attachment;
    (apply Forall_app; split; [assumption | now constructor]).
Qed.

#[local] Hint Resolve preserves_ret preserves_raise preserves_getitem
  ok_create_table_conversations ok_create_table_messages ok_create_table_attachments
  ok_insert_settings ok_update_settings ok_insert_conversation ok_update_summary
  ok_update_last_updated ok_delete_conversation_row ok_alter_table_add_summary
  ok_select_tables ok_table_info_conversations ok_insert_message
  ok_delete_messages_of ok_delete_attachments_of : statements.

(** *** Every method keeps the invariant *)

Lemma ok_executescript_DB (now : value) : preserves db_ok (executescript (_DB now)).
Proof.
  cbn [executescript _DB].
  repeat (apply preserves_bind; [solve [auto with statements] | intros _]).
  apply ok_create_settings_with_default.
Qed.

Lemma ok_insert_attachments uuid4 message_id t (atts : list attachment_dict) :
  forall i, preserves db_ok (insert_attachments uuid4 i message_id t atts).
Proof.
  induction atts as [|att atts IH]; intros i; cbn [insert_attachments].
  - apply preserves_ret.
  - repeat (apply preserves_bind; [solve [auto with statements] | intros ?]).
    apply preserves_bind; [|intros _; apply IH].
    apply ok_insert_attachment. cbn. apply str_uuid_nonempty.
Qed.

Lemma ok_set_default_settings (settings_id : Z) (d : db) :
  db_ok d -> db_ok (snd (set_default_settings settings_id d)).
Proof.
  intros H. destruct (in_int64 settings_id) eqn:Hid.
  - destruct (settings d) as [t|] eqn:E.
    + rewrite (set_default_settings_eq _ _ _ E Hid). cbn.
      destruct H as (Hs & Hm & Ha). rewrite E in Hs.
      refine (conj _ (conj Hm Ha)). now apply settings_ok_set_default.
    + unfold set_default_settings, with_connection, bind, clear_default. now rewrite E.
  - destruct (set_default_settings_too_large settings_id d Hid) as [e ->]. exact H.
Qed.

Lemma ok_init_db (now : value) (s : store) :
  store_ok s -> store_ok (snd (_init_db now s)).
Proof.
  intros H. unfold _init_db.
  match goal with
  | |- context [with_connection_autocommit ?b ?d] =>
      assert (Hb : db_ok (snd (with_connection_autocommit b d)));
      [ apply preserves_with_connection_autocommit; [|exact H]
      | destruct (with_connection_autocommit b d); exact Hb ]
  end.
  destruct (negb (present s)); [apply ok_executescript_DB|].
  apply preserves_bind; [solve [auto with statements] | intros tables].
  destruct (List.length tables <? 4)%nat; [apply ok_executescript_DB|].
  apply preserves_bind; [solve [auto with statements] | intros columns].
  destruct (negb _); auto with statements.
Qed.

Lemma ok_exec (s : store) (c : call) : store_ok s -> store_ok (exec s c).
Proof.
  intros H. destruct c; cbn [exec]; [now apply ok_init_db | ..];
    unfold store_ok; cbn [connect]; try (now apply ok_set_default_settings);
    unfold create_conversation, add_message, add_message_body, delete_conversation,
      update_conversation_summary, save_settings, add_settings;
    (apply preserves_with_connection; [|exact H]).
  - apply preserves_bind; [solve [auto with statements] | intros _; apply preserves_ret].
  - repeat (apply preserves_bind; [solve [auto with statements] | intros _]).
    apply preserves_bind; [|intros _; apply preserves_ret].
    destruct (nonempty _); [apply ok_insert_attachments | apply preserves_ret].
  - repeat (apply preserves_bind; [solve [auto with statements] | intros _]).
    auto with statements.
  - auto with statements.
  - destruct (g_id _).
    + apply preserves_bind; [solve [auto with statements] | intros ?; apply preserves_ret].
    + apply preserves_bind; [solve [auto with statements] | intros ?; apply preserves_ret].
  - auto with statements.
Qed.

Lemma ok_run (calls : list call) : forall s, store_ok s -> store_ok (run calls s).
Proof.
  unfold run. induction calls as [|c calls IH]; intros s H; cbn; [exact H|].
  apply IH, ok_exec, H.
Qed.

Lemma ok_reachable (s : store) : reachable s -> store_ok s.
Proof.
  intros [calls ->]. apply ok_run. unfold store_ok, db_ok. cbn. tauto.
Qed.

(** ** The single default profile *)

(** C1. Whatever calls are made on the store, starting from nothing
    (initialization, [add_settings], [save_settings], [set_default_settings]
    and the calls on conversations, each returning or raising), the number
    of profiles flagged default is 0 or 1; and when [set_default_settings]
    is called with the [id] of a profile of the store, it returns [True],
    after which exactly one profile is flagged default, the one with that
    [id]. *)
Theorem single_default_profile :
  (forall calls : list call,
     (List.length (defaults_of (run calls None)) <= 1)%nat) /\
  (forall (calls : list call) (d : db) (t : settings_table) (settings_id : Z),
     run calls None = Some d ->
     settings d = Some t ->
     (exists r, In r (settings_rows t) /\ s_id r = settings_id) ->
     exists d' r',
       set_default_settings settings_id d = (Returned true, d') /\
       defaults_of (Some d') = [r'] /\
       s_id r' = settings_id).
Proof.
  split.
  - intros calls.
    assert (H : store_ok (run calls None)) by (apply ok_reachable; now exists calls).
    unfold defaults_of. destruct (run calls None) as [d|]; [|cbn; lia].
    destruct H as (Hs & _). cbn [connect] in Hs.
    destruct (settings d) as [t|]; [apply Hs | cbn; lia].
  - intros calls d t settings_id Hrun Ht (r & Hin & Hid).
    assert (H : store_ok (Some d)) by (apply ok_reachable; now exists calls).
    destruct H as (Hs & _). cbn [connect] in Hs. rewrite Ht in Hs.
    destruct Hs as (Hnd & _ & Hrange).
    assert (Hfits : in_int64 settings_id = true).
    { rewrite <- Hid. exact (proj1 (Forall_forall _ _) Hrange r Hin). }
    rewrite (set_default_settings_eq _ _ _ Ht Hfits).
    pose proof (filter_id_NoDup settings_id _ Hnd) as Hle.
    pose proof (filter_id_some settings_id _ r Hin Hid) as Hlt.
    destruct (filter (fun r => (s_id r =? settings_id)%Z) (settings_rows t))
      as [|x [|y l]] eqn:Hf; cbn in Hle, Hlt; try lia.
    eexists. exists (set_default x true). split; [reflexivity|]. split.
    + cbn. now rewrite defaults_after_mark, Hf.
    + cbn. assert (Hx : In x (filter (fun r => (s_id r =? settings_id)%Z) (settings_rows t)))
        by (rewrite Hf; now left).
      apply filter_In in Hx as [_ Hx]. now apply Z.eqb_eq.
Qed.

(** C7. On a store that has the settings table, [set_default_settings]
    with an [id] within the 64 bits of an INTEGER: when no profile has the
    [id], the call clears the flag of every profile, which leaves no default
    profile, and returns [False] without raising; when a profile has it, the
    call returns [True].  With an [id] outside the 64 bits the call raises
    [OverflowError] and the store is as before. *)
Theorem set_default_settings_unknown_id :
  forall (d : db) (t : settings_table) (settings_id : Z),
    settings d = Some t ->
    (int64 settings_id ->
     ((forall r, In r (settings_rows t) -> s_id r <> settings_id) ->
      exists d',
        set_default_settings settings_id d = (Returned false, d') /\
        settings d' = Some (mk_settings_table
                              (map (fun r => set_default r false) (settings_rows t))
                              (settings_seq t)) /\
        defaults_of (Some d') = []) /\
     ((exists r, In r (settings_rows t) /\ s_id r = settings_id) ->
      fst (set_default_settings settings_id d) = Returned true)) /\
    (~ int64 settings_id ->
     exists msg, set_default_settings settings_id d = (Raised (OverflowError msg), d)).
Proof.
  intros d t settings_id Ht. split.
  - intros Hid. apply in_int64_bounds in Hid.
    rewrite (set_default_settings_eq _ _ _ Ht Hid). split.
    + intros Hnone. eexists. rewrite (filter_id_none _ _ Hnone). split; [reflexivity|].
      assert (E : map (fun r => set_default r (s_id r =? settings_id)%Z) (settings_rows t)
                  = map (fun r => set_default r false) (settings_rows t)).
      { apply map_ext_in. intros r Hr.
        destruct (Z.eqb_spec (s_id r) settings_id) as [E|E]; [|reflexivity].
        now destruct (Hnone r Hr). }
      cbn. rewrite E. split; [reflexivity|].
      clear. induction (settings_rows t) as [|r rows IH]; cbn; [reflexivity | exact IH].
    + intros (r & Hin & Hr). cbn [fst].
      pose proof (filter_id_some settings_id _ r Hin Hr) as Hlt.
      f_equal. now apply Nat.ltb_lt.
  - intros Hid.
    assert (E : in_int64 settings_id = false).
    { destruct (in_int64 settings_id) eqn:E; [|reflexivity].
      now apply in_int64_bounds in E. }
    unfold set_default_settings, with_connection, bind, clear_default, mark_default.
    rewrite Ht. cbn. rewrite E. cbn. eauto.
Qed.

(** The identifier 2^63, which no profile has: the call raises, and the
    default profile is the one it was. *)
Lemma set_default_settings_raises :
  (forall r, In r (profiles two_profiles) -> s_id r <> (2 ^ 63)%Z) /\
  set_default_settings (2 ^ 63) two_profiles
  = (Raised (OverflowError "Python int too large to convert to SQLite INTEGER"),
     two_profiles) /\
  fst (set_default_settings (2 ^ 63) two_profiles) <> Returned false /\
  map s_id (defaults_of (Some (snd (set_default_settings (2 ^ 63) two_profiles))))
  = [1%Z].
Proof.
  split; [intros r [<-|[<-|[]]]; vm_compute; discriminate|].
  split; [reflexivity|]. split; [discriminate | reflexivity].
Qed.

(** *** On the store with two profiles *)

Lemma single_default_profile_witness :
  exists d' r',
    set_default_settings 2 two_profiles = (Returned true, d') /\
    defaults_of (Some d') = [r'] /\
    s_id r' = 2%Z.
Proof.
  refine (proj2 single_default_profile two_profiles_calls two_profiles _ 2%Z
                eq_refl eq_refl _).
  eexists. split; [right; left; reflexivity | reflexivity].
Defined.

Lemma set_default_settings_unknown_id_witness :
  exists d',
    set_default_settings 7 two_profiles = (Returned false, d') /\
    settings d' = Some (mk_settings_table
                          (map (fun r => set_default r false) (profiles two_profiles))
                          2) /\
    defaults_of (Some d') = [].
Proof.
  refine (proj1 (proj1 (set_default_settings_unknown_id two_profiles _ 7%Z eq_refl) _) _).
  - unfold int64. lia.
  - intros r [<-|[<-|[]]]; discriminate.
Defined.

(** The scenarios of a fresh store: the default profile is the one of the
    schema, and after two calls of [set_default_settings] the default is
    the profile of the second. *)
Example get_settings_fresh :
  get_settings (connect (run [Init Null] None))
  = Returned (Some (mk_settings_row 1 "default" true 1.0%Q 4096 0.95%Q
                      "http://localhost:8000/v1" "meta-llama/Llama-3.2-1B-Instruct"
                      "" Null)).
Proof. reflexivity. Qed.

Example set_default_twice :
  let d := snd (set_default_settings 1 (snd (set_default_settings 2 two_profiles))) in
  option_map s_id
    (match get_settings d with Returned r => r | Raised _ => None end) = Some 1%Z /\
  List.length (defaults_of (Some d)) = 1%nat.
Proof. split; reflexivity. Qed.

(** ** Adding and saving profiles *)


(** *** The numbers that are bound *)


Example nearest_double_ties :
  map nearest_double [2 ^ 53 + 1; 2 ^ 53 + 2; 2 ^ 53 + 3; - (2 ^ 53 + 1); 2 ^ 63 - 1]%Z
  = [2 ^ 53; 2 ^ 53 + 2; 2 ^ 53 + 4; - 2 ^ 53; 2 ^ 63]%Z.
Proof. reflexivity. Qed.

Lemma fits_get (item : option number) (q : Q) :
  (forall n, item = Some (PyInt n) -> int64 n) -> fits (get item (PyFloat q)) = true.
Proof.
  destruct item as [[n|p]|]; cbn; intros H; try reflexivity.
  apply in_int64_bounds, H. reflexivity.
Qed.

Lemma in_int64_get (item : option Z) (n : Z) :
  (forall n, item = Some n -> int64 n) -> int64 n -> in_int64 (get item n) = true.
Proof.
  destruct item as [m|]; cbn; intros H Hn; apply in_int64_bounds;
    [now apply H | exact Hn].
Qed.

Lemma bindable_fits (g : settings_dict) :
  bindable g ->
  fits (get (g_temperature g) (PyFloat 1.0)) &&
  in_int64 (get (g_max_tokens g) 4096%Z) &&
  fits (get (g_top_p g) (PyFloat 0.95)) = true.
Proof.
  intros (Ht & Hm & Hp).
  rewrite (fits_get _ _ Ht), (fits_get _ _ Hp), (in_int64_get _ _ Hm); [reflexivity|].
  unfold int64. lia.
Qed.

Lemma not_bindable_fits (g : settings_dict) :
  ~ bindable g ->
  fits (get (g_temperature g) (PyFloat 1.0)) &&
  in_int64 (get (g_max_tokens g) 4096%Z) &&
  fits (get (g_top_p g) (PyFloat 0.95)) = false.
Proof.
  intros H.
  destruct (fits _ && _ && _) eqn:E; [|reflexivity].
  exfalso. apply H.
  apply andb_prop in E as [E Hp]. apply andb_prop in E as [Ht Hm].
  refine (conj _ (conj _ _)); intros n Hn; rewrite Hn in *; cbn in *;
    now apply in_int64_bounds.
Qed.

Lemma has_room_next_id (t : settings_table) :
  has_room t -> (max_int64 <? next_id t)%Z = false.
Proof.
  intros [Hseq Hrows]. apply Z.ltb_ge. unfold next_id, max_int64.
  assert (H : (max_id (settings_rows t) < 2 ^ 63 - 1)%Z).
  { unfold max_id. induction Hrows as [|r rows Hr _ IH]; cbn; lia. }
  lia.
Qed.

Lemma given_get {A : Type} (item : option A) (default : A) :
  given item default (get item default).
Proof. now destruct item. Qed.

Lemma stored_number_get (item : option number) (default : Q) :
  stored_number item default (to_real (get item (PyFloat default))).
Proof. now destruct item as [[n|q]|]. Qed.


Lemma holds_row (default_name : string) (g : settings_dict) (updated_at : value)
    (id : Z) (flag : bool) :
  holds default_name g updated_at
    (mk_settings_row id (get (g_name g) default_name) flag
       (to_real (get (g_temperature g) (PyFloat 1.0)))
       (get (g_max_tokens g) 4096%Z)
       (to_real (get (g_top_p g) (PyFloat 0.95)))
       (get (g_host g) default_host)
       (get (g_model_name g) default_model_name)
       (get (g_api_key g) "")
       updated_at).
Proof.
  unfold holds. cbn.
  repeat split; first [apply given_get | apply stored_number_get].
Qed.

(** *** [add_settings] and [save_settings] on a store that has the table *)

Lemma add_settings_eq (now : value) (g : settings_dict) (d : db) (t : settings_table) :
  settings d = Some t -> bindable g -> has_room t ->
  add_settings now g d
  = (Returned (next_id t),
     set_settings d
       (mk_settings_table
          (settings_rows t ++
           [mk_settings_row (next_id t) (get (g_name g) "New Config") false
              (to_real (get (g_temperature g) (PyFloat 1.0)))
              (get (g_max_tokens g) 4096%Z)
              (to_real (get (g_top_p g) (PyFloat 0.95)))
              (get (g_host g) default_host)
              (get (g_model_name g) default_model_name)
              (get (g_api_key g) "")
              now])
          (next_id t))).
Proof.
  intros Ht Hg Hroom. unfold add_settings, with_connection, insert_settings.
  rewrite Ht, (bindable_fits g Hg), (has_room_next_id t Hroom). reflexivity.
Qed.


Lemma save_settings_update_eq (current_time : Q) (g : settings_dict) (d : db)
    (t : settings_table) (id : Z) :
  settings d = Some t -> g_id g = Some id -> bindable g -> int64 id ->
  save_settings current_time g d
  = (Returned (0 <? List.length (filter (fun r => (s_id r =? id)%Z) (settings_rows t)))%nat,
     set_settings d
       (mk_settings_table
          (map (fun r => if (s_id r =? id)%Z
                         then mk_settings_row (s_id r) (get (g_name g) "Default Config")
                                (s_default r)
                                (to_real (get (g_temperature g) (PyFloat 1.0)))
                                (get (g_max_tokens g) 4096%Z)
                                (to_real (get (g_top_p g) (PyFloat 0.95)))
                                (get (g_host g) default_host)
                                (get (g_model_name g) default_model_name)
                                (get (g_api_key g) "")
                                (Real current_time)
                         else r)
               (settings_rows t))
          (settings_seq t))).
Proof.
  intros Ht Hid Hg Hi. unfold save_settings, with_connection, bind, update_settings.
  rewrite Hid, Ht, (bindable_fits g Hg). apply in_int64_bounds in Hi. rewrite Hi.
  reflexivity.
Qed.




(** C9. [save_settings] with the [id] of a profile of the store and a
    dictionary whose integers are within 64 bits returns [True]; the row
    with that [id] takes the name, temperature, max_tokens, top_p, host,
    model_name and api_key of the dictionary (the default of the method for
    a key left out) and the current time as [updated_at], and keeps its
    [id] and its default flag; every other row of [settings], and every
    other table, is as before.  With an integer outside the 64 bits the
    call raises and the store is as before. *)
Theorem save_settings_frame :
  forall (current_time : Q) (g : settings_dict) (d : db) (t : settings_table) (id : Z),
    settings d = Some t ->
    g_id g = Some id ->
    (exists r, In r (settings_rows t) /\ s_id r = id) ->
    (bindable g -> int64 id ->
     exists d' t',
       save_settings current_time g d = (Returned true, d') /\
       conversations d' = conversations d /\
       messages d' = messages d /\
       attachments d' = attachments d /\
       settings d' = Some t' /\
       settings_seq t' = settings_seq t /\
       Forall2 (saved current_time g id) (settings_rows t) (settings_rows t')) /\
    (~ bindable g ->
     exists msg, save_settings current_time g d = (Raised (OverflowError msg), d)).
Proof.
  intros current_time g d t id Ht Hid (r & Hin & Hr). split.
  - intros Hg Hi. rewrite (save_settings_update_eq current_time g d t id Ht Hid Hg Hi).
    pose proof (filter_id_some id _ r Hin Hr) as Hlt. apply Nat.ltb_lt in Hlt.
    rewrite Hlt. eexists. eexists. split; [reflexivity|].
    cbn. repeat (split; [reflexivity|]).
    clear. induction (settings_rows t) as [|x rows IH]; cbn; constructor; [|exact IH].
    unfold saved. destruct (Z.eqb_spec (s_id x) id) as [E|E].
    + split; [tauto|]. intros _. split; [reflexivity|]. split; [reflexivity|].
      apply holds_row.
    + split; [reflexivity | tauto].
  - intros Hg. unfold save_settings, with_connection, bind, update_settings.
    rewrite Hid, Ht, (not_bindable_fits g Hg). cbn. eauto.
Qed.

(** A [max_tokens] of 2^63 for the profile 2: the call raises and the
    profile is as it was. *)
Lemma save_settings_not_saved :
  save_settings 1736421300.5
    (mk_settings_dict (Some 2%Z) (Some "slow") None (Some (2 ^ 63)%Z) None None None None)
    two_profiles
  = (Raised (OverflowError "Python int too large to convert to SQLite INTEGER"),
     two_profiles) /\
  option_map s_name
    (match get_settings_by_id 2 two_profiles with Returned o => o | Raised _ => None end)
  = Some "fast".
Proof. split; reflexivity. Qed.

Lemma save_settings_frame_witness :
  exists d' t',
    save_settings 1736421300.5
      (mk_settings_dict (Some 2%Z) None (Some (PyFloat 0.7)) (Some 512%Z) (Some (PyInt 1))
                        None None (Some "k"))
      two_profiles = (Returned true, d') /\
    settings d' = Some t' /\
    settings_rows t'
    = [ mk_settings_row 1 "default" true 1.0 4096 0.95 "http://localhost:8000/v1"
          "meta-llama/Llama-3.2-1B-Instruct" "" (Text "1736421234.34.567");
        mk_settings_row 2 "Default Config" false 0.7 512 (inject_Z 1)
          "http://localhost:8000/v1" "meta-llama/Llama-3.2-1B-Instruct" "k"
          (Real 1736421300.5) ].
Proof.
  destruct (proj1 (save_settings_frame 1736421300.5
              (mk_settings_dict (Some 2%Z) None (Some (PyFloat 0.7)) (Some 512%Z)
                                (Some (PyInt 1)) None None (Some "k"))
              two_profiles (mk_settings_table _ _) 2%Z eq_refl eq_refl
              (ex_intro _ _ (conj (or_intror (or_introl eq_refl)) eq_refl))))
    as (d' & t' & Hsave & _ & _ & _ & Ht' & _ & _).
  - refine (conj _ (conj _ _)); intros n H; try discriminate H;
      injection H as <-; unfold int64; lia.
  - unfold int64. lia.
  - exists d', t'. split; [exact Hsave|]. split; [exact Ht'|].
    unfold save_settings, with_connection in Hsave. cbn in Hsave.
    injection Hsave as <-. cbn in Ht'. injection Ht' as <-. reflexivity.
Defined.

(** ** Deleting a conversation *)

(** C2. On a store that has the three tables, [delete_conversation C]
    returns; afterwards no row of [conversations] has the identifier [C], no
    row of [messages] belongs to [C], and no row of [attachments] refers to
    a message that belonged to [C].  The three DELETE statements run in the
    order attachments, messages, conversation: the first leaves the
    messages in place and the second leaves the conversation in place. *)
Theorem delete_conversation_cascade :
  forall (cid : string) (d : db) (ct : conversations_table)
         (ms : list message) (ats : list attachment),
    conversations d = Some ct ->
    messages d = Some ms ->
    attachments d = Some ats ->
    exists d1 d2 d' ct' ms' ats',
      delete_attachments_of cid d = Ok tt d1 /\
      messages d1 = Some ms /\ conversations d1 = Some ct /\
      delete_messages_of cid d1 = Ok tt d2 /\
      attachments d2 = attachments d1 /\ conversations d2 = Some ct /\
      delete_conversation_row cid d2 = Ok tt d' /\
      attachments d' = attachments d1 /\ messages d' = messages d2 /\
      delete_conversation cid d = (Returned tt, d') /\
      conversations d' = Some ct' /\ messages d' = Some ms' /\ attachments d' = Some ats' /\
      (forall c, In c (conv_rows ct') -> c_conversation_id c <> cid) /\
      (forall m, In m ms' -> m_conversation_id m <> cid) /\
      (forall m a, In m ms -> m_conversation_id m = cid ->
                   In a ats' -> a_message_id a <> m_message_id m).
Proof.
  intros cid d ct ms ats Hc Hm Ha.
  pose (ats' := filter (fun a => negb (existsb (String.eqb (a_message_id a))
                        (map m_message_id
                           (filter (fun m => m_conversation_id m =? cid) ms)))) ats).
  pose (ms' := filter (fun m => negb (m_conversation_id m =? cid)) ms).
  pose (ct' := mk_conversations_table (conv_columns ct)
                 (filter (fun c => negb (c_conversation_id c =? cid)) (conv_rows ct))).
  exists (set_attachments d ats'), (set_messages (set_attachments d ats') ms'),
    (set_conversations (set_messages (set_attachments d ats') ms') ct'), ct', ms', ats'.
  assert (E1 : delete_attachments_of cid d = Ok tt (set_attachments d ats'))
    by (unfold delete_attachments_of; now rewrite Ha, Hm).
  assert (E2 : delete_messages_of cid (set_attachments d ats')
               = Ok tt (set_messages (set_attachments d ats') ms'))
    by (unfold delete_messages_of; cbn; now rewrite Hm).
  assert (E3 : delete_conversation_row cid (set_messages (set_attachments d ats') ms')
               = Ok tt (set_conversations (set_messages (set_attachments d ats') ms') ct'))
    by (unfold delete_conversation_row; cbn; now rewrite Hc).
  assert (E0 : delete_conversation cid d
              = (Returned tt,
                 set_conversations (set_messages (set_attachments d ats') ms') ct'))
    by (unfold delete_conversation, with_connection, bind; now rewrite E1, E2, E3).
  cbn. repeat (split; [assumption || reflexivity|]).
  subst ct' ms' ats'. cbn. split; [|split].
  - intros c Hin E. apply filter_In in Hin as [_ Hin].
    rewrite E, String.eqb_refl in Hin. discriminate.
  - intros m Hin E. apply filter_In in Hin as [_ Hin].
    rewrite E, String.eqb_refl in Hin. discriminate.
  - intros m a Hin E Hina Eid. apply filter_In in Hina as [_ Hina].
    apply negb_true_iff in Hina.
    assert (Hex : existsb (String.eqb (a_message_id a))
                    (map m_message_id
                       (filter (fun m => m_conversation_id m =? cid) ms)) = true).
    { apply existsb_exists. exists (m_message_id m). split.
      - apply in_map, filter_In. split; [exact Hin|]. rewrite E. apply String.eqb_refl.
      - rewrite Eid. apply String.eqb_refl. }
    congruence.
Qed.

(** ** Reading a history that has no message *)

Lemma left_join_message (ms : list message) (ats : list attachment) (r : join_row) :
  In r (left_join ms ats) -> In (fst r) ms.
Proof.
  unfold left_join. intros H. apply in_flat_map in H as (m & Hm & Hr).
  unfold rows_of in Hr. destruct (filter _ ats) as [|a l].
  - destruct Hr as [<-|[]]. exact Hm.
  - apply in_map_iff in Hr as (a' & <- & _). exact Hm.
Qed.

Lemma where_no_message (cid : string) (ms : list message) (rows : list join_row) :
  (forall r, In r rows -> In (fst r) ms) ->
  (forall m, In m ms -> m_conversation_id m <> cid) ->
  filter (fun r : join_row => m_conversation_id (fst r) =? cid) rows = [].
Proof.
  intros Hrows Hnone. induction rows as [|r rows IH]; cbn; [reflexivity|].
  destruct (String.eqb_spec (m_conversation_id (fst r)) cid) as [E|E].
  - exfalso. apply (Hnone (fst r)); [apply Hrows; now left | exact E].
  - apply IH. intros r' Hr'. apply Hrows. now right.
Qed.

(** C10. On a store that has the messages and attachments tables,
    [get_conversation_history] of an identifier that no message carries
    returns the empty list and does not raise; the conversations table is
    not looked at, so it does not matter whether a conversation has that
    identifier. *)
Theorem get_conversation_history_empty :
  forall (cid : string) (d : db) (ms : list message) (ats : list attachment),
    messages d = Some ms ->
    attachments d = Some ats ->
    (forall m, In m ms -> m_conversation_id m <> cid) ->
    get_conversation_history cid d = Returned [].
Proof.
  intros cid d ms ats Hm Ha Hnone.
  unfold get_conversation_history, with_connection, bind, select_history.
  rewrite Hm, Ha.
  rewrite (where_no_message cid ms); [reflexivity | | exact Hnone].
  intros r. apply left_join_message.
Qed.

(** ** Appending a message *)

Lemma insert_attachments_Ok (uuid4 : nat -> uuid) (mid : string) (t : Q)
    (atts : list attachment_dict) :
  forall (i : nat) (d d1 : db) (u : unit),
    insert_attachments uuid4 i mid t atts d = Ok u d1 ->
    exists new,
      Forall2 (row_of_dict mid t) atts new /\
      map a_attachment_id new
      = map (fun k => str_uuid (uuid4 k)) (seq i (List.length atts)) /\
      conversations d1 = conversations d /\
      messages d1 = messages d /\
      settings d1 = settings d /\
      attachments d1 = option_map (fun ats => ats ++ new) (attachments d).
Proof.
  induction atts as [|att atts IH]; intros i d d1 u H; cbn [insert_attachments] in H.
  - injection H as _ <-. exists []. repeat (split; [constructor || reflexivity|]).
    destruct (attachments d); cbn; [now rewrite app_nil_r | reflexivity].
  - unfold bind, getitem, ret, raise in H.
    destruct att as [[name|] [path|] [type|] [size|]]; cbn in H; try discriminate.
    unfold insert_attachment, raise, no_such_table in H.
    destruct (attachments d) as [ats|] eqn:Ha; [|discriminate].
    cbn [a_file_size] in H. destruct (in_int64 size); [|discriminate].
    cbn [negb] in H. destruct (existsb _ ats); [discriminate|].
    apply IH in H as (new & Hrows & Hids & Hc & Hm & Hs & Hats).
    exists (mk_attachment (str_uuid (uuid4 i)) mid name path type size t :: new).
    cbn in *. repeat split; try assumption.
    + constructor; [|exact Hrows]. unfold row_of_dict. cbn. tauto.
    + now rewrite Hids.
    + now rewrite Hats, <- app_assoc.
Qed.

Lemma insert_attachments_lacks_key (uuid4 : nat -> uuid) (mid : string) (t : Q)
    (atts : list attachment_dict) :
  Exists (fun att => lacks_key att \/ oversized att) atts ->
  forall (i : nat) (d : db),
    exists e d1, insert_attachments uuid4 i mid t atts d = Raise e d1.
Proof.
  induction atts as [|att atts IH]; intros Hex i d.
  - inversion Hex.
  - cbn [insert_attachments]. unfold bind, getitem, ret, raise.
    destruct att as [[name|] [path|] [type|] [size|]]; cbn;
      try (eexists; eexists; reflexivity).
    destruct (insert_attachment _ d) as [u d2|e d2] eqn:Hins;
      [|eexists; eexists; reflexivity].
    apply IH. inversion Hex as [? ? Hl|? ? Hrest]; subst; [|exact Hrest].
    exfalso. destruct Hl as [Hl|(n & Hn & Hbig)].
    + unfold lacks_key in Hl. cbn in Hl. repeat destruct Hl as [Hl|Hl]; discriminate.
    + cbn in Hn. injection Hn as ->.
      unfold insert_attachment, no_such_table, too_large, raise in Hins.
      destruct (attachments d); [|discriminate]. cbn [a_file_size] in Hins.
      destruct (in_int64 n) eqn:E; [|discriminate].
      now apply in_int64_bounds in E.
Qed.

Lemma role_ok_In (role : string) : role_ok role = true <-> In role roles.
Proof.
  unfold role_ok, roles. rewrite existsb_exists. split.
  - intros (x & Hx & E). apply String.eqb_eq in E. now subst.
  - intros H. exists role. split; [exact H | apply String.eqb_refl].
Qed.

Lemma content_type_ok_In (content_type : string) :
  content_type_ok content_type = true <-> In content_type content_types.
Proof.
  unfold content_type_ok, content_types. rewrite existsb_exists. split.
  - intros (x & Hx & E). apply String.eqb_eq in E. now subst.
  - intros H. exists content_type. split; [exact H | apply String.eqb_refl].
Qed.

Lemma touched_rows (current_time : Q) (cid : string) (ct : conversations_table) :
  Forall2 (touched_row current_time cid)
          (conv_rows ct) (conv_rows (touched ct current_time cid)).
Proof.
  unfold touched. cbn. induction (conv_rows ct) as [|c rows IH]; cbn; constructor;
    [|exact IH].
  unfold touched_row.
  destruct (String.eqb_spec (c_conversation_id c) cid) as [E|E]; cbn; tauto.
Qed.

(** What a call of [add_message] that returns has written. *)
Lemma add_message_returned (uuid4 : nat -> uuid) (t : Q)
    (cid role content ctype : string) (atts : option (list attachment_dict))
    (d d' : db) (mid : string) :
  add_message uuid4 t cid role content ctype atts d = (Returned mid, d') ->
  mid = str_uuid (uuid4 O) /\
  exists ct ms new,
    conversations d = Some ct /\
    messages d = Some ms /\
    role_ok role = true /\
    content_type_ok ctype = true /\
    existsb (fun m => m_message_id m =? mid) ms = false /\
    Forall2 (row_of_dict mid t) (items atts) new /\
    map a_attachment_id new
    = map (fun k => str_uuid (uuid4 k)) (seq 1 (List.length (items atts))) /\
    conversations d' = Some (touched ct t cid) /\
    messages d' = Some (ms ++ [mk_message mid cid role ctype content t]) /\
    attachments d' = option_map (fun ats => ats ++ new) (attachments d) /\
    settings d' = settings d.
Proof.
  unfold add_message, add_message_body, with_connection, bind.
  unfold insert_message at 1. unfold raise, no_such_table. cbn [m_role m_content_type m_message_id].
  destruct (messages d) as [ms|] eqn:Hm; [|discriminate].
  destruct (role_ok role && content_type_ok ctype) eqn:Hchk; cbn [negb]; [|discriminate].
  destruct (existsb _ ms) eqn:Hpk; [discriminate|].
  unfold update_last_updated at 1. unfold no_such_table, raise. cbn [conversations set_messages].
  destruct (conversations d) as [ct|] eqn:Hc; [|discriminate].
  apply andb_true_iff in Hchk as [Hrole Hctype].
  set (d2 := set_conversations _ _).
  destruct (nonempty atts) eqn:Hne.
  - destruct (insert_attachments _ _ _ _ _ d2) as [u d3|e d3] eqn:Hins; [|discriminate].
    unfold ret. intros H. injection H as <- <-. split; [reflexivity|].
    apply insert_attachments_Ok in Hins as (new & Hrows & Hids & Hc' & Hm' & Hs' & Ha').
    exists ct, ms, new. subst d2. cbn in *. repeat split; assumption.
  - unfold ret. intros H. injection H as <- <-. split; [reflexivity|].
    exists ct, ms, []. subst d2.
    assert (E : items atts = []) by (destruct atts as [[|]|]; [reflexivity | discriminate | reflexivity]).
    rewrite E. cbn. repeat split; try assumption; try constructor.
    destruct (attachments d); cbn; [now rewrite app_nil_r | reflexivity].
Qed.

(** C3. When [add_message] returns for a conversation [C] of the store, the
    store holds one message with the returned identifier, a row of [C]
    remains, and [last_updated] of every row of [C] is the REAL value that
    is exactly [created_at] of that message. *)
Theorem add_message_last_updated :
  forall (uuid4 : nat -> uuid) (t : Q) (cid role content ctype : string)
         (atts : option (list attachment_dict)) (d d' : db) (mid : string)
         (ct : conversations_table),
    add_message uuid4 t cid role content ctype atts d = (Returned mid, d') ->
    conversations d = Some ct ->
    (exists c, In c (conv_rows ct) /\ c_conversation_id c = cid) ->
    exists ct' ms' m,
      conversations d' = Some ct' /\
      messages d' = Some ms' /\
      In m ms' /\ m_message_id m = mid /\
      (forall m', In m' ms' -> m_message_id m' = mid -> m' = m) /\
      (exists c', In c' (conv_rows ct') /\ c_conversation_id c' = cid) /\
      (forall c', In c' (conv_rows ct') -> c_conversation_id c' = cid ->
                  c_last_updated c' = Real (m_created_at m)).
Proof.
  intros uuid4 t cid role content ctype atts d d' mid ct H Hct (c & Hc & Hcid).
  apply add_message_returned in H
    as (_ & ct0 & ms & new & Hct0 & Hms & _ & _ & Hpk & _ & _ & Hc' & Hm' & _ & _).
  rewrite Hct in Hct0. injection Hct0 as <-.
  exists (touched ct t cid), (ms ++ [mk_message mid cid role ctype content t]),
    (mk_message mid cid role ctype content t).
  repeat (split; [assumption || reflexivity || idtac|]).
  - apply in_or_app. right. now left.
  - intros m' Hin Hid. apply in_app_or in Hin as [Hin|[<-|[]]]; [|reflexivity].
    exfalso. assert (E : existsb (fun m => m_message_id m =? mid) ms = true); [|congruence].
    apply existsb_exists. exists m'. split; [exact Hin|]. rewrite Hid. apply String.eqb_refl.
  - exists (touch c t). split; [|exact Hcid].
    unfold touched. cbn. apply in_map_iff. exists c. split; [|exact Hc].
    rewrite Hcid. now rewrite String.eqb_refl.
  - intros c' Hin Hid. unfold touched in Hin. cbn in Hin.
    apply in_map_iff in Hin as (c0 & <- & _).
    destruct (String.eqb_spec (c_conversation_id c0) cid) as [E|E]; [reflexivity|].
    contradiction.
Qed.

(** C4. A call of [add_message] that raises leaves the store as it was.
    A call that returns has written all three: the message row, after the
    rows that were there; [last_updated] of the rows of the conversation,
    which is the time of the call, the other columns and rows of
    [conversations] being kept; and one attachment row per descriptor, in
    their order, each with an identifier of its own; the role and the
    content type are then among those of the enumerations.  A role outside
    [user], [assistant], [system] or a content type outside [text],
    [image], [audio], [video], [file] makes the call raise, and so does a
    descriptor that lacks one of its four keys or whose size is outside the
    64 bits of an INTEGER. *)
Theorem add_message_atomic :
  forall (uuid4 : nat -> uuid) (t : Q) (cid role content ctype : string)
         (atts : option (list attachment_dict)) (d : db),
    (forall e d',
       add_message uuid4 t cid role content ctype atts d = (Raised e, d') -> d' = d) /\
    (forall mid d',
       add_message uuid4 t cid role content ctype atts d = (Returned mid, d') ->
       exists ct ct' ms new,
         conversations d = Some ct /\
         messages d = Some ms /\
         In role ["user"; "assistant"; "system"] /\
         In ctype ["text"; "image"; "audio"; "video"; "file"] /\
         messages d' = Some (ms ++ [mk_message mid cid role ctype content t]) /\
         conversations d' = Some ct' /\
         conv_columns ct' = conv_columns ct /\
         Forall2 (touched_row t cid) (conv_rows ct) (conv_rows ct') /\
         Forall2 (row_of_dict mid t) (items atts) new /\
         map a_attachment_id new
         = map (fun k => str_uuid (uuid4 k)) (seq 1 (List.length (items atts))) /\
         attachments d' = option_map (fun ats => ats ++ new) (attachments d) /\
         settings d' = settings d) /\
    (~ In role ["user"; "assistant"; "system"] \/
     ~ In ctype ["text"; "image"; "audio"; "video"; "file"] ->
     exists e, add_message uuid4 t cid role content ctype atts d = (Raised e, d)) /\
    (Exists (fun att => lacks_key att \/ oversized att) (items atts) ->
     exists e, add_message uuid4 t cid role content ctype atts d = (Raised e, d)).
Proof.
  intros uuid4 t cid role content ctype atts d. split; [|split; [|split]].
  - unfold add_message, with_connection. intros e d'.
    destruct (add_message_body _ _ _ _ _ _ _ d); [discriminate|]. intros H. now injection H.
  - intros mid d' H.
    apply add_message_returned in H
      as (_ & ct & ms & new & Hct & Hms & Hrole & Hctype & _ & Hrows & Hids & Hc' & Hm'
          & Ha' & Hs').
    exists ct, (touched ct t cid), ms, new.
    apply role_ok_In in Hrole. apply content_type_ok_In in Hctype.
    repeat (split; [assumption || reflexivity|]).
    split; [apply touched_rows|]. repeat split; assumption.
  - intros Hbad. unfold add_message, add_message_body, with_connection, bind.
    unfold insert_message at 1. unfold no_such_table, raise. cbn [m_role m_content_type].
    destruct (messages d); [|eexists; reflexivity].
    assert (E : role_ok role && content_type_ok ctype = false).
    { destruct (role_ok role) eqn:Hr; [|reflexivity].
      destruct (content_type_ok ctype) eqn:Hc; [|reflexivity].
      apply role_ok_In in Hr. apply content_type_ok_In in Hc.
      exfalso. destruct Hbad as [Hbad|Hbad]; now apply Hbad. }
    rewrite E. cbn [negb]. eexists; reflexivity.
  - intros Hlacks. unfold add_message, add_message_body, with_connection, bind.
    destruct (insert_message _ d) as [u1 d1|e d1]; [|eexists; reflexivity].
    destruct (update_last_updated _ _ d1) as [u2 d2|e d2]; [|eexists; reflexivity].
    assert (Hne : nonempty atts = true).
    { destruct atts as [[|a l]|]; cbn in *; [inversion Hlacks | reflexivity | inversion Hlacks]. }
    rewrite Hne.
    destruct (insert_attachments_lacks_key uuid4 (str_uuid (uuid4 O)) t _ Hlacks 1%nat d2)
      as (e & d3 & ->).
    eexists; reflexivity.
Qed.

(** *** On the store with a conversation of two messages *)

Lemma delete_conversation_cascade_witness :
  exists d',
    delete_conversation chat_id chat = (Returned tt, d') /\
    messages d' = Some [] /\ attachments d' = Some [] /\
    option_map conv_rows (conversations d') = Some [].
Proof.
  destruct (delete_conversation_cascade chat_id chat _ _ _ eq_refl eq_refl eq_refl)
    as (d1 & d2 & d' & ct' & ms' & ats' & _ & _ & _ & _ & _ & _ & _ & _ & _ & Hdel & _).
  exists d'. split; [exact Hdel|].
  vm_compute in Hdel. injection Hdel as <-. repeat split.
Defined.

Lemma get_conversation_history_empty_witness :
  get_conversation_history "no-such-conversation" chat = Returned [].
Proof.
  apply (get_conversation_history_empty "no-such-conversation" chat _ _ eq_refl eq_refl).
  intros m [<-|[<-|[]]]; discriminate.
Defined.

Lemma add_message_last_updated_witness :
  exists ct' ms' m,
    conversations chat_after = Some ct' /\
    messages chat_after = Some ms' /\
    In m ms' /\ m_message_id m = "00000000-0000-0000-0000-000000000030" /\
    (forall m', In m' ms' -> m_message_id m' = "00000000-0000-0000-0000-000000000030" ->
                m' = m) /\
    (exists c', In c' (conv_rows ct') /\ c_conversation_id c' = chat_id) /\
    (forall c', In c' (conv_rows ct') -> c_conversation_id c' = chat_id ->
                c_last_updated c' = Real (m_created_at m)).
Proof.
  refine (add_message_last_updated (uuids 48%N) 1736421260.75%Q chat_id "user" "again"
            "text" None chat chat_after _ _ eq_refl eq_refl _).
  eexists. split; [left; reflexivity | reflexivity].
Defined.

(** A second descriptor without its size, a role that the CHECK constraint
    refuses, and a size of 2^63: each call raises and leaves the store. *)
Lemma add_message_atomic_witness :
  (exists e,
     add_message (uuids 48%N) 1736421260.75%Q chat_id "user" "two files" "text"
                 (Some [a_png; no_size]) chat
     = (Raised e, chat)) /\
  (exists e,
     add_message (uuids 48%N) 1736421260.75%Q chat_id "moderator" "again" "text"
                 (Some [a_png]) chat
     = (Raised e, chat)) /\
  (exists e,
     add_message (uuids 48%N) 1736421260.75%Q chat_id "user" "a large file" "file"
                 (Some [mk_attachment_dict (Some "a.bin") (Some "/tmp/a.bin")
                                           (Some "application/octet-stream")
                                           (Some (2 ^ 63)%Z)]) chat
     = (Raised e, chat)).
Proof.
  refine (conj _ (conj _ _)).
  - apply (proj2 (proj2 (proj2
             (add_message_atomic (uuids 48%N) 1736421260.75%Q chat_id "user" "two files"
                                 "text" (Some [a_png; no_size]) chat)))).
    apply Exists_cons_tl, Exists_cons_hd. left. unfold lacks_key. cbn. tauto.
  - apply (proj1 (proj2 (proj2
             (add_message_atomic (uuids 48%N) 1736421260.75%Q chat_id "moderator" "again"
                                 "text" (Some [a_png]) chat)))).
    left. intros [H|[H|[H|[]]]]; discriminate H.
  - apply (proj2 (proj2 (proj2
             (add_message_atomic (uuids 48%N) 1736421260.75%Q chat_id "user"
                                 "a large file" "file" _ chat)))).
    apply Exists_cons_hd. right. eexists. split; [reflexivity | lia].
Defined.

(** A call that returns: the message, the touch and the attachment are
    written. *)
Example add_message_writes :
  let (r, d') :=
    add_message (uuids 48%N) 1736421260.75%Q chat_id "user" "see the file" "text"
                (Some [a_png]) chat in
  r = Returned "00000000-0000-0000-0000-000000000030" /\
  option_map (fun ct => map c_last_updated (conv_rows ct)) (conversations d')
  = Some [Real 1736421260.75%Q] /\
  option_map (fun ms => map m_content ms) (messages d')
  = Some ["hello"; "hi"; "see the file"] /\
  option_map (fun ats => map a_attachment_id ats) (attachments d')
  = Some ["00000000-0000-0000-0000-000000000021";
          "00000000-0000-0000-0000-000000000031"].
Proof. vm_compute. repeat split. Qed.

(** The statements of that call had written the message and the first
    attachment when the second descriptor raised [KeyError]: leaving the
    [with] block is what undoes them. *)
Example add_message_rolls_back :
  exists d1,
    add_message_body (uuids 48%N) 1736421260.75%Q chat_id "user" "two files" "text"
                     (Some [a_png; no_size]) chat
    = Raise (KeyError "size") d1 /\
    option_map (@List.length message) (messages d1) = Some 3%nat /\
    option_map (@List.length attachment) (attachments d1) = Some 2%nat /\
    option_map (@List.length message) (messages chat) = Some 2%nat /\
    option_map (@List.length attachment) (attachments chat) = Some 1%nat.
Proof. eexists. vm_compute. repeat split. Qed.

(** ** The history of a conversation *)

(** *** [ORDER BY m.created_at ASC] *)

Lemma created_leb_le (r1 r2 : join_row) : created_leb r1 r2 = true <-> row_le r1 r2.
Proof. apply Qle_bool_iff. Qed.

Lemma created_leb_total (r1 r2 : join_row) : created_leb r1 r2 = false -> row_le r2 r1.
Proof.
  intros H. apply Qlt_le_weak, Qnot_le_lt. intros Hle.
  apply created_leb_le in Hle. congruence.
Qed.

Lemma insert_sorted_perm (r : join_row) (rows : list join_row) :
  Permutation (insert_sorted r rows) (r :: rows).
Proof.
  induction rows as [|x rows IH]; cbn; [reflexivity|].
  destruct (created_leb r x); [reflexivity|].
  rewrite IH. apply perm_swap.
Qed.

Lemma insert_sorted_sorted (r : join_row) (rows : list join_row) :
  StronglySorted row_le rows -> StronglySorted row_le (insert_sorted r rows).
Proof.
  induction 1 as [|x rows Hs IH Hx]; cbn; [repeat constructor|].
  destruct (created_leb r x) eqn:E.
  - apply created_leb_le in E. constructor; [now constructor|].
    constructor; [exact E|].
    eapply Forall_impl; [|exact Hx]. intros y Hy. unfold row_le in *.
    eapply Qle_trans; eassumption.
  - apply created_leb_total in E. constructor; [exact IH|].
    apply (Permutation_Forall (Permutation_sym (insert_sorted_perm r rows))).
    now constructor.
Qed.

Lemma order_by_perm (rows : list join_row) :
  Permutation (order_by_created_at rows) rows.
Proof.
  induction rows as [|r rows IH]; cbn; [reflexivity|].
  rewrite insert_sorted_perm. now constructor.
Qed.

Lemma order_by_sorted (rows : list join_row) :
  StronglySorted row_le (order_by_created_at rows).
Proof.
  induction rows as [|r rows IH]; cbn; [constructor | now apply insert_sorted_sorted].
Qed.

(** *** The loop that groups the rows *)

Lemma append_attachment_keys (k : string) (i : attachment_info) (dict : message_dict) :
  map fst (append_attachment k i dict) = map fst dict.
Proof.
  induction dict as [|[k0 e0] dict IH]; cbn; [reflexivity|].
  destruct (k0 =? k); cbn; [reflexivity | now rewrite IH].
Qed.

Lemma append_attachment_messages (k : string) (i : attachment_info) (dict : message_dict) :
  map (fun kv => h_message (snd kv)) (append_attachment k i dict)
  = map (fun kv => h_message (snd kv)) dict.
Proof.
  induction dict as [|[k0 e0] dict IH]; cbn; [reflexivity|].
  destruct (k0 =? k); cbn; [reflexivity | now rewrite IH].
Qed.

Lemma append_attachment_In (k : string) (i : attachment_info) (dict : message_dict)
    (k' : string) (e' : history_entry) :
  NoDup (map fst dict) ->
  In (k', e') (append_attachment k i dict) ->
  exists e, In (k', e) dict /\
            h_message e' = h_message e /\
            h_attachments e' = h_attachments e ++ (if k' =? k then [i] else []).
Proof.
  induction dict as [|[k0 e0] dict IH]; cbn; [tauto|].
  intros Hnd Hin. inversion Hnd as [|? ? Hk0 Hnd']; subst.
  destruct (String.eqb_spec k0 k) as [E|E].
  - destruct Hin as [Hin|Hin].
    + injection Hin as <- <-. exists e0. cbn. rewrite E, String.eqb_refl. auto.
    + exists e'. split; [now right|]. split; [reflexivity|].
      destruct (String.eqb_spec k' k) as [E'|E']; [|now rewrite app_nil_r].
      exfalso. apply Hk0. rewrite E, <- E'.
      change k' with (fst (k', e')). now apply in_map.
  - destruct Hin as [Hin|Hin].
    + injection Hin as <- <-. exists e0. split; [now left|]. split; [reflexivity|].
      apply String.eqb_neq in E. now rewrite E, app_nil_r.
    + destruct (IH Hnd' Hin) as (e & He & Hmsg & Hatt). exists e. auto.
Qed.

Lemma contains_keys (k : string) (dict : message_dict) :
  contains k dict = true <-> In k (map fst dict).
Proof.
  unfold contains. rewrite existsb_exists. split.
  - intros (kv & Hin & E). apply String.eqb_eq in E. subst. now apply in_map.
  - intros Hin. apply in_map_iff in Hin as (kv & E & Hin).
    exists kv. split; [exact Hin | now apply String.eqb_eq].
Qed.

Lemma infos_for_app (k : string) (rows1 rows2 : list join_row) :
  infos_for k (rows1 ++ rows2) = infos_for k rows1 ++ infos_for k rows2.
Proof. apply flat_map_app. Qed.

Lemma infos_for_absent (k : string) (rows : list join_row) :
  (forall r, In r rows -> mid r <> k) -> infos_for k rows = [].
Proof.
  unfold infos_for. induction rows as [|r rows IH]; cbn; [reflexivity|]. intros H.
  rewrite IH by (intros r' Hr'; apply H; now right).
  unfold info_for. destruct (snd r); [|reflexivity].
  destruct (String.eqb_spec (mid r) k) as [E|E]; [|reflexivity].
  exfalso. apply (H r); [now left | exact E].
Qed.

Lemma infos_for_snoc (k : string) (rows : list join_row) (r : join_row) :
  infos_for k (rows ++ [r]) = infos_for k rows ++ info_for k r.
Proof. rewrite infos_for_app. unfold infos_for at 2. cbn. now rewrite app_nil_r. Qed.

(** The first half of the body of the loop: the entry of the message is
    there, with the attachments of the rows before. *)
Lemma group_row_entry (rows : list join_row) (dict : message_dict) (r : join_row) :
  grouped rows dict ->
  let dict1 := if contains (mid r) dict then dict
               else dict ++ [(mid r, mk_history_entry (fst r) [])] in
  NoDup (map fst dict1) /\
  (forall k, In k (map fst dict1) <-> exists r', In r' (rows ++ [r]) /\ mid r' = k) /\
  (forall k e, In (k, e) dict1 ->
               m_message_id (h_message e) = k /\
               (exists r', In r' (rows ++ [r]) /\ fst r' = h_message e) /\
               h_attachments e = infos_for k rows).
Proof.
  intros (Hnd & Hkeys & Hent) dict1.
  assert (Hold : forall k e, In (k, e) dict ->
            m_message_id (h_message e) = k /\
            (exists r', In r' (rows ++ [r]) /\ fst r' = h_message e) /\
            h_attachments e = infos_for k rows).
  { intros k e Hin. destruct (Hent k e Hin) as (Hk & (r' & Hr' & E) & Ha).
    repeat split; auto. exists r'. split; [apply in_or_app; now left | exact E]. }
  subst dict1. destruct (contains (mid r) dict) eqn:Hc.
  - apply contains_keys in Hc. split; [exact Hnd|]. split; [|exact Hold].
    intros k. rewrite Hkeys. split.
    + intros (r' & Hr' & E). exists r'. split; [apply in_or_app; now left | exact E].
    + intros (r' & Hr' & E). apply in_app_or in Hr' as [Hr'|[<-|[]]]; [now exists r'|].
      apply Hkeys. now rewrite <- E.
  - assert (Hnot : ~ In (mid r) (map fst dict)) by (rewrite <- contains_keys; congruence).
    split; [rewrite map_app; cbn; now apply NoDup_snoc|]. split.
    + intros k. rewrite map_app, in_app_iff, Hkeys. cbn. split.
      * intros [(r' & Hr' & E)|[E|[]]].
        -- exists r'. split; [apply in_or_app; now left | exact E].
        -- exists r. split; [apply in_or_app; right; now left | exact E].
      * intros (r' & Hr' & E). apply in_app_or in Hr' as [Hr'|[<-|[]]].
        -- left. now exists r'.
        -- right. now left.
    + intros k e Hin. apply in_app_or in Hin as [Hin|[Hin|[]]]; [now apply Hold|].
      injection Hin as <- <-. cbn. split; [reflexivity|]. split.
      * exists r. split; [apply in_or_app; right; now left | reflexivity].
      * symmetry. apply infos_for_absent. intros r' Hr' E.
        apply Hnot, Hkeys. now exists r'.
Qed.

Lemma group_row_grouped (rows : list join_row) (dict : message_dict) (r : join_row) :
  grouped rows dict -> grouped (rows ++ [r]) (group_row dict r).
Proof.
  intros H. destruct (group_row_entry rows dict r H) as (Hnd & Hkeys & Hent).
  unfold group_row. fold (mid r).
  set (dict1 := if contains (mid r) dict then dict
                else dict ++ [(mid r, mk_history_entry (fst r) [])]) in *.
  assert (Hsame : (forall k, info_for k r = []) -> grouped (rows ++ [r]) dict1).
  { intros Hno. split; [exact Hnd|]. split; [exact Hkeys|].
    intros k e Hin. destruct (Hent k e Hin) as (Hk & Hr & Ha).
    repeat split; auto. now rewrite infos_for_snoc, Hno, app_nil_r. }
  destruct (snd r) as [a|] eqn:Hsnd.
  - destruct (truthy (a_attachment_id a)) eqn:Ht.
    + split; [now rewrite append_attachment_keys|]. split.
      * intros k. rewrite append_attachment_keys. apply Hkeys.
      * intros k e' Hin.
        destruct (append_attachment_In _ _ _ _ _ Hnd Hin) as (e & He & Hmsg & Hatt).
        destruct (Hent k e He) as (Hk & Hr & Ha).
        rewrite Hmsg. repeat split; auto.
        rewrite Hatt, Ha, infos_for_snoc. f_equal.
        unfold info_for. rewrite Hsnd, Ht, andb_true_r.
        now rewrite String.eqb_sym.
    + apply Hsame. intros k. unfold info_for. now rewrite Hsnd, Ht, andb_false_r.
  - apply Hsame. intros k. unfold info_for. now rewrite Hsnd.
Qed.

Lemma group_rows_snoc (rows : list join_row) (r : join_row) :
  group_rows (rows ++ [r]) = group_row (group_rows rows) r.
Proof. unfold group_rows. now rewrite fold_left_app. Qed.

Lemma group_rows_grouped (rows : list join_row) : grouped rows (group_rows rows).
Proof.
  induction rows as [|r rows IH] using rev_ind.
  - split; [constructor|]. split.
    + intros k. cbn. split; [tauto | intros (r & [] & _)].
    + intros k e [].
  - rewrite group_rows_snoc. now apply group_row_grouped.
Qed.

(** *** The order of the entries *)

Lemma rows_sorted_snoc (rows : list join_row) (r : join_row) :
  StronglySorted row_le (rows ++ [r]) ->
  StronglySorted row_le rows /\ Forall (fun x => row_le x r) rows.
Proof.
  induction rows as [|x rows IH]; cbn; intros H; [split; constructor|].
  apply StronglySorted_inv in H as [Hs Hx]. destruct (IH Hs) as [Hs' Hr].
  apply Forall_app in Hx as [Hx Hxr]. split; constructor; auto.
  now inversion Hxr.
Qed.

Lemma messages_sorted_snoc (l : list message) (m : message) :
  StronglySorted message_le l -> Forall (fun x => message_le x m) l ->
  StronglySorted message_le (l ++ [m]).
Proof.
  induction 1 as [|x l Hs IH Hx]; cbn; intros Hm; [repeat constructor|].
  inversion Hm as [|? ? Hxm Hlm]; subst.
  constructor; [now apply IH|]. apply Forall_app. split; [exact Hx | now constructor].
Qed.

Lemma group_row_messages (dict : message_dict) (r : join_row) :
  messages_of (group_row dict r)
  = if contains (mid r) dict then messages_of dict else messages_of dict ++ [fst r].
Proof.
  unfold group_row, messages_of. fold (mid r).
  assert (E : map (fun kv => h_message (snd kv))
                (if contains (mid r) dict then dict
                 else dict ++ [(mid r, mk_history_entry (fst r) [])])
              = if contains (mid r) dict then map (fun kv => h_message (snd kv)) dict
                else map (fun kv => h_message (snd kv)) dict ++ [fst r]).
  { destruct (contains (mid r) dict); [reflexivity | now rewrite map_app]. }
  destruct (snd r) as [a|]; [|exact E].
  destruct (truthy (a_attachment_id a)); [|exact E].
  now rewrite append_attachment_messages.
Qed.

Lemma group_rows_sorted (rows : list join_row) :
  StronglySorted row_le rows ->
  StronglySorted message_le (messages_of (group_rows rows)).
Proof.
  induction rows as [|r rows IH] using rev_ind; intros Hs; [constructor|].
  apply rows_sorted_snoc in Hs as [Hs Hr]. specialize (IH Hs).
  rewrite group_rows_snoc, group_row_messages.
  destruct (contains (mid r) (group_rows rows)); [exact IH|].
  apply messages_sorted_snoc; [exact IH|].
  apply Forall_forall. intros m Hm. unfold messages_of in Hm.
  apply in_map_iff in Hm as ([k e] & <- & Hin).
  destruct (group_rows_grouped rows) as (_ & _ & Hent).
  destruct (Hent k e Hin) as (_ & (r' & Hr' & E) & _).
  cbn. rewrite <- E. rewrite Forall_forall in Hr. now apply Hr.
Qed.

(** *** The rows of the join *)

Lemma left_join_keeps (ms : list message) (ats : list attachment) (m : message) :
  In m ms -> exists r, In r (left_join ms ats) /\ fst r = m.
Proof.
  intros Hm. unfold left_join.
  destruct (filter (fun a => m_message_id m =? a_message_id a) ats) as [|a l] eqn:Hf.
  - exists (m, None). split; [|reflexivity].
    apply in_flat_map. exists m. split; [exact Hm|]. unfold rows_of. rewrite Hf. now left.
  - exists (m, Some a). split; [|reflexivity].
    apply in_flat_map. exists m. split; [exact Hm|]. unfold rows_of. rewrite Hf. now left.
Qed.

Lemma infos_for_rows_of (k : string) (ats : list attachment) (m : message) :
  Forall (fun a => a_attachment_id a <> "") ats ->
  infos_for k (rows_of ats m)
  = if m_message_id m =? k
    then map info_of (filter (fun a => m_message_id m =? a_message_id a) ats)
    else [].
Proof.
  intros Hids. unfold rows_of.
  assert (Hsub : Forall (fun a => a_attachment_id a <> "")
                   (filter (fun a => m_message_id m =? a_message_id a) ats)).
  { apply Forall_forall. intros a Ha. apply filter_In in Ha as [Ha _].
    rewrite Forall_forall in Hids. now apply Hids. }
  destruct (filter (fun a => m_message_id m =? a_message_id a) ats) as [|a0 l].
  - cbn. now destruct (m_message_id m =? k).
  - revert Hsub. generalize (a0 :: l). intros l' Hl'. unfold infos_for.
    induction l' as [|a l' IH]; cbn.
    + now destruct (m_message_id m =? k).
    + inversion Hl' as [|? ? Ha Hl'']; subst. rewrite (IH Hl'').
      unfold info_for, mid, truthy. cbn.
      apply String.eqb_neq in Ha. rewrite Ha. cbn.
      now destruct (m_message_id m =? k).
Qed.

Lemma infos_for_left_join (k : string) (ms : list message) (ats : list attachment) :
  NoDup (map m_message_id ms) ->
  Forall (fun a => a_attachment_id a <> "") ats ->
  In k (map m_message_id ms) ->
  infos_for k (left_join ms ats)
  = map info_of (filter (fun a => k =? a_message_id a) ats).
Proof.
  intros Hnd Hids. induction ms as [|m ms IH]; cbn; [tauto|]. intros Hk.
  inversion Hnd as [|? ? Hm Hnd']; subst.
  change (infos_for k (rows_of ats m ++ left_join ms ats)
          = map info_of (filter (fun a => k =? a_message_id a) ats)).
  rewrite infos_for_app, (infos_for_rows_of k ats m Hids).
  destruct (String.eqb_spec (m_message_id m) k) as [E|E].
  - subst k. rewrite infos_for_absent; [apply app_nil_r|].
    intros r Hr Er. apply Hm. rewrite <- Er. unfold mid.
    apply in_map. now apply left_join_message with (ats := ats).
  - cbn. apply IH; [exact Hnd'|]. destruct Hk as [Hk|Hk]; [contradiction | exact Hk].
Qed.

Lemma infos_for_where (k : string) (keep : join_row -> bool) (rows : list join_row) :
  (forall r, In r rows -> mid r = k -> keep r = true) ->
  infos_for k (filter keep rows) = infos_for k rows.
Proof.
  unfold infos_for. induction rows as [|r rows IH]; cbn; [reflexivity|]. intros H.
  assert (IH' : flat_map (info_for k) (filter keep rows) = flat_map (info_for k) rows)
    by (apply IH; intros r' Hr'; apply H; now right).
  destruct (keep r) eqn:Hkeep; cbn; rewrite IH'; [reflexivity|].
  unfold info_for. destruct (snd r); [|reflexivity].
  destruct (String.eqb_spec (mid r) k) as [E|E]; [|reflexivity].
  rewrite (H r (or_introl eq_refl) E) in Hkeep. discriminate.
Qed.

Lemma same_message (ms : list message) (m1 m2 : message) :
  NoDup (map m_message_id ms) -> In m1 ms -> In m2 ms ->
  m_message_id m1 = m_message_id m2 -> m1 = m2.
Proof.
  induction ms as [|m ms IH]; cbn; [tauto|]. intros Hnd H1 H2 E.
  inversion Hnd as [|? ? Hm Hnd']; subst.
  destruct H1 as [<-|H1], H2 as [<-|H2]; auto.
  - exfalso. apply Hm. rewrite E. now apply in_map.
  - exfalso. apply Hm. rewrite <- E. now apply in_map.
Qed.

(** *** The history on a store that satisfies the invariant *)

Lemma get_conversation_history_ok (cid : string) (d : db)
    (ms : list message) (ats : list attachment) :
  db_ok d ->
  messages d = Some ms ->
  attachments d = Some ats ->
  exists h,
    get_conversation_history cid d = Returned h /\
    StronglySorted message_le (map h_message h) /\
    NoDup (map (fun e => m_message_id (h_message e)) h) /\
    Permutation (map h_message h) (filter (fun m => m_conversation_id m =? cid) ms) /\
    (forall e, In e h ->
       Permutation
         (h_attachments e)
         (map info_of
              (filter (fun a => m_message_id (h_message e) =? a_message_id a) ats))).
Proof.
  intros (_ & Hnd & Hids) Hm Ha. rewrite Hm in Hnd. rewrite Ha in Hids.
  set (keep := fun r : join_row => m_conversation_id (fst r) =? cid).
  set (rows := order_by_created_at (filter keep (left_join ms ats))).
  exists (map snd (group_rows rows)).
  assert (Hperm : Permutation rows (filter keep (left_join ms ats)))
    by apply order_by_perm.
  assert (Hrow : forall r, In r rows <-> In (fst r) ms /\ In r (left_join ms ats)
                                          /\ m_conversation_id (fst r) = cid).
  { intros r. split.
    - intros Hr. apply (Permutation_in _ Hperm), filter_In in Hr as [Hr Hc].
      apply String.eqb_eq in Hc. split; [|split]; auto.
      now apply left_join_message with (ats := ats).
    - intros (_ & Hr & Hc). apply (Permutation_in _ (Permutation_sym Hperm)), filter_In.
      split; [exact Hr | now apply String.eqb_eq]. }
  destruct (group_rows_grouped rows) as (Hkeys_nd & Hkeys & Hent).
  assert (Hids_eq : map (fun e => m_message_id (h_message e)) (map snd (group_rows rows))
                    = map fst (group_rows rows)).
  { rewrite map_map. apply map_ext_in. intros [k e] Hin.
    destruct (Hent k e Hin) as (Hk & _). exact Hk. }
  split; [|split; [|split; [|split]]].
  - unfold get_conversation_history, with_connection, bind, select_history.
    now rewrite Hm, Ha.
  - rewrite map_map. apply group_rows_sorted, order_by_sorted.
  - now rewrite Hids_eq.
  - apply NoDup_Permutation.
    + apply (NoDup_map_inv m_message_id). rewrite (map_map h_message m_message_id).
      now rewrite Hids_eq.
    + apply (NoDup_map_inv m_message_id). now apply message_ids_filter.
    + intros m. rewrite map_map, in_map_iff, filter_In. split.
      * intros ([k e] & <- & Hin). destruct (Hent k e Hin) as (_ & (r & Hr & E) & _).
        apply Hrow in Hr as (Hr1 & _ & Hc). cbn. rewrite <- E.
        split; [exact Hr1 | now apply String.eqb_eq].
      * intros (Hin & Hc). apply String.eqb_eq in Hc.
        destruct (left_join_keeps ms ats m Hin) as (r & Hr & E).
        assert (Hr' : In r rows) by (apply Hrow; rewrite E; auto).
        assert (Hk : In (mid r) (map fst (group_rows rows)))
          by (apply Hkeys; now exists r).
        apply in_map_iff in Hk as ([k e] & Ek & Hke). cbn in Ek. subst k.
        exists (mid r, e). split; [|exact Hke]. cbn.
        destruct (Hent _ e Hke) as (Hid & (r0 & Hr0 & E0) & _).
        apply Hrow in Hr0 as (Hr0 & _). rewrite <- E0 in *.
        apply (same_message ms); auto.
        rewrite Hid. unfold mid. now rewrite E.
  - intros e He. apply in_map_iff in He as ([k e'] & <- & Hin). cbn.
    destruct (Hent k e' Hin) as (Hid & (r & Hr & E) & Hatt).
    rewrite Hatt, Hid.
    assert (Hk : In k (map m_message_id ms)).
    { rewrite <- Hid, <- E. apply in_map. now apply Hrow. }
    rewrite <- (infos_for_left_join k ms ats Hnd Hids Hk).
    rewrite <- (infos_for_where k keep (left_join ms ats)).
    + unfold infos_for. now apply Permutation_flat_map.
    + intros r' Hr' Ek. unfold keep.
      assert (Er : fst r' = fst r).
      { apply (same_message ms); auto.
        - now apply left_join_message with (ats := ats).
        - now apply Hrow.
        - unfold mid in Ek. now rewrite Ek, E, Hid. }
      rewrite Er. apply String.eqb_eq. now apply Hrow.
Qed.

(** The scenario of the two messages: the history has them in order, the
    second with its attachment of 1024 bytes. *)
Example history_of_chat :
  option_map (map (fun e => (m_content (h_message e), map i_file_size (h_attachments e))))
             (match get_conversation_history chat_id chat with
              | Returned h => Some h
              | Raised _ => None
              end)
  = Some [("hello", []); ("hi", [1024%Z])].
Proof. reflexivity. Qed.

(** ** Initialization of an existing store *)

(** C6. What [_init_db] does on a store that has the conversations,
    messages and attachments tables and no settings table: it counts three
    tables, runs the whole script [_DB], and the script raises at its first
    statement, CREATE TABLE conversations, since that table exists.  The
    call raises, the settings table is not created and the store stays as
    it was. *)
Theorem init_db_partial_store :
  forall now : value,
    _init_db now partial_store
    = (Raised (OperationalError "table conversations already exists"), partial_store).
Proof. intros now. reflexivity. Qed.

(** On an existing store, the script succeeds only when none of the four
    tables is there: with one, two or three tables the call raises. *)
Lemma init_db_partial_raises (now : value) (d : db) :
  present (conversations d) || present (messages d)
  || present (attachments d) || present (settings d) = true ->
  present (conversations d) && present (messages d)
  && present (attachments d) && present (settings d) = false ->
  exists e d', _init_db now (Some d) = (Raised e, Some d').
Proof.
  destruct d as [[ct|] [ms|] [ats|] [st|]]; cbn; intros H1 H2;
    try discriminate; eexists; eexists; reflexivity.
Qed.

(** A file without any of the tables is initialized like a new one. *)
Lemma init_db_no_table (now : value) :
  _init_db now (Some empty_db) = _init_db now None /\
  fst (_init_db now None) = Returned tt.
Proof. split; reflexivity. Qed.

(** A column that Python finds under the name [summary] is one for SQLite. *)
Lemma has_column_summary (columns : list string) :
  existsb (String.eqb "summary") columns = true -> has_column "summary" columns = true.
Proof.
  unfold has_column. rewrite !existsb_exists. intros (c & Hc & E).
  apply String.eqb_eq in E. subst c. exists "summary". split; [exact Hc | reflexivity].
Qed.

Lemma no_column_summary (columns : list string) :
  has_column "summary" columns = false -> existsb (String.eqb "summary") columns = false.
Proof.
  intros H. destruct (existsb _ columns) eqn:E; [|reflexivity].
  apply has_column_summary in E. congruence.
Qed.

(** With the four tables and no [summary] column, the column is added and
    every row of every table is kept as it is. *)
Lemma init_db_adds_summary (now : value) (ct : conversations_table)
    (ms : list message) (ats : list attachment) (st : settings_table) :
  has_column "summary" (conv_columns ct) = false ->
  _init_db now (Some (mk_db (Some ct) (Some ms) (Some ats) (Some st)))
  = (Returned tt,
     Some (mk_db (Some (mk_conversations_table (conv_columns ct ++ ["summary"])
                                               (conv_rows ct)))
                 (Some ms) (Some ats) (Some st))).
Proof.
  intros H. unfold _init_db, with_connection_autocommit, bind, select_tables,
    table_info_conversations, alter_table_add_summary.
  cbn [present connect conversations messages attachments settings app
       List.length Nat.ltb Nat.leb negb].
  rewrite (no_column_summary _ H). cbn [negb conversations]. now rewrite H.
Qed.

(** With a column whose name is [summary] in other letters, such as
    [Summary], Python does not find the name and SQLite refuses the new
    column: the call raises and nothing is written. *)
Lemma init_db_other_case (now : value) (ct : conversations_table)
    (ms : list message) (ats : list attachment) (st : settings_table) :
  existsb (String.eqb "summary") (conv_columns ct) = false ->
  has_column "summary" (conv_columns ct) = true ->
  _init_db now (Some (mk_db (Some ct) (Some ms) (Some ats) (Some st)))
  = (Raised (OperationalError "duplicate column name: summary"),
     Some (mk_db (Some ct) (Some ms) (Some ats) (Some st))).
Proof.
  intros H1 H2. unfold _init_db, with_connection_autocommit, bind, select_tables,
    table_info_conversations, alter_table_add_summary.
  cbn [present connect conversations messages attachments settings app
       List.length Nat.ltb Nat.leb negb].
  rewrite H1. cbn [negb conversations]. now rewrite H2.
Qed.

(** With the four tables and the [summary] column, nothing is written. *)
Lemma init_db_up_to_date (now : value) (ct : conversations_table)
    (ms : list message) (ats : list attachment) (st : settings_table) :
  existsb (String.eqb "summary") (conv_columns ct) = true ->
  _init_db now (Some (mk_db (Some ct) (Some ms) (Some ats) (Some st)))
  = (Returned tt, Some (mk_db (Some ct) (Some ms) (Some ats) (Some st))).
Proof.
  intros H. unfold _init_db, with_connection_autocommit, bind, select_tables,
    table_info_conversations.
  cbn [present connect conversations messages attachments settings app
       List.length Nat.ltb Nat.leb negb].
  now rewrite H.
Qed.

(** ** Attachments belong to messages *)

(** Unfolds a statement that writes neither messages nor attachments. *)
Ltac frame c :=
  let d := fresh "d" in
  intros d; unfold preserves, rows_are, c, no_such_table, already_exists, raise, bind, ret;
  destruct d as [[?|] [?|] [?|] [?|]]; cbn;
  repeat match goal with
         | |- context [if ?b then _ else _] => destruct b
         end;
  cbn; tauto.

Section Frame.
Variables (ms : list message) (ats : list attachment).

Lemma frame_create_table_conversations : preserves (rows_are ms ats) create_table_conversations.
Proof. frame create_table_conversations. Qed.

Lemma frame_create_table_messages : preserves (rows_are ms ats) create_table_messages.
Proof. frame create_table_messages. Qed.

Lemma frame_create_table_attachments : preserves (rows_are ms ats) create_table_attachments.
Proof. frame create_table_attachments. Qed.

Lemma frame_create_table_settings : preserves (rows_are ms ats) create_table_settings.
Proof. frame create_table_settings. Qed.

Lemma frame_insert_settings name default temperature max_tokens top_p host model api now :
  preserves (rows_are ms ats)
    (insert_settings name default temperature max_tokens top_p host model api now).
Proof. frame insert_settings. Qed.

Lemma frame_update_settings name temperature max_tokens top_p host model api now id :
  preserves (rows_are ms ats)
    (update_settings name temperature max_tokens top_p host model api now id).
Proof. frame update_settings. Qed.

Lemma frame_clear_default : preserves (rows_are ms ats) clear_default.
Proof. frame clear_default. Qed.

Lemma frame_mark_default id : preserves (rows_are ms ats) (mark_default id).
Proof. frame mark_default. Qed.

Lemma frame_insert_conversation cid now :
  preserves (rows_are ms ats) (insert_conversation cid now).
Proof. frame insert_conversation. Qed.

Lemma frame_update_summary summary cid :
  preserves (rows_are ms ats) (update_summary summary cid).
Proof. frame update_summary. Qed.

Lemma frame_alter_table_add_summary : preserves (rows_are ms ats) alter_table_add_summary.
Proof. frame alter_table_add_summary. Qed.

Lemma frame_select_tables : preserves (rows_are ms ats) select_tables.
Proof. frame select_tables. Qed.

Lemma frame_table_info_conversations :
  preserves (rows_are ms ats) table_info_conversations.
Proof. frame table_info_conversations. Qed.

Lemma frame_executescript_DB now : preserves (rows_are ms ats) (executescript (_DB now)).
Proof.
  cbn [executescript _DB]. unfold insert_default_settings.
  repeat (apply preserves_bind; [|intros ?]);
    auto using preserves_ret, frame_create_table_conversations,
      frame_create_table_messages, frame_create_table_attachments,
      frame_create_table_settings, frame_insert_settings.
Qed.
End Frame.

Create HintDb frames.

#[local] Hint Resolve frame_create_table_conversations frame_create_table_messages
  frame_create_table_attachments frame_create_table_settings frame_insert_settings
  frame_update_settings frame_clear_default frame_mark_default frame_insert_conversation
  frame_update_summary frame_alter_table_add_summary frame_select_tables
  frame_table_info_conversations frame_executescript_DB preserves_ret : frames.

Lemma refs_ok_rows (d d' : db) :
  rows_are (items (messages d)) (items (attachments d)) d' -> refs_ok d -> refs_ok d'.
Proof. intros [Hm Ha] H. unfold refs_ok. now rewrite Hm, Ha. Qed.

Lemma refs_ok_frame {A : Type} (body : stmt A) (d : db) :
  (forall ms ats, preserves (rows_are ms ats) body) ->
  refs_ok d -> refs_ok (snd (with_connection body d)).
Proof.
  intros Hb H. apply (refs_ok_rows d); [|exact H].
  apply preserves_with_connection; [apply Hb | now split].
Qed.

Lemma refs_ok_init_db (now : value) (s : store) :
  refs_ok (connect s) -> refs_ok (connect (snd (_init_db now s))).
Proof.
  intros H. unfold _init_db.
  match goal with
  | |- context [with_connection_autocommit ?b ?d] =>
      assert (Hb : rows_are (items (messages d)) (items (attachments d))
                     (snd (with_connection_autocommit b d)));
      [ apply preserves_with_connection_autocommit; [|now split]
      | destruct (with_connection_autocommit b d); cbn [snd connect] in *;
        now apply (refs_ok_rows (connect s)) ]
  end.
  destruct (negb (present s)); [auto with frames|].
  apply preserves_bind; [auto with frames | intros tables].
  destruct (List.length tables <? 4)%nat; [auto with frames|].
  apply preserves_bind; [auto with frames | intros columns].
  destruct (negb _); auto with frames.
Qed.

Lemma refs_ok_add_message uuid4 t cid role content ctype atts (d : db) :
  refs_ok d -> refs_ok (snd (add_message uuid4 t cid role content ctype atts d)).
Proof.
  intros H.
  destruct (add_message uuid4 t cid role content ctype atts d) as [[mid|e] d'] eqn:E.
  - apply add_message_returned in E
      as (_ & ct & ms & new & _ & Hms & _ & _ & _ & Hrows & _ & _ & Hm' & Ha' & _).
    cbn [snd]. intros a Ha. rewrite Hm'. cbn [items].
    unfold refs_ok in H. rewrite Hms in H. cbn [items] in H.
    rewrite Ha' in Ha. destruct (attachments d) as [ats|]; cbn in Ha; [|contradiction].
    apply in_app_or in Ha as [Ha|Ha].
    + destruct (H a Ha) as (m & Hm & Eid). exists m. split; [|exact Eid].
      apply in_or_app. now left.
    + exists (mk_message mid cid role ctype content t). split.
      * apply in_or_app. right. now left.
      * clear - Hrows Ha. induction Hrows as [|x y l l' Hxy _ IH]; [contradiction|].
        destruct Ha as [<-|Ha]; [|now apply IH].
        destruct Hxy as (_ & _ & _ & _ & Hmid & _). now rewrite Hmid.
  - unfold add_message, with_connection in E.
    destruct (add_message_body _ _ _ _ _ _ _ d); [discriminate|].
    injection E as _ <-. exact H.
Qed.

Lemma refs_ok_delete_conversation (cid : string) (d : db) :
  refs_ok d -> refs_ok (snd (delete_conversation cid d)).
Proof.
  intros H. unfold delete_conversation, with_connection, bind,
    delete_attachments_of, delete_messages_of, delete_conversation_row,
    no_such_table, raise.
  unfold refs_ok in H.
  destruct d as [[ct|] [ms|] [ats|] st]; cbn in *; try exact H.
  intros a Ha. apply filter_In in Ha as [Ha Hkeep].
  destruct (H a Ha) as (m & Hm & Eid). exists m. split; [|exact Eid].
  apply filter_In. split; [exact Hm|].
  destruct (String.eqb_spec (m_conversation_id m) cid) as [E|E]; [|reflexivity].
  apply negb_true_iff in Hkeep.
  assert (Hex : existsb (String.eqb (a_message_id a))
                  (map m_message_id
                     (filter (fun m => m_conversation_id m =? cid) ms)) = true);
    [|congruence].
  apply existsb_exists. exists (m_message_id m). split.
  - apply in_map, filter_In. split; [exact Hm | now apply String.eqb_eq].
  - rewrite Eid. apply String.eqb_refl.
Qed.

Lemma refs_ok_exec (s : store) (c : call) :
  refs_ok (connect s) -> refs_ok (connect (exec s c)).
Proof.
  intros H. destruct c; cbn [exec connect].
  - now apply refs_ok_init_db.
  - apply refs_ok_frame; [|exact H]. intros ms ats.
    apply preserves_bind; [auto with frames | intros _; auto with frames].
  - now apply refs_ok_add_message.
  - now apply refs_ok_delete_conversation.
  - apply refs_ok_frame; [|exact H]. intros ms ats. auto with frames.
  - apply refs_ok_frame; [|exact H]. intros ms ats.
    match goal with |- context [g_id ?g] => destruct (g_id g) end;
      (apply preserves_bind; [auto with frames | intros ?; auto with frames]).
  - apply refs_ok_frame; [|exact H]. intros ms ats. auto with frames.
  - apply refs_ok_frame; [|exact H]. intros ms ats.
    apply preserves_bind; [auto with frames | intros _].
    apply preserves_bind; [auto with frames | intros ?; auto with frames].
Qed.

Lemma refs_ok_reachable (s : store) : reachable s -> refs_ok (connect s).
Proof.
  intros [calls ->]. unfold run.
  assert (H : refs_ok (connect None)) by (intros a []).
  revert H. generalize (@None db). induction calls as [|c calls IH]; intros s H; cbn.
  - exact H.
  - apply IH. now apply refs_ok_exec.
Qed.

Lemma new_rows_match (mid : string) (t : Q) (atts : list attachment_dict)
    (new : list attachment) :
  Forall2 (row_of_dict mid t) atts new ->
  filter (fun a => mid =? a_message_id a) new = new.
Proof.
  induction 1 as [|att a atts new (_ & _ & _ & _ & Hmid & _) _ IH]; cbn; [reflexivity|].
  now rewrite Hmid, String.eqb_refl, IH.
Qed.

Lemma old_rows_differ (mid : string) (ms : list message) (ats : list attachment) :
  (forall a, In a ats -> exists m, In m ms /\ m_message_id m = a_message_id a) ->
  existsb (fun m => m_message_id m =? mid) ms = false ->
  filter (fun a => mid =? a_message_id a) ats = [].
Proof.
  intros Hrefs Hpk. induction ats as [|a ats IH]; cbn; [reflexivity|].
  destruct (String.eqb_spec mid (a_message_id a)) as [E|E].
  - exfalso. destruct (Hrefs a (or_introl eq_refl)) as (m & Hm & Eid).
    assert (Hex : existsb (fun m => m_message_id m =? mid) ms = true); [|congruence].
    apply existsb_exists. exists m. split; [exact Hm|]. apply String.eqb_eq. congruence.
  - apply IH. intros a' Ha'. apply Hrefs. now right.
Qed.

(** After [add_message] has returned on a store that the calls of the class
    produce, the history of the conversation has an entry for the new
    message, and its attachments are those of the descriptors of the call. *)
Lemma history_after_add_message (calls : list call) (d d' : db)
    (uuid4 : nat -> uuid) (t : Q) (cid role content ctype : string)
    (atts : option (list attachment_dict)) (mid : string) (ats : list attachment) :
  run calls None = Some d ->
  attachments d = Some ats ->
  add_message uuid4 t cid role content ctype atts d = (Returned mid, d') ->
  exists h e new,
    get_conversation_history cid d' = Returned h /\
    In e h /\
    h_message e = mk_message mid cid role ctype content t /\
    Forall2 (row_of_dict mid t) (items atts) new /\
    map a_attachment_id new
    = map (fun k => str_uuid (uuid4 k)) (seq 1 (List.length (items atts))) /\
    Permutation (h_attachments e) (map info_of new).
Proof.
  intros Hrun Hats Hadd.
  assert (Hok : db_ok d').
  { assert (H : store_ok (exec (Some d) (AddMessage uuid4 t cid role content ctype atts)))
      by (apply ok_exec, ok_reachable; now exists calls).
    unfold store_ok in H. cbn [exec connect] in H. now rewrite Hadd in H. }
  assert (Hrefs : refs_ok d) by (apply (refs_ok_reachable (Some d)); now exists calls).
  apply add_message_returned in Hadd
    as (_ & ct & ms & new & _ & Hms & _ & _ & Hpk & Hrows & Hids & _ & Hm' & Ha' & _).
  rewrite Hats in Ha'. cbn in Ha'.
  destruct (get_conversation_history_ok cid d' _ _ Hok Hm' Ha')
    as (h & Hh & _ & _ & Hperm & Hatts).
  assert (Hin : In (mk_message mid cid role ctype content t) (map h_message h)).
  { apply (Permutation_in _ (Permutation_sym Hperm)), filter_In. split.
    - apply in_or_app. right. now left.
    - apply String.eqb_refl. }
  apply in_map_iff in Hin as (e & He & Hin).
  exists h, e, new. repeat (split; [assumption|]).
  rewrite (Hatts e Hin), He. cbn [m_message_id].
  rewrite filter_app, (new_rows_match mid t _ _ Hrows).
  rewrite (old_rows_differ mid ms ats); [reflexivity| |exact Hpk].
  unfold refs_ok in Hrefs. rewrite Hats, Hms in Hrefs. exact Hrefs.
Qed.

Lemma shows_info_of (rows : list attachment) : Forall2 shows (map info_of rows) rows.
Proof. induction rows; cbn; constructor; [now repeat split | assumption]. Qed.

Lemma describes_info_of (mid : string) (t : Q) (atts : list attachment_dict)
    (new : list attachment) :
  Forall2 (row_of_dict mid t) atts new -> Forall2 describes atts (map info_of new).
Proof.
  induction 1 as [|att a atts new (Hn & Hp & Ht & Hs & _) _ IH]; cbn; constructor;
    [now repeat split | exact IH].
Qed.

(** C5. On every store that the calls of the class produce and that has
    the messages and attachments tables, [get_conversation_history C]
    returns a list whose messages are in non-decreasing order of
    [created_at], that holds each message of [C] once and nothing else,
    and in which the attachments of each entry show, column by column, the
    rows of [attachments] that carry the identifier of its message, each
    once; the list is empty for a message without attachment.  These are
    the attachments inserted with the message: when [add_message] then
    returns for [C], the history of [C] has an entry for the new message
    whose attachments have the names, paths, types and sizes of the
    descriptors of the call, one per descriptor, under the identifiers
    drawn for them. *)
Theorem get_conversation_history_complete :
  forall (calls : list call) (cid : string) (d : db)
         (ms : list message) (ats : list attachment),
    run calls None = Some d ->
    messages d = Some ms ->
    attachments d = Some ats ->
    (exists h,
       get_conversation_history cid d = Returned h /\
       StronglySorted message_le (map h_message h) /\
       NoDup (map (fun e => m_message_id (h_message e)) h) /\
       Permutation (map h_message h) (filter (fun m => m_conversation_id m =? cid) ms) /\
       (forall e, In e h ->
          exists rows,
            Permutation rows
              (filter (fun a => m_message_id (h_message e) =? a_message_id a) ats) /\
            Forall2 shows (h_attachments e) rows)) /\
    (forall (uuid4 : nat -> uuid) (t : Q) (role content ctype : string)
            (atts : option (list attachment_dict)) (mid : string) (d' : db),
       add_message uuid4 t cid role content ctype atts d = (Returned mid, d') ->
       exists h e infos,
         get_conversation_history cid d' = Returned h /\
         In e h /\
         h_message e = mk_message mid cid role ctype content t /\
         Permutation infos (h_attachments e) /\
         Forall2 describes (items atts) infos /\
         map i_attachment_id infos
         = map (fun k => str_uuid (uuid4 k)) (seq 1 (List.length (items atts)))).
Proof.
  intros calls cid d ms ats Hrun Hm Ha. split.
  - assert (Hok : db_ok d)
      by (change (store_ok (Some d)); apply ok_reachable; now exists calls).
    destruct (get_conversation_history_ok cid d ms ats Hok Hm Ha)
      as (h & Hh & Hsorted & Hnd & Hperm & Hatts).
    exists h. repeat (split; [assumption|]).
    intros e He. destruct (Permutation_map_inv _ _ (Hatts e He)) as (rows & E & Hrows).
    exists rows. split; [now apply Permutation_sym|]. rewrite E. apply shows_info_of.
  - intros uuid4 t role content ctype atts mid d' Hadd.
    destruct (history_after_add_message calls d d' uuid4 t cid role content ctype atts
                mid ats Hrun Ha Hadd)
      as (h & e & new & Hh & He & Hmsg & Hrows & Hids & Hperm).
    exists h, e, (map info_of new). repeat (split; [assumption|]).
    split; [now apply Permutation_sym|].
    split; [now apply (describes_info_of mid t)|].
    rewrite <- Hids, map_map. reflexivity.
Qed.

(** The history of the conversation of two messages, and its history after
    a third message with a file. *)
Lemma get_conversation_history_complete_witness :
  (exists h,
     get_conversation_history chat_id chat = Returned h /\
     StronglySorted message_le (map h_message h) /\
     NoDup (map (fun e => m_message_id (h_message e)) h) /\
     Permutation (map h_message h)
       (filter (fun m => m_conversation_id m =? chat_id) (items (messages chat))) /\
     (forall e, In e h ->
        exists rows,
          Permutation rows
            (filter (fun a => m_message_id (h_message e) =? a_message_id a)
                    (items (attachments chat))) /\
          Forall2 shows (h_attachments e) rows)) /\
  (exists h e infos,
     get_conversation_history chat_id
       (snd (add_message (uuids 48%N) 1736421260.75%Q chat_id "user" "see the file"
                         "text" (Some [a_png]) chat))
     = Returned h /\
     In e h /\
     h_message e = mk_message "00000000-0000-0000-0000-000000000030" chat_id "user"
                              "text" "see the file" 1736421260.75%Q /\
     Permutation infos (h_attachments e) /\
     Forall2 describes [a_png] infos /\
     map i_attachment_id infos = ["00000000-0000-0000-0000-000000000031"]).
Proof.
  destruct (get_conversation_history_complete chat_calls chat_id chat _ _
              eq_refl eq_refl eq_refl) as [Hread Hadd].
  split; [exact Hread|].
  exact (Hadd (uuids 48%N) 1736421260.75%Q "user" "see the file" "text" (Some [a_png])
              "00000000-0000-0000-0000-000000000030" _ eq_refl).
Defined.

(** The history after that third message, value by value. *)
Example history_after_third_message :
  option_map
    (map (fun e => (m_content (h_message e), h_attachments e)))
    (match get_conversation_history chat_id
             (snd (add_message (uuids 48%N) 1736421260.75%Q chat_id "user" "see the file"
                               "text" (Some [a_png]) chat)) with
     | Returned h => Some h
     | Raised _ => None
     end)
  = Some [ ("hello", []);
           ("hi", [mk_attachment_info "00000000-0000-0000-0000-000000000021" "a.png"
                                      "/tmp/a.png" "image/png" 1024]);
           ("see the file",
            [mk_attachment_info "00000000-0000-0000-0000-000000000031" "a.png"
                                "/tmp/a.png" "image/png" 1024]) ].
Proof. reflexivity. Qed.

(** * Further properties of the class *)

(** ** The schema after initialization *)

Lemma init_db_returned (now : value) (s s' : store) :
  _init_db now s = (Returned tt, s') -> exists d', s' = Some d' /\ schema_ok d'.
Proof.
  unfold schema_ok.
  destruct s as [[[ct|] [ms|] [ats|] [st|]]|]; cbn; intros H;
    try discriminate; try (injection H as <-; eexists; split; [reflexivity|];
                           do 4 eexists; split; reflexivity).
  unfold _init_db, with_connection_autocommit, bind, select_tables,
    table_info_conversations, alter_table_add_summary in H.
  cbn [present connect conversations messages attachments settings app
       List.length Nat.ltb Nat.leb negb] in H.
  destruct (existsb (String.eqb "summary") (conv_columns ct)) eqn:E; cbn [negb] in H.
  - injection H as <-. eexists. split; [reflexivity|]. do 4 eexists. split; [reflexivity|exact E].
  - cbn [conversations] in H.
    destruct (has_column "summary" (conv_columns ct)); [discriminate|].
    injection H as <-.
    eexists. split; [reflexivity|]. do 4 eexists. split; [reflexivity|].
    cbn. rewrite existsb_app. cbn. apply orb_true_r.
Qed.

Lemma schema_ok_init (now : value) (d : db) :
  schema_ok d -> _init_db now (Some d) = (Returned tt, Some d).
Proof. intros (ct & ms & ats & st & -> & H). now apply init_db_up_to_date. Qed.

Lemma schema_ok_exec (d : db) (c : call) :
  schema_ok d -> schema_ok (connect (exec (Some d) c)).
Proof.
  intros H. destruct c; cbn [exec connect].
  - now rewrite (schema_ok_init _ _ H).
  - destruct H as (ct & ms & ats & st & -> & H).
    unfold create_conversation, with_connection, bind, insert_conversation. cbn.
    destruct (existsb _ (conv_rows ct)); cbn; do 4 eexists; split; try reflexivity; exact H.
  - destruct (add_message uuid4 current_time conversation_id role content content_type
                          attachments0 d) as [[mid|e] d'] eqn:E; cbn [snd].
    + apply add_message_returned in E
        as (_ & ct & ms & new & Hct & Hms & _ & _ & _ & _ & _ & Hc' & Hm' & Ha' & Hs').
      destruct H as (ct0 & ms0 & ats0 & st0 & -> & H). cbn in *.
      injection Hct as <-. destruct d' as [c' m' a' s']. cbn in *. subst.
      do 4 eexists. split; [reflexivity | exact H].
    + unfold add_message, with_connection in E.
      destruct (add_message_body _ _ _ _ _ _ _ d); [discriminate|].
      injection E as _ <-. exact H.
  - destruct H as (ct & ms & ats & st & -> & H).
    unfold delete_conversation, with_connection, bind. cbn.
    do 4 eexists. split; [reflexivity | exact H].
  - destruct H as (ct & ms & ats & st & -> & H).
    unfold update_conversation_summary, with_connection, update_summary.
    cbn [conversations]. rewrite (has_column_summary _ H).
    cbn [snd connect set_conversations conversations
      messages attachments settings conv_columns].
    do 4 eexists. split; [reflexivity | exact H].
  - destruct H as (ct & ms & ats & st & -> & H).
    unfold save_settings, with_connection, bind, insert_settings, update_settings.
    match goal with |- context [g_id ?g] => destruct (g_id g) end;
      cbn [settings];
      repeat match goal with |- context [if ?b then _ else _] => destruct b end;
      cbn; do 4 eexists; (split; [reflexivity | exact H]).
  - destruct H as (ct & ms & ats & st & -> & H).
    unfold add_settings, with_connection, insert_settings. cbn [settings].
    repeat match goal with |- context [if ?b then _ else _] => destruct b end;
      cbn; do 4 eexists; (split; [reflexivity | exact H]).
  - destruct H as (ct & ms & ats & st & -> & H).
    unfold set_default_settings, with_connection, bind, clear_default, mark_default.
    cbn [settings set_settings].
    repeat match goal with |- context [if ?b then _ else _] => destruct b end;
      cbn; do 4 eexists; (split; [reflexivity | exact H]).
Qed.

Lemma schema_ok_run (calls : list call) :
  forall d, schema_ok d -> schema_ok (connect (run calls (Some d))).
Proof.
  induction calls as [|c calls IH]; intros d H; [exact H|].
  cbn [run fold_left].
  assert (E : exists d1, exec (Some d) c = Some d1 /\ schema_ok d1).
  { pose proof (schema_ok_exec d c H) as H1.
    destruct (exec (Some d) c) as [d1|] eqn:E1.
    - exists d1. now split.
    - destruct c; cbn in E1; try discriminate.
      unfold _init_db in E1. destruct (with_connection_autocommit _ _). discriminate. }
  destruct E as (d1 & -> & H1). now apply IH.
Qed.

(** X1. Once a call of [_init_db] has returned, whatever calls of the class
    follow, the store keeps its four tables and the [summary] column, and a
    later call of [_init_db] returns and writes nothing. *)
Theorem init_db_once :
  forall (now : value) (s : store) (d0 : db) (calls : list call),
    _init_db now s = (Returned tt, Some d0) ->
    schema_ok (connect (run calls (Some d0))) /\
    forall now',
      _init_db now' (Some (connect (run calls (Some d0))))
      = (Returned tt, Some (connect (run calls (Some d0)))).
Proof.
  intros now s d0 calls H.
  apply init_db_returned in H as (d' & E & H). injection E as <-.
  pose proof (schema_ok_run calls d0 H) as Hrun.
  split; [exact Hrun|]. intros now'. now apply schema_ok_init.
Qed.

Lemma init_db_once_witness :
  schema_ok chat /\ _init_db Null (Some chat) = (Returned tt, Some chat).
Proof.
  destruct (init_db_once (Text "1736421234.34.567") None
              (connect (run [Init (Text "1736421234.34.567")] None))
              (tl chat_calls) eq_refl) as [H1 H2].
  split; [exact H1 | exact (H2 Null)].
Defined.

(** ** Conversations: what is written and what is kept *)

Lemma Forall2_map_conversations (f : conversation -> conversation)
    (rows : list conversation) :
  Forall2 (fun c c' => c' = f c) rows (map f rows).
Proof. induction rows; cbn; constructor; auto. Qed.

Lemma map_unmatched_conversations (cid : string) (f : conversation -> conversation)
    (rows : list conversation) :
  (forall c, In c rows -> c_conversation_id c <> cid) ->
  map (fun c => if c_conversation_id c =? cid then f c else c) rows = rows.
Proof.
  induction rows as [|c rows IH]; cbn; [reflexivity|]. intros H.
  rewrite IH by (intros c' Hc'; apply H; now right).
  destruct (String.eqb_spec (c_conversation_id c) cid) as [E|E]; [|reflexivity].
  exfalso. apply (H c); [now left | exact E].
Qed.

(** X3. [update_conversation_summary] on a store whose conversations table
    has the [summary] column returns; the rows with the identifier take the
    new summary and keep their other columns, every other row and every
    other table is as before, and when no row has the identifier the store
    is not changed at all. *)
Theorem update_conversation_summary_frame :
  forall (cid summary : string) (d : db) (ct : conversations_table),
    conversations d = Some ct ->
    existsb (String.eqb "summary") (conv_columns ct) = true ->
    exists d' ct',
      update_conversation_summary cid summary d = (Returned tt, d') /\
      conversations d' = Some ct' /\
      conv_columns ct' = conv_columns ct /\
      Forall2
        (fun c c' =>
           c' = if c_conversation_id c =? cid
                then mk_conversation (c_conversation_id c) (c_created_at c)
                                     (c_last_updated c) (Some summary)
                else c)
        (conv_rows ct) (conv_rows ct') /\
      messages d' = messages d /\
      attachments d' = attachments d /\
      settings d' = settings d /\
      ((forall c, In c (conv_rows ct) -> c_conversation_id c <> cid) -> d' = d).
Proof.
  intros cid summary d ct Hct Hcol.
  unfold update_conversation_summary, with_connection, update_summary.
  rewrite Hct, (has_column_summary _ Hcol). do 2 eexists. split; [reflexivity|]. cbn.
  repeat (split; [reflexivity|]). split; [apply Forall2_map_conversations|].
  repeat (split; [reflexivity|]).
  intros Hnone. rewrite (map_unmatched_conversations cid _ _ Hnone).
  destruct d as [c m a s]. cbn in *. subst c. now destruct ct.
Qed.

(** The summary of the first of two conversations. *)
Lemma update_conversation_summary_frame_witness :
  exists d' ct',
    update_conversation_summary chat_id "a summary" two_chats = (Returned tt, d') /\
    conversations d' = Some ct' /\
    map (fun c => (c_conversation_id c, c_summary c)) (conv_rows ct')
    = [(chat_id, Some "a summary"); (other_id, None)] /\
    map c_last_updated (conv_rows ct')
    = map c_last_updated (conversation_rows two_chats) /\
    messages d' = messages two_chats /\
    attachments d' = attachments two_chats /\
    settings d' = settings two_chats.
Proof.
  destruct (update_conversation_summary_frame chat_id "a summary" two_chats _
              eq_refl eq_refl)
    as (d' & ct' & H & Hct & _ & Hrows & Hm & Ha & Hs & _).
  exists d', ct'. repeat (split; [assumption|]).
  cbn in Hrows.
  inversion Hrows as [|c1 c1' l1 l1' E1 Hrows1]; subst.
  inversion Hrows1 as [|c2 c2' l2 l2' E2 Hrows2]; subst.
  inversion Hrows2; subst.
  repeat split; try assumption; match goal with E : _ = conv_rows ct' |- _ => rewrite <- E end;
    reflexivity.
Defined.

Lemma filter_all {A : Type} (keep : A -> bool) (l : list A) :
  (forall x, In x l -> keep x = true) -> filter keep l = l.
Proof.
  induction l as [|x l IH]; cbn; [reflexivity|]. intros H.
  rewrite (H x (or_introl eq_refl)), IH; [reflexivity|].
  intros y Hy. apply H. now right.
Qed.

(** X4. [delete_conversation C] deletes nothing else: every conversation
    with another identifier, every message of another conversation, every
    attachment that is not of a message of [C], and the settings are kept,
    and no row is added.  When neither a conversation nor a message carries
    [C], the store is not changed at all. *)
Theorem delete_conversation_frame :
  forall (cid : string) (d : db) (ct : conversations_table)
         (ms : list message) (ats : list attachment),
    conversations d = Some ct ->
    messages d = Some ms ->
    attachments d = Some ats ->
    exists d' ct' ms' ats',
      delete_conversation cid d = (Returned tt, d') /\
      conversations d' = Some ct' /\ messages d' = Some ms' /\
      attachments d' = Some ats' /\ settings d' = settings d /\
      conv_columns ct' = conv_columns ct /\
      (forall c, In c (conv_rows ct') <->
                 In c (conv_rows ct) /\ c_conversation_id c <> cid) /\
      (forall m, In m ms' <-> In m ms /\ m_conversation_id m <> cid) /\
      (forall a, In a ats' <->
                 In a ats /\
                 forall m, In m ms -> m_conversation_id m = cid ->
                           m_message_id m <> a_message_id a) /\
      ((forall c, In c (conv_rows ct) -> c_conversation_id c <> cid) ->
       (forall m, In m ms -> m_conversation_id m <> cid) ->
       d' = d).
Proof.
  intros cid d ct ms ats Hc Hm Ha.
  unfold delete_conversation, with_connection, bind,
    delete_attachments_of, delete_messages_of, delete_conversation_row.
  rewrite Ha, Hm. cbn. rewrite Hm. cbn. rewrite Hc.
  do 4 eexists. split; [reflexivity|]. cbn. repeat (split; [reflexivity|]).
  assert (Hatt : forall a,
            negb (existsb (String.eqb (a_message_id a))
                    (map m_message_id
                       (filter (fun m => m_conversation_id m =? cid) ms))) = true <->
            (forall m, In m ms -> m_conversation_id m = cid ->
                       m_message_id m <> a_message_id a)).
  { intros a. rewrite negb_true_iff. split.
    - intros Hex m Hin E Eid.
      assert (Ht : existsb (String.eqb (a_message_id a))
                     (map m_message_id
                        (filter (fun m => m_conversation_id m =? cid) ms)) = true);
        [|congruence].
      apply existsb_exists. exists (m_message_id m). split.
      + apply in_map, filter_In. split; [exact Hin | now apply String.eqb_eq].
      + rewrite Eid. apply String.eqb_refl.
    - intros Hno. destruct (existsb _ _) eqn:Hex; [|reflexivity]. exfalso.
      apply existsb_exists in Hex as (k & Hk & Ek). apply String.eqb_eq in Ek.
      apply in_map_iff in Hk as (m & <- & Hin). apply filter_In in Hin as [Hin E].
      apply String.eqb_eq in E. apply (Hno m Hin E). now symmetry. }
  split; [|split; [|split]].
  - intros c. cbn [conv_rows]. rewrite filter_In, negb_true_iff, String.eqb_neq. tauto.
  - intros m. rewrite filter_In, negb_true_iff, String.eqb_neq. tauto.
  - intros a. rewrite filter_In, Hatt. tauto.
  - intros Hnc Hnm.
    rewrite (filter_all (fun c => negb (c_conversation_id c =? cid)) (conv_rows ct)),
      (filter_all (fun m => negb (m_conversation_id m =? cid)) ms),
      (filter_all _ ats).
    + destruct d as [c m a s]. cbn in *. subst. now destruct ct.
    + intros a _. apply Hatt. intros m Hin E. now destruct (Hnm m Hin).
    + intros m Hin. apply negb_true_iff, String.eqb_neq. now apply Hnm.
    + intros c Hin. apply negb_true_iff, String.eqb_neq. now apply Hnc.
Qed.

(** The first of two conversations is deleted with its two messages and
    its attachment; the second is kept with its message and its attachment. *)
Lemma delete_conversation_frame_witness :
  exists d' ct' ms' ats',
    delete_conversation chat_id two_chats = (Returned tt, d') /\
    conversations d' = Some ct' /\ messages d' = Some ms' /\
    attachments d' = Some ats' /\ settings d' = settings two_chats /\
    map c_conversation_id (conv_rows ct') = [other_id] /\
    map m_content ms' = ["elsewhere"] /\
    map a_attachment_id ats' = ["00000000-0000-0000-0000-000000000041"] /\
    (forall m, In m ms' <-> In m (items (messages two_chats)) /\ m_conversation_id m <> chat_id).
Proof.
  destruct (delete_conversation_frame chat_id two_chats _ _ _ eq_refl eq_refl eq_refl)
    as (d' & ct' & ms' & ats' & H & Hct & Hms & Hats & Hs & _ & _ & Hm & _ & _).
  exists d', ct', ms', ats'. repeat (split; [assumption|]).
  vm_compute in H. injection H as <-.
  cbn in Hct, Hms, Hats. injection Hct as <-. injection Hms as <-. injection Hats as <-.
  repeat (split; [reflexivity|]). exact Hm.
Defined.

(** X5. [create_conversation] on a store that has the conversations table:
    with an identifier that no row has, it returns that identifier and
    appends one row, whose [created_at] and [last_updated] are equal and
    whose summary is NULL, all other rows and tables being kept; with an
    identifier that a row has, it raises and the store is as before. *)
Theorem create_conversation_row :
  forall (u : uuid) (now : value) (d : db) (ct : conversations_table),
    conversations d = Some ct ->
    ((forall c, In c (conv_rows ct) -> c_conversation_id c <> str_uuid u) ->
     exists d',
       create_conversation u now d = (Returned (str_uuid u), d') /\
       conversations d'
       = Some (mk_conversations_table
                 (conv_columns ct)
                 (conv_rows ct ++ [mk_conversation (str_uuid u) now now None])) /\
       messages d' = messages d /\
       attachments d' = attachments d /\
       settings d' = settings d) /\
    ((exists c, In c (conv_rows ct) /\ c_conversation_id c = str_uuid u) ->
     exists e, create_conversation u now d = (Raised e, d)).
Proof.
  intros u now d ct Hct.
  unfold create_conversation, with_connection, bind, insert_conversation.
  rewrite Hct. split.
  - intros Hfresh.
    assert (E : existsb (fun c => c_conversation_id c =? str_uuid u) (conv_rows ct) = false).
    { destruct (existsb _ _) eqn:Hex; [|reflexivity]. exfalso.
      apply existsb_exists in Hex as (c & Hc & Ec). apply String.eqb_eq in Ec.
      now apply (Hfresh c). }
    rewrite E. eexists. split; [reflexivity|]. cbn. repeat split.
  - intros (c & Hc & Ec).
    assert (E : existsb (fun c => c_conversation_id c =? str_uuid u) (conv_rows ct) = true).
    { apply existsb_exists. exists c. split; [exact Hc | now apply String.eqb_eq]. }
    rewrite E. eexists. reflexivity.
Qed.

Lemma create_conversation_row_witness :
  exists e, create_conversation 7%N Null chat = (Raised e, chat).
Proof.
  apply (proj2 (create_conversation_row 7%N Null chat _ eq_refl)).
  eexists. split; [left; reflexivity | reflexivity].
Defined.

(** X6. [add_message] does not look for the conversation: when it returns
    for an identifier that no conversation has, the message is stored under
    that identifier and the conversations table is as before. *)
Theorem add_message_unknown_conversation :
  forall (uuid4 : nat -> uuid) (t : Q) (cid role content ctype : string)
         (atts : option (list attachment_dict)) (d d' : db) (mid : string)
         (ct : conversations_table),
    conversations d = Some ct ->
    (forall c, In c (conv_rows ct) -> c_conversation_id c <> cid) ->
    add_message uuid4 t cid role content ctype atts d = (Returned mid, d') ->
    conversations d' = conversations d /\
    exists ms',
      messages d' = Some ms' /\
      In (mk_message mid cid role ctype content t) ms'.
Proof.
  intros uuid4 t cid role content ctype atts d d' mid ct Hct Hnone H.
  apply add_message_returned in H
    as (_ & ct0 & ms & new & Hct0 & _ & _ & _ & _ & _ & _ & Hc' & Hm' & _ & _).
  rewrite Hct in Hct0. injection Hct0 as <-. split.
  - rewrite Hc', Hct. unfold touched.
    rewrite (map_unmatched_conversations cid _ _ Hnone). now destruct ct.
  - eexists. split; [exact Hm'|]. apply in_or_app. right. now left.
Qed.

Lemma add_message_unknown_conversation_witness :
  exists d',
    add_message (uuids 48%N) 3%Q "no-such-conversation" "user" "lost" "text" None chat
    = (Returned "00000000-0000-0000-0000-000000000030", d') /\
    conversations d' = conversations chat.
Proof.
  eexists. split; [reflexivity|].
  refine (proj1 (add_message_unknown_conversation (uuids 48%N) 3%Q "no-such-conversation"
                   "user" "lost" "text" None chat _
                   "00000000-0000-0000-0000-000000000030" _ eq_refl _ eq_refl)).
  intros c [<-|[]]. discriminate.
Defined.

(** ** When [add_message] returns *)

Lemma attachment_id_fresh (x : string) (ats : list attachment) :
  ~ In x (map a_attachment_id ats) ->
  existsb (fun a => a_attachment_id a =? x) ats = false.
Proof.
  intros H. destruct (existsb _ ats) eqn:E; [|reflexivity]. exfalso.
  apply existsb_exists in E as (a & Ha & Ea). apply String.eqb_eq in Ea.
  apply H. rewrite <- Ea. now apply in_map.
Qed.

Lemma insert_attachments_returns (uuid4 : nat -> uuid) (mid : string) (t : Q)
    (atts : list attachment_dict) :
  forall (i : nat) (d : db) (ats : list attachment),
    attachments d = Some ats ->
    Forall (fun att => ~ lacks_key att /\ ~ oversized att) atts ->
    NoDup (map a_attachment_id ats
           ++ map (fun k => str_uuid (uuid4 k)) (seq i (List.length atts))) ->
    exists d1, insert_attachments uuid4 i mid t atts d = Ok tt d1.
Proof.
  induction atts as [|att atts IH]; intros i d ats Ha Hall Hnd; cbn [insert_attachments].
  - eexists. reflexivity.
  - inversion Hall as [|? ? [Hatt Hsize] Hall']; subst.
    unfold bind, getitem, ret, raise.
    destruct att as [[name|] [path|] [type|] [size|]];
      try (exfalso; apply Hatt; unfold lacks_key; cbn; tauto).
    assert (Hfits : in_int64 size = true).
    { destruct (in_int64 size) eqn:E; [reflexivity|]. exfalso. apply Hsize.
      exists size. split; [reflexivity|]. intros H. apply in_int64_bounds in H. congruence. }
    cbn. unfold insert_attachment. rewrite Ha. cbn [a_attachment_id a_file_size].
    rewrite Hfits. cbn [negb].
    cbn [List.length seq map] in Hnd.
    rewrite attachment_id_fresh.
    + apply (IH (S i) _ (ats ++ [mk_attachment (str_uuid (uuid4 i)) mid name path type size t]));
        [reflexivity | exact Hall'|].
      rewrite map_app, <- app_assoc. exact Hnd.
    + intros Hin. apply NoDup_remove_2 in Hnd. apply Hnd, in_or_app. now left.
Qed.

(** X7. [add_message] returns the identifier of the message whenever the
    three tables are there, the role is [user], [assistant] or [system], the
    content type is [text], [image], [audio], [video] or [file], every
    descriptor has its four keys and a size within 64 bits, and the
    identifiers drawn for the message and for the attachments are new and
    distinct. *)
Theorem add_message_returns :
  forall (uuid4 : nat -> uuid) (t : Q) (cid role content ctype : string)
         (atts : option (list attachment_dict)) (d : db)
         (ct : conversations_table) (ms : list message) (ats : list attachment),
    conversations d = Some ct ->
    messages d = Some ms ->
    attachments d = Some ats ->
    In role ["user"; "assistant"; "system"] ->
    In ctype ["text"; "image"; "audio"; "video"; "file"] ->
    ~ In (str_uuid (uuid4 O)) (map m_message_id ms) ->
    Forall (fun att => ~ lacks_key att /\ ~ oversized att) (items atts) ->
    NoDup (map a_attachment_id ats
           ++ map (fun k => str_uuid (uuid4 k)) (seq 1 (List.length (items atts)))) ->
    exists d', add_message uuid4 t cid role content ctype atts d
               = (Returned (str_uuid (uuid4 O)), d').
Proof.
  intros uuid4 t cid role content ctype atts d ct ms ats Hct Hms Hats Hrole Hctype
         Hfresh Hall Hnd.
  unfold add_message, add_message_body, with_connection, bind.
  unfold insert_message at 1. rewrite Hms. cbn [m_role m_content_type m_message_id].
  apply role_ok_In in Hrole. apply content_type_ok_In in Hctype.
  rewrite Hrole, Hctype. cbn [andb negb].
  assert (E : existsb (fun m' => m_message_id m' =? str_uuid (uuid4 O)) ms = false).
  { destruct (existsb _ ms) eqn:Hex; [|reflexivity]. exfalso.
    apply existsb_exists in Hex as (m & Hm & Em). apply String.eqb_eq in Em.
    apply Hfresh. rewrite <- Em. now apply in_map. }
  rewrite E. unfold update_last_updated at 1. cbn [conversations set_messages].
  rewrite Hct.
  destruct (nonempty atts); [|eexists; reflexivity].
  match goal with
  | |- context [insert_attachments uuid4 1 ?m t (items atts) ?d2] =>
      destruct (insert_attachments_returns uuid4 m t (items atts) 1%nat d2 ats)
        as (d3 & ->); [exact Hats | exact Hall | exact Hnd |]
  end.
  eexists. reflexivity.
Qed.

Lemma add_message_returns_witness :
  exists d',
    add_message (uuids 48%N) 1736421260.75%Q chat_id "user" "a file" "file"
                (Some [a_png]) chat
    = (Returned "00000000-0000-0000-0000-000000000030", d').
Proof.
  apply (add_message_returns (uuids 48%N) 1736421260.75%Q chat_id "user" "a file" "file"
           (Some [a_png]) chat _ _ _ eq_refl eq_refl eq_refl).
  - now left.
  - do 4 right. now left.
  - intros [H|[H|[]]]; discriminate.
  - repeat constructor.
    + unfold lacks_key. cbn. intros [H|[H|[H|H]]]; discriminate.
    + intros (n & Hn & Hbig). injection Hn as <-. lia.
  - cbn. constructor; [intros [H|[]]; discriminate|].
    constructor; [intros [] | constructor].
Defined.

(** ** Settings: saving and looking up *)

Lemma map_unmatched_profiles (id : Z) (f : settings_row -> settings_row)
    (rows : list settings_row) :
  (forall r, In r rows -> s_id r <> id) ->
  map (fun r => if (s_id r =? id)%Z then f r else r) rows = rows.
Proof.
  induction rows as [|r rows IH]; cbn; [reflexivity|]. intros H.
  rewrite IH by (intros r' Hr'; apply H; now right).
  destruct (Z.eqb_spec (s_id r) id) as [E|E]; [|reflexivity].
  exfalso. apply (H r); [now left | exact E].
Qed.



(** X9. [save_settings] with an [id] that no profile has, the integers being
    within 64 bits, returns [False] and leaves the store as it was: nothing
    is inserted. *)
Theorem save_settings_unknown_id :
  forall (current_time : Q) (g : settings_dict) (d : db) (st : settings_table) (id : Z),
    settings d = Some st ->
    g_id g = Some id ->
    (forall r, In r (settings_rows st) -> s_id r <> id) ->
    bindable g ->
    int64 id ->
    save_settings current_time g d = (Returned false, d).
Proof.
  intros current_time g d st id Hst Hid Hnone Hg Hi.
  rewrite (save_settings_update_eq current_time g d st id Hst Hid Hg Hi).
  rewrite (filter_id_none _ _ Hnone), (map_unmatched_profiles id _ _ Hnone).
  cbn. f_equal. destruct d as [c m a s]. cbn in *. subst s. now destruct st.
Qed.

Lemma save_settings_unknown_id_witness :
  save_settings 5
    (mk_settings_dict (Some 9%Z) (Some "x") None (Some 128%Z) None None None None)
    two_profiles
  = (Returned false, two_profiles).
Proof.
  apply (save_settings_unknown_id 5
           (mk_settings_dict (Some 9%Z) (Some "x") None (Some 128%Z) None None None None)
           two_profiles _ 9%Z eq_refl eq_refl).
  - intros r [<-|[<-|[]]]; discriminate.
  - refine (conj _ (conj _ _)); intros n Hn; try discriminate Hn.
    injection Hn as <-. unfold int64. lia.
  - unfold int64. lia.
Defined.

Lemma same_profile (rows : list settings_row) (r1 r2 : settings_row) :
  NoDup (map s_id rows) -> In r1 rows -> In r2 rows -> s_id r1 = s_id r2 -> r1 = r2.
Proof.
  induction rows as [|r rows IH]; cbn; [tauto|]. intros Hnd H1 H2 E.
  inversion Hnd as [|? ? Hr Hnd']; subst.
  destruct H1 as [<-|H1], H2 as [<-|H2]; auto.
  - exfalso. apply Hr. rewrite E. now apply in_map.
  - exfalso. apply Hr. rewrite <- E. now apply in_map.
Qed.

Lemma single_default (rows : list settings_row) (r1 r2 : settings_row) :
  (count_default rows <= 1)%nat ->
  In r1 rows -> s_default r1 = true -> In r2 rows -> s_default r2 = true -> r1 = r2.
Proof.
  unfold count_default. intros Hc H1 D1 H2 D2.
  assert (F1 : In r1 (filter s_default rows)) by (apply filter_In; now split).
  assert (F2 : In r2 (filter s_default rows)) by (apply filter_In; now split).
  destruct (filter s_default rows) as [|x [|y l]]; cbn in *; try lia; try tauto.
  destruct F1 as [<-|[]], F2 as [<-|[]]. reflexivity.
Qed.

(** X10. On every store that the calls of the class produce,
    [get_settings_by_id] returns the profile that has the identifier; for
    an identifier within 64 bits it returns [None] exactly when no profile
    has it, and for one outside them it raises [OverflowError];
    [get_settings] returns the profile flagged default, and the empty
    result exactly when no profile is flagged. *)
Theorem settings_lookups :
  forall (calls : list call) (d : db) (st : settings_table),
    run calls None = Some d ->
    settings d = Some st ->
    (forall id r, get_settings_by_id id d = Returned (Some r) <->
                  In r (settings_rows st) /\ s_id r = id) /\
    (forall id, int64 id ->
                (get_settings_by_id id d = Returned None <->
                 forall r, In r (settings_rows st) -> s_id r <> id)) /\
    (forall id, ~ int64 id ->
                exists msg, get_settings_by_id id d = Raised (OverflowError msg)) /\
    (forall r, get_settings d = Returned (Some r) <->
               In r (settings_rows st) /\ s_default r = true) /\
    (get_settings d = Returned None <->
     forall r, In r (settings_rows st) -> s_default r = false).
Proof.
  intros calls d st Hrun Hst.
  assert (Hok : store_ok (Some d)) by (apply ok_reachable; now exists calls).
  destruct Hok as (Hs & _). cbn [connect] in Hs. rewrite Hst in Hs.
  destruct Hs as (Hnd & Hc & Hrange).
  unfold get_settings_by_id, get_settings, with_connection. rewrite Hst. cbn [fst].
  split; [|split; [|split; [|split]]].
  - intros id r. split.
    + destruct (in_int64 id); cbn [negb fst]; [|discriminate].
      intros H. injection H as H. apply find_some in H as [Hin E].
      split; [exact Hin | now apply Z.eqb_eq].
    + intros [Hin E].
      assert (Hfits : in_int64 id = true).
      { rewrite <- E. exact (proj1 (Forall_forall _ _) Hrange r Hin). }
      rewrite Hfits. cbn [negb fst].
      destruct (find _ (settings_rows st)) as [r'|] eqn:F.
      * apply find_some in F as [Hin' E']. apply Z.eqb_eq in E'.
        do 2 f_equal. apply (same_profile (settings_rows st)); auto. congruence.
      * exfalso. apply (find_none _ _ F) in Hin. apply Z.eqb_neq in Hin. contradiction.
  - intros id Hid. apply in_int64_bounds in Hid. rewrite Hid. cbn [negb fst]. split.
    + intros H. injection H as H. intros r Hin.
      apply (find_none _ _ H) in Hin. now apply Z.eqb_neq.
    + intros Hnone. destruct (find _ (settings_rows st)) as [r'|] eqn:F; [|reflexivity].
      apply find_some in F as [Hin' E']. apply Z.eqb_eq in E'.
      now destruct (Hnone r' Hin').
  - intros id Hid.
    assert (E : in_int64 id = false).
    { destruct (in_int64 id) eqn:E; [|reflexivity]. now apply in_int64_bounds in E. }
    rewrite E. cbn. eauto.
  - intros r. split.
    + intros H. injection H as H. now apply find_some in H.
    + intros [Hin D]. destruct (find s_default (settings_rows st)) as [r'|] eqn:F.
      * apply find_some in F as [Hin' D']. do 2 f_equal.
        now apply (single_default (settings_rows st)).
      * apply (find_none _ _ F) in Hin. congruence.
  - split.
    + intros H. injection H as H. intros r Hin. now apply (find_none _ _ H).
    + intros Hnone. destruct (find s_default (settings_rows st)) as [r'|] eqn:F; [|reflexivity].
      apply find_some in F as [Hin' D']. rewrite (Hnone r' Hin') in D'. discriminate.
Qed.

Lemma settings_lookups_witness :
  get_settings_by_id 9 two_profiles = Returned None /\
  option_map s_name
    (match get_settings_by_id 2 two_profiles with Returned o => o | Raised _ => None end)
  = Some "fast" /\
  (exists msg, get_settings_by_id (2 ^ 63) two_profiles = Raised (OverflowError msg)).
Proof.
  destruct (settings_lookups two_profiles_calls two_profiles _ eq_refl eq_refl)
    as (H1 & H2 & H3 & _).
  refine (conj _ (conj _ _)).
  - apply H2; [unfold int64; lia|]. intros r [<-|[<-|[]]]; discriminate.
  - rewrite (proj2 (H1 2%Z (mk_settings_row 2 "fast" false 0.2 256 0.95 default_host
                                            default_model_name ""
                                            (Text "1736421240.40.012")))); [reflexivity|].
    split; [right; left; reflexivity | reflexivity].
  - apply H3. unfold int64. lia.
Defined.

(** ** Settings: designating the default *)

Lemma filter_id_set_default (id : Z) (flag : settings_row -> bool)
    (rows : list settings_row) :
  List.length (filter (fun r => (s_id r =? id)%Z)
                 (map (fun r => set_default r (flag r)) rows))
  = List.length (filter (fun r => (s_id r =? id)%Z) rows).
Proof.
  induction rows as [|r rows IH]; cbn; [reflexivity|].
  destruct (s_id r =? id)%Z; cbn; now rewrite IH.
Qed.

(** X11. On every store that the calls of the class produce,
    [set_default_settings] with the identifier of a profile returns [True],
    and [get_settings] then returns that profile, flagged default and with
    its other columns as before. *)
Theorem set_default_then_get :
  forall (calls : list call) (d : db) (st : settings_table) (r : settings_row),
    run calls None = Some d ->
    settings d = Some st ->
    In r (settings_rows st) ->
    exists d',
      set_default_settings (s_id r) d = (Returned true, d') /\
      get_settings d' = Returned (Some (set_default r true)).
Proof.
  intros calls d st r Hrun Hst Hin.
  assert (Hok : store_ok (Some d)) by (apply ok_reachable; now exists calls).
  destruct Hok as (Hs & _). cbn [connect] in Hs. rewrite Hst in Hs.
  destruct Hs as (Hnd & _ & Hrange).
  rewrite (set_default_settings_eq _ _ _ Hst (proj1 (Forall_forall _ _) Hrange r Hin)).
  pose proof (filter_id_some (s_id r) _ r Hin eq_refl) as Hlt.
  apply Nat.ltb_lt in Hlt. rewrite Hlt.
  eexists. split; [reflexivity|].
  unfold get_settings, with_connection. cbn [settings set_settings fst settings_rows].
  destruct (find s_default _) as [x|] eqn:F.
  - apply find_some in F as [Hx Dx]. apply in_map_iff in Hx as (r0 & <- & Hr0).
    cbn in Dx. apply Z.eqb_eq in Dx.
    rewrite (same_profile _ r0 r Hnd Hr0 Hin Dx). now rewrite Z.eqb_refl.
  - exfalso.
    assert (Hx : In (set_default r (s_id r =? s_id r)%Z)
                    (map (fun r0 => set_default r0 (s_id r0 =? s_id r)%Z) (settings_rows st)))
      by (apply in_map_iff; now exists r).
    apply (find_none _ _ F) in Hx. cbn in Hx. rewrite Z.eqb_refl in Hx. discriminate.
Qed.

Lemma set_default_then_get_witness :
  exists d',
    set_default_settings 2 two_profiles = (Returned true, d') /\
    option_map s_name (match get_settings d' with Returned r => r | Raised _ => None end)
    = Some "fast".
Proof.
  destruct (set_default_then_get two_profiles_calls two_profiles _
              (mk_settings_row 2 "fast" false 0.2%Q 256 0.95%Q default_host
                               default_model_name "" (Text "1736421240.40.012"))
              eq_refl eq_refl)
    as (d' & H & Hg).
  - right. left. reflexivity.
  - exists d'. split; [exact H|]. now rewrite Hg.
Defined.

(** X12. [set_default_settings] with an identifier within 64 bits writes
    nothing but flags: every profile keeps its identifier and its other
    columns, the other tables are as before, and a second call with the
    same identifier returns the same value and changes nothing. *)
Theorem set_default_settings_only_flags :
  forall (d : db) (st : settings_table) (id : Z),
    settings d = Some st ->
    int64 id ->
    exists b d' st',
      set_default_settings id d = (Returned b, d') /\
      settings d' = Some st' /\
      settings_seq st' = settings_seq st /\
      Forall2 (fun r r' => r' = set_default r (s_default r'))
              (settings_rows st) (settings_rows st') /\
      conversations d' = conversations d /\
      messages d' = messages d /\
      attachments d' = attachments d /\
      set_default_settings id d' = (Returned b, d').
Proof.
  intros d st id Hst Hid. apply in_int64_bounds in Hid.
  rewrite (set_default_settings_eq _ _ _ Hst Hid).
  do 3 eexists. split; [reflexivity|]. cbn [settings set_settings conversations
    messages attachments settings_seq settings_rows].
  repeat (split; [reflexivity|]). split; [|repeat (split; [reflexivity|])].
  - induction (settings_rows st) as [|r rows IH]; cbn; constructor; auto.
  - erewrite set_default_settings_eq by (reflexivity || exact Hid).
    cbn [settings_rows settings_seq].
    rewrite (filter_id_set_default id (fun r => (s_id r =? id)%Z)).
    rewrite map_map. reflexivity.
Qed.

Lemma set_default_settings_only_flags_witness :
  exists d' st',
    set_default_settings 2 two_profiles = (Returned true, d') /\
    settings d' = Some st' /\
    map s_default (settings_rows st') = [false; true] /\
    map s_name (settings_rows st') = ["default"; "fast"] /\
    set_default_settings 2 d' = (Returned true, d').
Proof.
  destruct (set_default_settings_only_flags two_profiles _ 2%Z eq_refl)
    as (b & d' & st' & H & Hst & _ & _ & _ & _ & _ & H2).
  - unfold int64. lia.
  - exists d', st'. vm_compute in H. injection H as <- <-.
    cbn in Hst. injection Hst as <-. repeat split.
Defined.

(** ** The listing of the profiles *)

Lemma ascii_lt_trans (a b c : ascii) :
  (a ?= b)%char = Lt -> (b ?= c)%char = Lt -> (a ?= c)%char = Lt.
Proof. unfold Ascii.compare. rewrite !N.compare_lt_iff. apply N.lt_trans. Qed.

Lemma string_lt_trans :
  forall a b c : string,
    (a ?= b)%string = Lt -> (b ?= c)%string = Lt -> (a ?= c)%string = Lt.
Proof.
  induction a as [|x a IH]; intros [|y b] [|z c]; cbn; try discriminate; try reflexivity.
  destruct (x ?= y)%char eqn:Exy; try discriminate;
    destruct (y ?= z)%char eqn:Eyz; try discriminate; intros H1 H2.
  - apply Ascii.compare_eq_iff in Exy, Eyz. subst.
    assert (E : (z ?= z)%char = Eq) by (unfold Ascii.compare; apply N.compare_refl).
    rewrite E. eauto.
  - apply Ascii.compare_eq_iff in Exy. subst. now rewrite Eyz.
  - apply Ascii.compare_eq_iff in Eyz. subst. now rewrite Exy.
  - now rewrite (ascii_lt_trans _ _ _ Exy Eyz).
Qed.

Lemma string_leb_trans (a b c : string) :
  (a <=? b)%string = true -> (b <=? c)%string = true -> (a <=? c)%string = true.
Proof.
  unfold String.leb.
  destruct (a ?= b)%string eqn:Eab; try discriminate;
    destruct (b ?= c)%string eqn:Ebc; try discriminate; intros _ _.
  - apply String.compare_eq_iff in Eab. subst. now rewrite Ebc.
  - apply String.compare_eq_iff in Eab. subst. now rewrite Ebc.
  - apply String.compare_eq_iff in Ebc. subst. now rewrite Eab.
  - now rewrite (string_lt_trans _ _ _ Eab Ebc).
Qed.

Lemma insert_by_name_perm (r : settings_row) (rows : list settings_row) :
  Permutation (insert_by_name r rows) (r :: rows).
Proof.
  induction rows as [|x rows IH]; cbn; [reflexivity|].
  destruct (s_name r <=? s_name x)%string; [reflexivity|].
  rewrite IH. apply perm_swap.
Qed.

Lemma insert_by_name_sorted (r : settings_row) (rows : list settings_row) :
  StronglySorted name_le rows -> StronglySorted name_le (insert_by_name r rows).
Proof.
  induction 1 as [|x rows Hs IH Hx]; cbn; [repeat constructor|].
  destruct (s_name r <=? s_name x)%string eqn:E.
  - constructor; [now constructor|]. constructor; [exact E|].
    eapply Forall_impl; [|exact Hx]. intros y Hy. unfold name_le in *.
    eapply string_leb_trans; eassumption.
  - constructor; [exact IH|].
    apply (Permutation_Forall (Permutation_sym (insert_by_name_perm r rows))).
    constructor; [|exact Hx]. unfold name_le.
    destruct (String.leb_total (s_name r) (s_name x)) as [H|H]; [congruence | exact H].
Qed.

(** X13. [get_all_settings] on a store that has the settings table returns
    every profile once, in the order of the bytes of the names. *)
Theorem get_all_settings_sorted :
  forall (d : db) (st : settings_table),
    settings d = Some st ->
    exists l,
      get_all_settings d = Returned l /\
      Permutation l (settings_rows st) /\
      StronglySorted name_le l.
Proof.
  intros d st Hst. unfold get_all_settings, with_connection. rewrite Hst.
  eexists. split; [reflexivity|]. split.
  - induction (settings_rows st) as [|r rows IH]; cbn; [reflexivity|].
    rewrite insert_by_name_perm. now constructor.
  - induction (settings_rows st) as [|r rows IH]; cbn; [constructor|].
    now apply insert_by_name_sorted.
Qed.

Lemma get_all_settings_sorted_witness :
  exists l,
    get_all_settings two_profiles = Returned l /\
    map s_name l = ["default"; "fast"].
Proof.
  destruct (get_all_settings_sorted two_profiles _ eq_refl) as (l & H & _ & _).
  exists l. split; [exact H|].
  vm_compute in H. injection H as <-. reflexivity.
Defined.

(** ** The listing of the conversations *)






Lemma insert_by_created_at_perm (i : conversation_info) (l : list conversation_info) :
  Permutation (insert_by_created_at i l) (i :: l).
Proof.
  induction l as [|x l IH]; cbn; [reflexivity|].
  destruct (value_leb (l_created_at i) (l_created_at x)); [reflexivity|].
  rewrite IH. apply perm_swap.
Qed.


Lemma listing_perm (l : list conversation_info) :
  Permutation (fold_right insert_by_created_at [] l) l.
Proof.
  induction l as [|i l IH]; cbn; [reflexivity|].
  rewrite insert_by_created_at_perm. now constructor.
Qed.



(** *** The primary key of [conversations] *)








Lemma filter_filter_messages (p q : message -> bool) (ms : list message) :
  (forall m, p m = true -> q m = true) ->
  filter p (filter q ms) = filter p ms.
Proof.
  intros H. induction ms as [|m ms IH]; cbn; [reflexivity|].
  destruct (q m) eqn:Eq; cbn; rewrite IH; [reflexivity|].
  destruct (p m) eqn:Ep; [|reflexivity].
  rewrite (H m Ep) in Eq. discriminate.
Qed.

Lemma listing_In (i : conversation_info) (l : list conversation_info) :
  In i (fold_right insert_by_created_at [] l) <-> In i l.
Proof.
  split; apply Permutation_in; [|apply Permutation_sym]; apply listing_perm.
Qed.

(** X15. After [delete_conversation C], [get_all_conversations] returns the
    entries that it returned before for the other conversations, with their
    counts and times unchanged, and no entry for [C]. *)
Theorem delete_conversation_then_list :
  forall (cid : string) (d : db) (ct : conversations_table)
         (ms : list message) (ats : list attachment),
    conversations d = Some ct ->
    messages d = Some ms ->
    attachments d = Some ats ->
    exists d' l l',
      delete_conversation cid d = (Returned tt, d') /\
      get_all_conversations d = Returned l /\
      get_all_conversations d' = Returned l' /\
      forall i, In i l' <-> In i l /\ l_conversation_id i <> cid.
Proof.
  intros cid d ct ms ats Hc Hm Ha.
  unfold delete_conversation, get_all_conversations, with_connection, bind,
    delete_attachments_of, delete_messages_of, delete_conversation_row,
    select_conversations.
  rewrite Ha, Hm, Hc. cbn. rewrite Hm. cbn. rewrite Hc. cbn.
  do 3 eexists. repeat (split; [reflexivity|]).
  intros i.
  rewrite !listing_In, !in_map_iff. split.
  - intros (c & <- & Hin). apply filter_In in Hin as [Hin Hne].
    apply negb_true_iff, String.eqb_neq in Hne. split; [|exact Hne].
    exists c. split; [|exact Hin].
    unfold conversation_entry, messages_in. rewrite filter_filter_messages; [reflexivity|].
    intros m E. apply String.eqb_eq in E. apply negb_true_iff, String.eqb_neq. congruence.
  - intros [(c & <- & Hin) Hne]. cbn in Hne. exists c. split.
    + unfold conversation_entry, messages_in. rewrite filter_filter_messages; [reflexivity|].
      intros m E. apply String.eqb_eq in E. apply negb_true_iff, String.eqb_neq. congruence.
    + apply filter_In. split; [exact Hin|]. now apply negb_true_iff, String.eqb_neq.
Qed.

Lemma delete_conversation_then_list_witness :
  exists d',
    delete_conversation chat_id chat = (Returned tt, d') /\
    get_all_conversations d' = Returned [].
Proof.
  destruct (delete_conversation_then_list chat_id chat _ _ _ eq_refl eq_refl eq_refl)
    as (d' & l & l' & H & _ & _ & _).
  exists d'. split; [exact H|].
  vm_compute in H. injection H as <-. reflexivity.
Defined.

(** ** The identifiers that [add_settings] returns *)

Lemma max_id_sequential (rows : list settings_row) :
  map s_id rows = map Z.of_nat (seq 1 (List.length rows)) ->
  max_id rows = Z.of_nat (List.length rows).
Proof.
  unfold max_id. intros ->. generalize (List.length rows). intros n.
  assert (H : forall k, fold_right Z.max 0%Z (map Z.of_nat (seq (S k) n))
                        = if (n =? 0)%nat then 0%Z else Z.of_nat (k + n)).
  { induction n as [|n IH]; intros k; [reflexivity|].
    cbn [seq map fold_right]. rewrite IH.
    destruct n; cbn [Nat.eqb]; lia. }
  rewrite (H O). destruct n; cbn [Nat.eqb]; lia.
Qed.

Lemma sequential_insert (t : settings_table) (row : settings_row) :
  s_id row = next_id t ->
  sequential_table t ->
  sequential_table (mk_settings_table (settings_rows t ++ [row]) (next_id t)).
Proof.
  unfold sequential_table. cbn. intros Hid [Hids Hseq].
  assert (E : next_id t = Z.of_nat (List.length (settings_rows t) + 1)).
  { unfold next_id. rewrite Hseq, (max_id_sequential _ Hids). lia. }
  rewrite length_app. cbn [List.length]. split; [|exact E].
  rewrite map_app, seq_app, map_app, <- Hids. cbn. rewrite Hid, E.
  do 3 f_equal. lia.
Qed.

Lemma sequential_map (f : settings_row -> settings_row) (t : settings_table) :
  (forall r, s_id (f r) = s_id r) ->
  sequential_table t ->
  sequential_table (mk_settings_table (map f (settings_rows t)) (settings_seq t)).
Proof.
  unfold sequential_table. cbn. intros H [Hids Hseq].
  rewrite map_map, length_map. split; [|exact Hseq].
  erewrite map_ext; [exact Hids|]. exact H.
Qed.

Lemma sequential_init_db (now : value) (s : store) :
  sequential (connect s) -> sequential (connect (snd (_init_db now s))).
Proof.
  unfold sequential.
  destruct s as [[[ct|] [ms|] [ats|] [st|]]|]; cbn; intros H;
    try exact H; try exact I; try (split; reflexivity).
  unfold _init_db, with_connection_autocommit, bind, select_tables,
    table_info_conversations, alter_table_add_summary.
  cbn [present connect conversations messages attachments settings app
       List.length Nat.ltb Nat.leb negb].
  destruct (existsb (String.eqb "summary") (conv_columns ct)) eqn:E; cbn [negb];
    [exact H|].
  cbn [conversations]. destruct (has_column "summary" (conv_columns ct)); exact H.
Qed.

Lemma sequential_exec (s : store) (c : call) :
  sequential (connect s) -> sequential (connect (exec s c)).
Proof.
  intros H. destruct c; cbn [exec connect];
    [now apply sequential_init_db | ..];
    generalize dependent (connect s); intros d H; unfold sequential in *.
  - unfold create_conversation, with_connection, bind, insert_conversation,
      no_such_table, raise, ret.
    destruct (conversations d); [|exact H]. now destruct (existsb _ _).
  - destruct (add_message uuid4 current_time conversation_id role content content_type
                          attachments0 d) as [[mid|e] d'] eqn:E; cbn [snd].
    + apply add_message_returned in E
        as (_ & ct & ms & new & _ & _ & _ & _ & _ & _ & _ & _ & _ & _ & ->).
      exact H.
    + unfold add_message, with_connection in E.
      destruct (add_message_body _ _ _ _ _ _ _ _); [discriminate|].
      injection E as _ <-. exact H.
  - unfold delete_conversation, with_connection, bind, delete_attachments_of,
      delete_messages_of, delete_conversation_row, no_such_table, raise.
    destruct d as [[ct|] [ms|] [ats|] st]; exact H.
  - unfold update_conversation_summary, with_connection, update_summary,
      no_such_table, raise.
    destruct (conversations d); [|exact H]. now destruct (has_column _ _).
  - unfold save_settings, with_connection, bind, insert_settings, update_settings,
      no_such_table, too_large, raise.
    match goal with |- context [g_id ?g] => destruct (g_id g) end;
      destruct d as [c m a [t|]]; cbn [settings] in *; try exact H;
      repeat match goal with |- context [if ?b then _ else _] => destruct b end;
      cbn in *; try exact H.
    + apply sequential_map; [|exact H]. intros r. now destruct (s_id r =? _)%Z.
    + now apply sequential_insert.
  - unfold add_settings, with_connection, insert_settings, no_such_table, too_large, raise.
    destruct d as [c m a [t|]]; cbn [settings] in *; [|exact H].
    repeat match goal with |- context [if ?b then _ else _] => destruct b end;
      cbn in *; try exact H.
    now apply sequential_insert.
  - unfold set_default_settings, with_connection, bind, clear_default, mark_default,
      no_such_table, too_large, raise.
    destruct d as [c m a [t|]]; cbn [settings set_settings] in *; [|exact H].
    destruct (negb (in_int64 settings_id)); cbn in *; [exact H|].
    apply (sequential_map (fun r => if (s_id r =? settings_id)%Z
                                    then set_default r true else r)
             (mk_settings_table _ (settings_seq t))).
    + intros r. now destruct (s_id r =? settings_id)%Z.
    + apply (sequential_map (fun r => if s_default r then set_default r false else r));
        [|exact H].
      intros r. now destruct (s_default r).
Qed.

Lemma sequential_reachable (s : store) : reachable s -> sequential (connect s).
Proof.
  intros [calls ->]. unfold run.
  assert (H : sequential (connect None)) by exact I.
  revert H. generalize (@None db). induction calls as [|c calls IH]; intros s H; cbn.
  - exact H.
  - apply IH. now apply sequential_exec.
Qed.

(** X16. On every store that the calls of the class produce, the profiles
    have the identifiers 1, 2, ..., n in the order of their insertion, and
    [add_settings] with a dictionary whose integers are within 64 bits
    returns n + 1, as long as n + 1 is a rowid. *)
Theorem add_settings_sequential :
  forall (calls : list call) (d : db) (st : settings_table)
         (now : value) (g : settings_dict),
    run calls None = Some d ->
    settings d = Some st ->
    map s_id (settings_rows st)
    = map Z.of_nat (seq 1 (List.length (settings_rows st))) /\
    (bindable g ->
     (Z.of_nat (List.length (settings_rows st)) < 2 ^ 63 - 1)%Z ->
     fst (add_settings now g d)
     = Returned (Z.of_nat (List.length (settings_rows st)) + 1)%Z).
Proof.
  intros calls d st now g Hrun Hst.
  assert (H : sequential (connect (Some d)))
    by (apply sequential_reachable; now exists calls).
  unfold sequential in H. cbn [connect] in H. rewrite Hst in H.
  destruct H as [Hids Hseq]. split; [exact Hids|]. intros Hg Hn.
  assert (Hroom : has_room st).
  { split; [lia|]. apply Forall_forall. intros r Hr.
    apply In_max_id in Hr. rewrite (max_id_sequential _ Hids) in Hr. lia. }
  rewrite (add_settings_eq now g d st Hst Hg Hroom). cbn [fst].
  f_equal. unfold next_id. rewrite Hseq, (max_id_sequential _ Hids). lia.
Qed.

Lemma add_settings_sequential_witness :
  fst (add_settings Null fast_profile two_profiles) = Returned 3%Z.
Proof.
  refine (proj2 (add_settings_sequential two_profiles_calls two_profiles _ Null
                   fast_profile eq_refl eq_refl) _ _).
  - refine (conj _ (conj _ _)); intros n Hn; try discriminate Hn.
    injection Hn as <-. unfold int64. lia.
  - cbn. lia.
Defined.

(** ** Migration of a store without the [summary] column *)

(** X17. On an existing store that has the four tables and whose
    conversations table has no column named [summary], in whatever case of
    the letters, [_init_db] returns, the column is added after the others,
    every row of every table is kept, and the store then has the schema, so
    that [update_conversation_summary] returns on it.  When the table has
    the column under a name such as [Summary], [_init_db] raises and the
    store is as before. *)
Theorem init_db_migration :
  forall (now : value) (ct : conversations_table) (ms : list message)
         (ats : list attachment) (st : settings_table),
    ((forall c, In c (conv_columns ct) -> lowercase c <> "summary") ->
     exists d',
      _init_db now (Some (mk_db (Some ct) (Some ms) (Some ats) (Some st)))
      = (Returned tt, Some d') /\
      conversations d'
      = Some (mk_conversations_table (conv_columns ct ++ ["summary"]) (conv_rows ct)) /\
      messages d' = Some ms /\
      attachments d' = Some ats /\
      settings d' = Some st /\
      schema_ok d' /\
      forall cid summary,
        fst (update_conversation_summary cid summary d') = Returned tt) /\
    (~ In "summary" (conv_columns ct) ->
     (exists c, In c (conv_columns ct) /\ lowercase c = "summary") ->
     exists e,
       _init_db now (Some (mk_db (Some ct) (Some ms) (Some ats) (Some st)))
       = (Raised e, Some (mk_db (Some ct) (Some ms) (Some ats) (Some st)))).
Proof.
  intros now ct ms ats st. split.
  - intros Hnone.
    assert (H : has_column "summary" (conv_columns ct) = false).
    { unfold has_column. destruct (existsb _ _) eqn:E; [|reflexivity]. exfalso.
      apply existsb_exists in E as (c & Hc & E). apply String.eqb_eq in E.
      now apply (Hnone c). }
    rewrite (init_db_adds_summary now ct ms ats st H).
    eexists. split; [reflexivity|]. cbn [conversations messages attachments settings].
    repeat (split; [reflexivity|]).
    assert (E : existsb (String.eqb "summary") (conv_columns ct ++ ["summary"]) = true)
      by (rewrite existsb_app; cbn; apply orb_true_r).
    split.
    + do 4 eexists. split; [reflexivity | exact E].
    + intros cid summary.
      unfold update_conversation_summary, with_connection, update_summary.
      cbn [conversations conv_columns]. now rewrite (has_column_summary _ E).
  - intros Hexact (c & Hc & E).
    assert (H1 : existsb (String.eqb "summary") (conv_columns ct) = false).
    { destruct (existsb _ _) eqn:E1; [|reflexivity]. exfalso.
      apply existsb_exists in E1 as (x & Hx & Ex). apply String.eqb_eq in Ex.
      subst x. now apply Hexact. }
    assert (H2 : has_column "summary" (conv_columns ct) = true).
    { apply existsb_exists. exists c. split; [exact Hc|]. rewrite E. reflexivity. }
    rewrite (init_db_other_case now ct ms ats st H1 H2). eexists. reflexivity.
Qed.

Lemma init_db_migration_witness :
  exists d',
    _init_db Null (Some legacy_store) = (Returned tt, Some d') /\
    option_map conv_columns (conversations d') = Some conversations_columns /\
    option_map conv_rows (conversations d') = Some (conv_rows legacy_conversations).
Proof.
  destruct (proj1 (init_db_migration Null legacy_conversations
              (items (messages chat)) (items (attachments chat))
              (mk_settings_table (settings_rows (get (settings chat) (mk_settings_table [] 0)))
                                 (settings_seq (get (settings chat) (mk_settings_table [] 0))))))
    as (d' & H & Hc & _).
  - intros c [<-|[<-|[<-|[]]]]; discriminate.
  - exists d'. split; [exact H|]. rewrite Hc. split; reflexivity.
Defined.

(** A store whose column was declared as [Summary]. *)
Example init_db_capital_summary :
  let d := mk_db (Some (mk_conversations_table
                          ["conversation_id"; "created_at"; "last_updated"; "Summary"] []))
                 (Some []) (Some []) (Some (mk_settings_table [] 0)) in
  _init_db Null (Some d)
  = (Raised (OperationalError "duplicate column name: summary"), Some d).
Proof. reflexivity. Qed.

(** ** Appending a message, then reading *)

(** X19. After [add_message] has returned for the identifier [C], the entry
    of every conversation in [get_all_conversations] counts the messages
    that carried its identifier before, and one more for [C]. *)
Theorem add_message_then_list :
  forall (uuid4 : nat -> uuid) (t : Q) (cid role content ctype : string)
         (atts : option (list attachment_dict)) (d d' : db) (mid : string)
         (ms : list message),
    messages d = Some ms ->
    add_message uuid4 t cid role content ctype atts d = (Returned mid, d') ->
    exists l,
      get_all_conversations d' = Returned l /\
      forall i, In i l ->
        l_message_count i
        = Z.of_nat
            (List.length
               (filter (fun m => l_conversation_id i =? m_conversation_id m) ms)
             + (if l_conversation_id i =? cid then 1%nat else 0%nat)).
Proof.
  intros uuid4 t cid role content ctype atts d d' mid ms Hms H.
  apply add_message_returned in H
    as (_ & ct & ms0 & new & _ & Hms0 & _ & _ & _ & _ & _ & Hc' & Hm' & _ & _).
  rewrite Hms in Hms0. injection Hms0 as <-.
  unfold get_all_conversations, with_connection, select_conversations.
  rewrite Hc', Hm'. eexists. split; [reflexivity|].
  intros i Hi. apply (proj1 (listing_In _ _)) in Hi.
  apply in_map_iff in Hi as (c & <- & _).
  unfold conversation_entry, messages_in. cbn.
  rewrite filter_app, length_app. cbn. f_equal. f_equal.
  now destruct (c_conversation_id c =? cid).
Qed.

Lemma add_message_then_list_witness :
  exists l,
    get_all_conversations chat_after = Returned l /\
    map l_message_count l = [3%Z].
Proof.
  destruct (add_message_then_list (uuids 48%N) 1736421260.75%Q chat_id "user" "again"
              "text" None chat chat_after "00000000-0000-0000-0000-000000000030" _
              eq_refl eq_refl)
    as (l & H & _).
  exists l. split; [exact H|].
  vm_compute in H. injection H as <-. reflexivity.
Defined.

(** ** Writing, then reading back *)

Lemma insert_by_created_at_map (f : conversation_info -> conversation_info)
    (i : conversation_info) (l : list conversation_info) :
  (forall x, l_created_at (f x) = l_created_at x) ->
  insert_by_created_at (f i) (map f l) = map f (insert_by_created_at i l).
Proof.
  intros H. induction l as [|x l IH]; cbn; [reflexivity|].
  rewrite !H. destruct (value_leb (l_created_at i) (l_created_at x)); cbn;
    [reflexivity | now rewrite IH].
Qed.

Lemma listing_map (f : conversation_info -> conversation_info)
    (l : list conversation_info) :
  (forall x, l_created_at (f x) = l_created_at x) ->
  fold_right insert_by_created_at [] (map f l)
  = map f (fold_right insert_by_created_at [] l).
Proof.
  intros H. induction l as [|x l IH]; cbn; [reflexivity|].
  now rewrite IH, insert_by_created_at_map.
Qed.

(** X20. After [update_conversation_summary C], [get_all_conversations]
    returns the list that it returned before, in the same order, with the
    new summary in the entries of [C] and every other value unchanged. *)
Theorem update_conversation_summary_then_list :
  forall (cid summary : string) (d : db) (ct : conversations_table) (ms : list message),
    conversations d = Some ct ->
    existsb (String.eqb "summary") (conv_columns ct) = true ->
    messages d = Some ms ->
    exists d' l,
      update_conversation_summary cid summary d = (Returned tt, d') /\
      get_all_conversations d = Returned l /\
      get_all_conversations d'
      = Returned (map (fun i => if l_conversation_id i =? cid
                                then with_summary i summary else i)
                      l).
Proof.
  intros cid summary d ct ms Hct Hcol Hms.
  unfold update_conversation_summary, get_all_conversations, with_connection,
    update_summary, select_conversations.
  rewrite Hct, (has_column_summary _ Hcol), Hms.
  do 2 eexists. split; [reflexivity|]. split; [reflexivity|].
  cbn [fst snd conversations messages set_conversations conv_columns conv_rows].
  rewrite Hms. cbn [fst]. f_equal.
  rewrite <- listing_map by (intros x; now destruct (l_conversation_id x =? cid)).
  f_equal. rewrite !map_map. apply map_ext. intros c.
  unfold conversation_entry, messages_in, with_summary. rewrite Hcol. cbn.
  destruct (c_conversation_id c =? cid); reflexivity.
Qed.

Lemma update_conversation_summary_then_list_witness :
  exists d' l,
    update_conversation_summary chat_id "greetings" chat = (Returned tt, d') /\
    get_all_conversations d' = Returned l /\
    map l_summary l = [Some (Some "greetings")].
Proof.
  destruct (update_conversation_summary_then_list chat_id "greetings" chat _ _
              eq_refl eq_refl eq_refl)
    as (d' & l & H & Hl & Hl').
  exists d'. eexists. split; [exact H|]. split; [exact Hl'|].
  vm_compute in Hl. injection Hl as <-. reflexivity.
Defined.



(** ** Histories of the other conversations *)

Lemma rows_of_message (ats : list attachment) (m : message) (r : join_row) :
  In r (rows_of ats m) -> fst r = m.
Proof.
  unfold rows_of. destruct (filter _ ats) as [|a l].
  - intros [<-|[]]. reflexivity.
  - intros H. apply in_map_iff in H as (a' & <- & _). reflexivity.
Qed.

Lemma where_rows_of (cid : string) (ats : list attachment) (m : message) :
  filter (fun r : join_row => m_conversation_id (fst r) =? cid) (rows_of ats m)
  = if m_conversation_id m =? cid then rows_of ats m else [].
Proof.
  pose proof (rows_of_message ats m) as H.
  induction (rows_of ats m) as [|r rows IH].
  - now destruct (m_conversation_id m =? cid).
  - cbn. rewrite (H r (or_introl eq_refl)).
    assert (IH' := IH (fun r' Hr' => H r' (or_intror Hr'))).
    destruct (m_conversation_id m =? cid); [now rewrite IH' | exact IH'].
Qed.

Lemma rows_of_more_attachments (m : message) (ats new : list attachment) :
  (forall a, In a new -> a_message_id a <> m_message_id m) ->
  rows_of (ats ++ new) m = rows_of ats m.
Proof.
  intros H. unfold rows_of. rewrite filter_app.
  assert (E : filter (fun a => m_message_id m =? a_message_id a) new = []).
  { induction new as [|a new IH]; cbn; [reflexivity|].
    destruct (String.eqb_spec (m_message_id m) (a_message_id a)) as [E|E].
    - exfalso. apply (H a); [now left | now symmetry].
    - apply IH. intros a' Ha'. apply H. now right. }
  now rewrite E, app_nil_r.
Qed.

Lemma left_join_more_attachments (ms : list message) (ats new : list attachment) :
  (forall m a, In m ms -> In a new -> a_message_id a <> m_message_id m) ->
  left_join ms (ats ++ new) = left_join ms ats.
Proof.
  unfold left_join. induction ms as [|m ms IH]; cbn; [reflexivity|]. intros H.
  rewrite rows_of_more_attachments by (intros a Ha; apply H; [now left | exact Ha]).
  rewrite IH; [reflexivity|]. intros m' a Hm'. apply H. now right.
Qed.

(** X22. [add_message] for the identifier [C] leaves the history of every
    other conversation as it was: [get_conversation_history] of another
    identifier returns after the call what it returned before. *)
Theorem add_message_other_history :
  forall (uuid4 : nat -> uuid) (t : Q) (cid role content ctype : string)
         (atts : option (list attachment_dict)) (d d' : db) (mid other : string),
    add_message uuid4 t cid role content ctype atts d = (Returned mid, d') ->
    other <> cid ->
    get_conversation_history other d' = get_conversation_history other d.
Proof.
  intros uuid4 t cid role content ctype atts d d' mid other H Hne.
  apply add_message_returned in H
    as (_ & ct & ms & new & _ & Hms & _ & _ & Hpk & Hrows & _ & _ & Hm' & Ha' & _).
  unfold get_conversation_history, with_connection, bind, select_history.
  rewrite Hm', Ha', Hms.
  destruct (attachments d) as [ats|]; cbn [option_map]; [|reflexivity].
  assert (Hnew : forall a, In a new -> a_message_id a = mid).
  { clear - Hrows. induction Hrows as [|x y l l' Hxy _ IH]; [intros a []|].
    intros a [<-|Ha]; [|now apply IH]. now destruct Hxy as (_ & _ & _ & _ & E & _). }
  assert (Hold : forall m, In m ms -> m_message_id m <> mid).
  { intros m Hm E.
    assert (T : existsb (fun m => m_message_id m =? mid) ms = true); [|congruence].
    apply existsb_exists. exists m. split; [exact Hm | now apply String.eqb_eq]. }
  assert (E : filter (fun r : join_row => m_conversation_id (fst r) =? other)
                (left_join (ms ++ [mk_message mid cid role ctype content t]) (ats ++ new))
              = filter (fun r : join_row => m_conversation_id (fst r) =? other)
                  (left_join ms ats)).
  { unfold left_join. rewrite flat_map_app, filter_app. cbn [flat_map].
    rewrite app_nil_r, where_rows_of. cbn [m_conversation_id].
    assert (F : (cid =? other) = false) by (apply String.eqb_neq; congruence).
    rewrite F, app_nil_r. f_equal.
    apply (left_join_more_attachments ms ats new).
    intros m a Hm Ha. rewrite (Hnew a Ha). intros E. now apply (Hold m Hm). }
  cbv beta iota. unfold ret. cbn [fst]. do 4 f_equal. exact E.
Qed.

Lemma add_message_other_history_witness :
  get_conversation_history chat_id
    (snd (add_message (uuids 48%N) 3%Q "another" "user" "lost" "text" (Some [a_png]) chat))
  = get_conversation_history chat_id chat.
Proof.
  apply (add_message_other_history (uuids 48%N) 3%Q "another" "user" "lost" "text"
           (Some [a_png]) chat _ "00000000-0000-0000-0000-000000000030" chat_id eq_refl).
  discriminate.
Defined.

Lemma rows_of_kept_attachments (m : message) (keep : attachment -> bool)
    (ats : list attachment) :
  (forall a, In a ats -> a_message_id a = m_message_id m -> keep a = true) ->
  rows_of (filter keep ats) m = rows_of ats m.
Proof.
  intros H. unfold rows_of.
  assert (E : filter (fun a => m_message_id m =? a_message_id a) (filter keep ats)
              = filter (fun a => m_message_id m =? a_message_id a) ats).
  { induction ats as [|a ats IH]; cbn; [reflexivity|].
    assert (IH' := IH (fun a' Ha' => H a' (or_intror Ha'))).
    destruct (keep a) eqn:K; cbn; rewrite IH'; [reflexivity|].
    destruct (String.eqb_spec (m_message_id m) (a_message_id a)) as [E|E]; [|reflexivity].
    rewrite (H a (or_introl eq_refl) (eq_sym E)) in K. discriminate. }
  now rewrite E.
Qed.

Lemma where_left_join_delete (cid other : string) (keep : attachment -> bool)
    (ats : list attachment) (ms : list message) :
  other <> cid ->
  (forall m, In m ms -> m_conversation_id m = other ->
   forall a, In a ats -> a_message_id a = m_message_id m -> keep a = true) ->
  filter (fun r : join_row => m_conversation_id (fst r) =? other)
    (left_join (filter (fun m => negb (m_conversation_id m =? cid)) ms) (filter keep ats))
  = filter (fun r : join_row => m_conversation_id (fst r) =? other) (left_join ms ats).
Proof.
  intros Hne. unfold left_join. induction ms as [|m ms IH]; intros Hkeep; [reflexivity|].
  assert (IH' := IH (fun m' Hm' => Hkeep m' (or_intror Hm'))). clear IH.
  cbn [filter flat_map].
  destruct (String.eqb_spec (m_conversation_id m) cid) as [E|E]; cbn [negb flat_map].
  - rewrite filter_app, where_rows_of, IH'.
    assert (F : (m_conversation_id m =? other) = false)
      by (apply String.eqb_neq; congruence).
    now rewrite F.
  - rewrite !filter_app, !where_rows_of, IH'. f_equal.
    destruct (String.eqb_spec (m_conversation_id m) other) as [Eo|Eo]; [|reflexivity].
    apply rows_of_kept_attachments. now apply (Hkeep m (or_introl eq_refl)).
Qed.

(** X23. On every store that the calls of the class produce, after
    [delete_conversation C] the history of [C] is empty and the history of
    every other conversation is what it was before. *)
Theorem delete_conversation_then_history :
  forall (calls : list call) (cid : string) (d : db) (ct : conversations_table)
         (ms : list message) (ats : list attachment),
    run calls None = Some d ->
    conversations d = Some ct ->
    messages d = Some ms ->
    attachments d = Some ats ->
    exists d',
      delete_conversation cid d = (Returned tt, d') /\
      get_conversation_history cid d' = Returned [] /\
      forall other,
        other <> cid ->
        get_conversation_history other d' = get_conversation_history other d.
Proof.
  intros calls cid d ct ms ats Hrun Hc Hm Ha.
  assert (Hok : store_ok (Some d)) by (apply ok_reachable; now exists calls).
  destruct Hok as (_ & Hnd & _). cbn [connect] in Hnd. rewrite Hm in Hnd.
  unfold delete_conversation, with_connection, bind,
    delete_attachments_of, delete_messages_of, delete_conversation_row.
  rewrite Ha, Hm. cbn. rewrite Hm. cbn. rewrite Hc.
  eexists. split; [reflexivity|].
  unfold get_conversation_history, with_connection, bind, select_history.
  cbn [messages attachments set_conversations set_messages set_attachments].
  rewrite Hm, Ha. cbv beta iota. unfold ret. cbn [fst].
  set (ids := map m_message_id (filter (fun m => m_conversation_id m =? cid) ms)).
  set (keep := fun a => negb (existsb (String.eqb (a_message_id a)) ids)).
  split.
  - rewrite (where_no_message cid (filter (fun m => negb (m_conversation_id m =? cid)) ms));
      [reflexivity | intros r; apply left_join_message |].
    intros m Hin. apply filter_In in Hin as [_ Hin].
    now apply negb_true_iff, String.eqb_neq in Hin.
  - intros other Hne. do 4 f_equal.
    assert (Hkeep : forall m, In m ms -> m_conversation_id m = other ->
                    forall a, In a ats -> a_message_id a = m_message_id m -> keep a = true).
    { intros m Hin Ho a _ Ea. subst keep. cbn. apply negb_true_iff.
      destruct (existsb _ ids) eqn:X; [|reflexivity]. exfalso.
      apply existsb_exists in X as (k & Hk & Ek). apply String.eqb_eq in Ek.
      subst ids. apply in_map_iff in Hk as (m0 & E0 & H0).
      apply filter_In in H0 as [H0 C0]. apply String.eqb_eq in C0.
      assert (Em : m0 = m) by (apply (same_message ms); auto; congruence).
      subst m0. congruence. }
    now apply where_left_join_delete.
Qed.

(** The first of two conversations is deleted: its history is empty, and
    the history of the second still has its message with the file. *)
Lemma delete_conversation_then_history_witness :
  exists d',
    delete_conversation chat_id two_chats = (Returned tt, d') /\
    option_map (@List.length message) (messages d') = Some 1%nat /\
    get_conversation_history chat_id d' = Returned [] /\
    get_conversation_history other_id d' = get_conversation_history other_id two_chats /\
    option_map (map (fun e => (m_content (h_message e), map i_file_name (h_attachments e))))
               (match get_conversation_history other_id d' with
                | Returned h => Some h
                | Raised _ => None
                end)
    = Some [("elsewhere", ["a.png"])].
Proof.
  destruct (delete_conversation_then_history two_chats_calls chat_id two_chats _ _ _
              eq_refl eq_refl eq_refl eq_refl)
    as (d' & H & Hempty & Hother).
  exists d'. split; [exact H|].
  assert (Ho : get_conversation_history other_id d'
               = get_conversation_history other_id two_chats)
    by (apply Hother; discriminate).
  split; [|split; [exact Hempty|split; [exact Ho|]]].
  - vm_compute in H. injection H as <-. reflexivity.
  - rewrite Ho. reflexivity.
Defined.
